(** * ledger_generation: the reconciliation and disclosure-dating engine

    A shallow embedding of [src/ledger.py] and the properties of its
    components: the date normaliser [parse_mixed_date], the left merge of
    valuations with the catalog, [calc_annualized_return],
    [assign_nav_disclosure_dates] and the final projection.

    Conventions of the embedding.
    - A pandas [Timestamp] is its int64 count of nanoseconds since
      1970-01-01 (a [Z] with the bounds written out); [NaT] is [None].
    - A float64 cell is a primitive binary64 float; a null numeric cell is
      NaN, as pandas stores it.
    - A Python exception is a value [Raise e] of [PyResult]; [try/except]
      is a match on it.
    - A DataFrame with the RangeIndex that [pd.merge] produces is a list of
      rows; the index label of a row is its position. *)

From Stdlib Require Import ZArith String Ascii List Bool Lia.
From Stdlib Require Import Floats.PrimFloat Floats.FloatOps Floats.SpecFloat.
From Stdlib Require Import Numbers.Cyclic.Int63.Uint63.
From Stdlib Require Import Sorting.Sorted Numbers.DecimalString.
From stdpp Require Import base list sorting strings.

Set Warnings "-inexact-float".
Local Open Scope string_scope.
Local Open Scope Z_scope.

(** ** Python values shared by the components *)

(** The exceptions met.  [NotInIndex] is the [KeyError] of [df[labels]],
    which names the labels that are no column. *)
Inductive exn : Type :=
  | ValueError
  | KeyError (label : string)
  | OutOfBoundsDatetime
  | ParserError
  | OverflowError
  | ZeroDivisionError
  | AttributeError
  | NotInIndex (missing : list string).

Inductive PyResult (A : Type) : Type :=
  | Ok (a : A)
  | Raise (e : exn).
Arguments Ok {A} a.
Arguments Raise {A} e.

#[global] Instance PyResult_ret : MRet PyResult := fun A a => Ok a.

(** [x ← r; k]: the statements after a call that raised do not run. *)
#[global] Instance PyResult_bind : MBind PyResult := fun A B k r =>
  match r with
  | Ok a => k a
  | Raise e => Raise e
  end.

(** int64 nanoseconds since the Unix epoch. *)
Definition Timestamp : Type := Z.

(** [pd.NaT] *)
Definition NaT : option Timestamp := None.

Definition ns_per_day : Z := 86400 * 1000000000.

(** [pd.isna] on a float cell. *)
Definition isna (x : float) : bool := PrimFloat.is_nan x.


(** ** DateNormalizer: [parse_mixed_date] *)

Module DateNormalizer.

(** *** Calendar arithmetic of the proleptic Gregorian calendar *)

(** Days from 1970-01-01 to the civil date [y]-[m]-[d]. *)
Definition days_from_civil (y m d : Z) : Z :=
  let y' := if m <=? 2 then y - 1 else y in
  let era := y' / 400 in
  let yoe := y' - era * 400 in
  let mp := if 2 <? m then m - 3 else m + 9 in
  let doy := (153 * mp + 2) / 5 + d - 1 in
  let doe := yoe * 365 + yoe / 4 - yoe / 100 + doy in
  era * 146097 + doe - 719468.

(** The civil date (year, month, day) of a day count from 1970-01-01. *)
Definition civil_from_days (z : Z) : Z * Z * Z :=
  let z' := z + 719468 in
  let era := z' / 146097 in
  let doe := z' - era * 146097 in
  let yoe := (doe - doe / 1460 + doe / 36524 - doe / 146096) / 365 in
  let doy := doe - (365 * yoe + yoe / 4 - yoe / 100) in
  let mp := (5 * doy + 2) / 153 in
  let d := doy - (153 * mp + 2) / 5 + 1 in
  let m := if mp <? 10 then mp + 3 else mp - 9 in
  ((if m <=? 2 then yoe + era * 400 + 1 else yoe + era * 400), m, d).

Definition is_leap (y : Z) : bool :=
  ((y mod 4 =? 0) && negb (y mod 100 =? 0)) || (y mod 400 =? 0).

Definition days_in_month (y m : Z) : Z :=
  if m =? 2 then (if is_leap y then 29 else 28)
  else if (m =? 4) || (m =? 6) || (m =? 9) || (m =? 11) then 30
  else 31.

(** A [Timestamp] of nanosecond resolution holds an int64 other than the
    smallest one, which is [NaT].  This is the range of every pandas up
    to 2; a pandas that also holds coarser resolutions accepts days
    outside of it. *)
Definition in_bounds (v : Z) : bool :=
  (- (2 ^ 63) <? v) && (v <? 2 ^ 63).

(** Midnight of the civil date [y]-[m]-[d]. *)
Definition Timestamp_of_ymd (y m d : Z) : Timestamp :=
  days_from_civil y m d * ns_per_day.

(** *** Text *)

(** The text of a cell is taken in the ASCII range: there [\d] is one of
    the ten digits and [str.strip] removes the blanks below.  (On other
    text Python also counts the decimal digits and the blanks of
    Unicode.) *)
Definition is_digit (c : ascii) : bool :=
  let n := N_of_ascii c in (48 <=? n)%N && (n <=? 57)%N.

(** Python's [str.isspace] on the ASCII range. *)
Definition is_space (c : ascii) : bool :=
  let n := N_of_ascii c in
  ((9 <=? n)%N && (n <=? 13)%N) || ((28 <=? n)%N && (n <=? 32)%N).

Fixpoint lstrip (s : string) : string :=
  match s with
  | String c s' => if is_space c then lstrip s' else s
  | EmptyString => EmptyString
  end.

Fixpoint rstrip (s : string) : string :=
  match s with
  | String c s' =>
      match rstrip s' with
      | EmptyString => if is_space c then EmptyString else String c EmptyString
      | r => String c r
      end
  | EmptyString => EmptyString
  end.

(** [str.strip()] *)
Definition strip (s : string) : string := rstrip (lstrip s).

Fixpoint all_digits (s : string) : bool :=
  match s with
  | String c s' => is_digit c && all_digits s'
  | EmptyString => true
  end.

(** [re.fullmatch(r"\d{lo,hi}", text)] *)
Definition fullmatch_digits (lo hi : nat) (text : string) : bool :=
  all_digits text &&
  (lo <=? String.length text)%nat && (String.length text <=? hi)%nat.

Definition digit_val (c : ascii) : Z := Z.of_N (N_of_ascii c) - 48.

(** The number a string of digits denotes, continuing from [acc]. *)
Fixpoint digits_val (acc : Z) (s : string) : Z :=
  match s with
  | String c s' => digits_val (acc * 10 + digit_val c) s'
  | EmptyString => acc
  end.

Definition digit_char (d : Z) : ascii := ascii_of_N (48 + Z.to_N d).

(** The [k] low-order decimal digits of [n], as [%0kd] prints a number
    below [10^k]. *)
Fixpoint pad (k : nat) (n : Z) : string :=
  match k with
  | O => EmptyString
  | S k' => String (digit_char (n / 10 ^ Z.of_nat k' mod 10)) (pad k' n)
  end.

(** [str(t)] for a [Timestamp]: [YYYY-MM-DD HH:MM:SS], followed by the
    fraction of the second when it is not zero. *)
Definition Timestamp_str (t : Timestamp) : string :=
  let day := t / ns_per_day in
  let rest := t mod ns_per_day in
  let '(y, m, d) := civil_from_days day in
  let secs := rest / 1000000000 in
  let frac := rest mod 1000000000 in
  pad 4 y ++ "-" ++ pad 2 m ++ "-" ++ pad 2 d ++ " " ++
  pad 2 (secs / 3600) ++ ":" ++ pad 2 (secs / 60 mod 60) ++ ":" ++
  pad 2 (secs mod 60) ++
  (if frac mod 1000 =? 0 then
     if frac =? 0 then "" else "." ++ pad 6 (frac / 1000)
   else "." ++ pad 9 frac).

(** *** The raw scalar of a cell *)

Inductive scalar : Type :=
  | SNull                      (* None or NaT *)
  | SStr (s : string)
  | SInt (n : Z)
  | SFloat (f : float)         (* NaN is the null of a numeric column *)
  | STimestamp (t : Timestamp).

(** [pd.isna(value)] *)
Definition isna_scalar (value : scalar) : bool :=
  match value with
  | SNull => true
  | SFloat f => isna f
  | _ => false
  end.

(** [value == ""] *)
Definition eq_empty (value : scalar) : bool :=
  match value with
  | SStr EmptyString => true
  | _ => false
  end.

(** [pd.to_datetime(text, format="%Y%m%d")] on a text of eight digits. *)
Definition to_datetime_Ymd (text : string) : PyResult Timestamp :=
  let y := digits_val 0 (substring 0 4 text) in
  let m := digits_val 0 (substring 4 2 text) in
  let d := digits_val 0 (substring 6 2 text) in
  if (1 <=? m) && (m <=? 12) && (1 <=? d) && (d <=? days_in_month y m) then
    if in_bounds (Timestamp_of_ymd y m d) then Ok (Timestamp_of_ymd y m d)
    else Raise OutOfBoundsDatetime
  else Raise ValueError.

(** The offset of [origin="1899-12-30"] in days. *)
Definition ioffset : Z := days_from_civil 1899 12 30.

(** [pd.to_datetime(n, unit="D", origin="1899-12-30")] for a whole number
    of days [n], at nanosecond resolution. *)
Definition to_datetime_unit_D (n : Z) : PyResult Timestamp :=
  let v := (n + ioffset) * ns_per_day in
  if in_bounds v then Ok v else Raise OutOfBoundsDatetime.

(** [Series.dt.floor("D")] on one element. *)
Definition floor_D (r : option Timestamp) : option Timestamp :=
  match r with
  | Some v => Some (v / ns_per_day * ns_per_day)
  | None => None
  end.

Section parse_mixed_date.

(** [repr] of a float, Python's shortest round-trip rendering. *)
Variable repr_float : float -> string.

(** [pd.to_datetime(text)], the generic parser of pandas and dateutil:
    a time zone-naive [Timestamp], [NaT], or an exception. *)
Variable to_datetime : string -> PyResult (option Timestamp).

(** [str(value)] *)
Definition str (value : scalar) : string :=
  match value with
  | SNull => "NaT"
  | SStr s => s
  | SInt n => NilZero.string_of_int (Z.to_int n)
  | SFloat f => repr_float f
  | STimestamp t => Timestamp_str t
  end.

(** The inner function [convert].  [float(text)] of at most six digits is
    the whole number the digits denote. *)
Definition convert (value : scalar) : PyResult (option Timestamp) :=
  if isna_scalar value || eq_empty value then Ok NaT
  else
    let text := strip (str value) in
    let generic :=
      match to_datetime text with
      | Ok r => Ok r
      | Raise _ => Ok NaT
      end in
    let serial :=
      if fullmatch_digits 4 6 text then
        match to_datetime_unit_D (digits_val 0 text) with
        | Ok t => Ok (Some t)
        | Raise _ => generic
        end
      else generic in
    if fullmatch_digits 8 8 text then
      match to_datetime_Ymd text with
      | Ok t => Ok (Some t)
      | Raise _ => serial
      end
    else serial.

(** [convert] followed by the floor to the day, on one element of a
    naive datetime column. *)
Definition normalize (value : scalar) : PyResult (option Timestamp) :=
  match convert value with
  | Ok r => Ok (floor_D r)
  | Raise e => Raise e
  end.

(** The UTC offset, in nanoseconds, of the value [pd.to_datetime(text)]
    returns when that value is time zone-aware ([None]: naive).  For an
    aware value [to_datetime] gives the UTC instant. *)
Variable tzinfo : string -> option Z.

(** The zone of the value [convert] returns: the two digit stages give
    naive values, the generic parser what the text says. *)
Definition convert_tz (value : scalar) : option Z :=
  if isna_scalar value || eq_empty value then None
  else
    let text := strip (str value) in
    let generic :=
      match to_datetime text with
      | Ok (Some _) => tzinfo text
      | _ => None
      end in
    let serial :=
      if fullmatch_digits 4 6 text then
        match to_datetime_unit_D (digits_val 0 text) with
        | Ok _ => None
        | Raise _ => generic
        end
      else generic in
    if fullmatch_digits 8 8 text then
      match to_datetime_Ymd text with
      | Ok _ => None
      | Raise _ => serial
      end
    else serial.

(** [series.apply(convert)], element by element. *)
Fixpoint apply_convert (series : list scalar)
  : PyResult (list (option Timestamp)) :=
  match series with
  | [] => Ok []
  | value :: rest =>
      match convert value with
      | Ok r =>
          match apply_convert rest with
          | Ok rs => Ok (r :: rs)
          | Raise e => Raise e
          end
      | Raise e => Raise e
      end
  end.

(** The zone of an element whose result is a [Timestamp]; [NaT] has
    none. *)
Definition zone_of (value : scalar) : option (option Z) :=
  match convert value with
  | Ok (Some _) => Some (convert_tz value)
  | _ => None
  end.

(** The zones met among the results, each once. *)
Definition zones (series : list scalar) : list (option Z) :=
  remove_dups (omap zone_of series).

(** [.dt.floor("D")] on one element of a column in the zone of offset
    [offset]: the midnight of the local day. *)
Definition floor_D_tz (offset : Z) (r : option Timestamp)
  : option Timestamp :=
  match r with
  | Some v => Some ((v + offset) / ns_per_day * ns_per_day - offset)
  | None => None
  end.

(** [parse_mixed_date(series)]: [series.apply(convert).dt.floor("D")].
    [.dt] exists on a datetime column only.  [apply] on an empty column
    returns it as it is, and a column read from a workbook is not of a
    datetime type; results that are all [NaT] or naive make a naive
    datetime column, results in one zone a column of that zone, and any
    mix stays a column of objects: on an empty column and on a mix
    [.dt] raises [AttributeError].  The result is the zone of the column
    and its values. *)
Definition parse_mixed_date (series : list scalar)
  : PyResult (option Z * list (option Timestamp)) :=
  match series with
  | [] => Raise AttributeError
  | _ :: _ =>
      match apply_convert series with
      | Raise e => Raise e
      | Ok rs =>
          match zones series with
          | [] | [None] => Ok (None, floor_D <$> rs)
          | [Some offset] => Ok (Some offset, floor_D_tz offset <$> rs)
          | _ => Raise AttributeError
          end
      end
  end.

(** The cell that holds a result of [parse_mixed_date] when the function
    is applied to the column again. *)
Definition cell_of (r : option Timestamp) : scalar :=
  match r with
  | Some t => STimestamp t
  | None => SNull
  end.

(** *** The cascade in the words of the specification (4.1) *)

(** The first attempt that succeeds; Unknown when all are exhausted. *)
Fixpoint first_success (attempts : list (PyResult (option Timestamp)))
  : option Timestamp :=
  match attempts with
  | Ok r :: _ => r
  | Raise _ :: rest => first_success rest
  | [] => NaT
  end.

Definition attempt (r : PyResult Timestamp) : PyResult (option Timestamp) :=
  match r with
  | Ok t => Ok (Some t)
  | Raise e => Raise e
  end.

(** Null or empty gives Unknown; otherwise stringify and trim, then try
    in turn [YYYYMMDD] when the text is exactly 8 digits, the day serial
    from 1899-12-30 when it is 4 to 6 digits, and the generic parse; the
    result is truncated to the day. *)
Definition normalize_spec (value : scalar) : option Timestamp :=
  if isna_scalar value || eq_empty value then NaT
  else
    let text := strip (str value) in
    floor_D (first_success (
      (if fullmatch_digits 8 8 text
       then [attempt (to_datetime_Ymd text)] else []) ++
      (if fullmatch_digits 4 6 text
       then [attempt (to_datetime_unit_D (digits_val 0 text))] else []) ++
      [to_datetime text])).

End parse_mixed_date.

(** A generic parser that reads the two ISO 8601 forms [YYYY-MM-DD] and
    [YYYY-MM-DD HH:MM:SS] and raises on any other text: the part of
    [pd.to_datetime] that the examples below use. *)
Definition iso_to_datetime (text : string) : PyResult (option Timestamp) :=
  let num i n := digits_val 0 (substring i n text) in
  let digits i n := fullmatch_digits n n (substring i n text) in
  let sep i c := String.eqb (substring i 1 text) c in
  let date_ok :=
    digits 0%nat 4%nat && sep 4%nat "-" && digits 5%nat 2%nat &&
    sep 7%nat "-" && digits 8%nat 2%nat &&
    (1 <=? num 5%nat 2%nat) && (num 5%nat 2%nat <=? 12) &&
    (1 <=? num 8%nat 2%nat) &&
    (num 8%nat 2%nat <=? days_in_month (num 0%nat 4%nat) (num 5%nat 2%nat)) in
  let time_ok :=
    sep 10%nat " " && digits 11%nat 2%nat && sep 13%nat ":" &&
    digits 14%nat 2%nat && sep 16%nat ":" && digits 17%nat 2%nat &&
    (num 11%nat 2%nat <? 24) && (num 14%nat 2%nat <? 60) &&
    (num 17%nat 2%nat <? 60) in
  let midnight :=
    Timestamp_of_ymd (num 0%nat 4%nat) (num 5%nat 2%nat) (num 8%nat 2%nat) in
  let v :=
    midnight + ((num 11%nat 2%nat * 60 + num 14%nat 2%nat) * 60 +
                num 17%nat 2%nat) * 1000000000 in
  if date_ok && (String.length text =? 10)%nat then
    if in_bounds midnight then Ok (Some midnight) else Raise OutOfBoundsDatetime
  else if date_ok && time_ok && (String.length text =? 19)%nat then
    if in_bounds v then Ok (Some v) else Raise OutOfBoundsDatetime
  else Raise ParserError.



End DateNormalizer.

(** ** RecordMerger: [pd.merge(df_nv_all, df_product, how='left', on='产品代码')] *)

Module RecordMerger.

Section merge.

(** The rows of the valuation table and of the catalog, each with its
    [产品代码] cell ([None]: a null cell). *)
Context {Valuation CatalogEntry : Type}.
Variable left_on : Valuation -> option string.
Variable right_on : CatalogEntry -> option string.

(** The catalog rows whose key equals the key of [l]; pandas compares the
    cells as they are, and pairs a null key with a null key. *)
Definition matches (right : list CatalogEntry) (l : Valuation)
  : list CatalogEntry :=
  filter (fun r => right_on r = left_on l) right.

(** The output rows of one valuation row: one per match, or the row alone
    with null catalog fields. *)
Definition merge_row (right : list CatalogEntry) (l : Valuation)
  : list (Valuation * option CatalogEntry) :=
  match matches right l with
  | [] => [(l, None)]
  | ms => (fun r => (l, Some r)) <$> ms
  end.

(** The left merge, in the order of the left table. *)
Definition merge (left : list Valuation) (right : list CatalogEntry)
  : list (Valuation * option CatalogEntry) :=
  left ≫= merge_row right.

End merge.

End RecordMerger.

(** ** ReturnCalculator: [calc_annualized_return] *)

Module ReturnCalculator.

(** What the function returns: [None], a float, or a complex number. *)
Inductive pyobj : Type :=
  | PyNone
  | PyFloat (x : float)
  | PyComplex (re im : float).

(** The three cells of [row] the function reads; a date cell holds what
    [parse_mixed_date] left there. *)
Record row : Type := mk_row {
  规模计算日期 : option Timestamp;
  成立日 : option Timestamp;
  最新单位净值 : float
}.

(** The value of [.days]: an int on a [Timedelta], NaN on [NaT]. *)
Inductive days_value : Type :=
  | DaysInt (n : Z)
  | DaysNaN.

(** [(a - b).days]: the difference is a [Timedelta] (int64 nanoseconds,
    [OverflowError] outside), or [NaT] when one side is [NaT]. *)
Definition sub_days (a b : option Timestamp) : PyResult days_value :=
  match a, b with
  | Some x, Some y =>
      if DateNormalizer.in_bounds (x - y) then Ok (DaysInt ((x - y) / ns_per_day))
      else Raise OverflowError
  | _, _ => Ok DaysNaN
  end.

(** [days <= 0] *)
Definition days_le_0 (days : days_value) : bool :=
  match days with
  | DaysInt n => n <=? 0
  | DaysNaN => false
  end.

(** [365 / days] for [days] that passed the guard. *)
Definition div_365 (days : days_value) : float :=
  match days with
  | DaysInt n => PrimFloat.div 365 (PrimFloat.of_uint63 (Uint63.of_Z n))
  | DaysNaN => nan
  end.

(** A float is a whole number: [iw == floor(iw)]. *)
Definition is_integral (x : float) : bool :=
  match Prim2SF x with
  | S754_zero _ => true
  | S754_infinity _ => true
  | S754_nan => false
  | S754_finite _ m e =>
      (0 <=? e) || (Z.pos m mod 2 ^ (- e) =? 0)
  end.

Section pow.

(** The real cases of [float.__pow__]: the C library's [pow] with
    Python's [OverflowError] and [ZeroDivisionError]. *)
Variable real_pow : float -> float -> PyResult float.

(** [complex.__pow__] on two floats. *)
Variable complex_pow : float -> float -> float * float.

(** The builtin [pow] on two floats ([float.__pow__]): its special cases
    in the order the interpreter tests them; a negative finite base with a
    fractional exponent gives a complex number. *)
Definition pow (iv iw : float) : PyResult pyobj :=
  if PrimFloat.eqb iw 0 then Ok (PyFloat 1)
  else if PrimFloat.is_nan iv then Ok (PyFloat iv)
  else if PrimFloat.is_nan iw then
    Ok (PyFloat (if PrimFloat.eqb iv 1 then 1 else iw))
  else if PrimFloat.is_infinity iw || PrimFloat.is_infinity iv then
    match real_pow iv iw with
    | Ok x => Ok (PyFloat x)
    | Raise e => Raise e
    end
  else if PrimFloat.ltb iv 0 && negb (is_integral iw) then
    let '(re, im) := complex_pow iv iw in Ok (PyComplex re im)
  else
    match real_pow iv iw with
    | Ok x => Ok (PyFloat x)
    | Raise e => Raise e
    end.

(** [x - 1] *)
Definition sub_1 (x : pyobj) : pyobj :=
  match x with
  | PyFloat a => PyFloat (PrimFloat.sub a 1)
  | PyComplex re im => PyComplex (PrimFloat.sub re 1) im
  | PyNone => PyNone
  end.

(** [x * 100]; the int becomes the complex [100+0j] beside a complex. *)
Definition mul_100 (x : pyobj) : pyobj :=
  match x with
  | PyFloat a => PyFloat (PrimFloat.mul a 100)
  | PyComplex re im =>
      PyComplex (PrimFloat.sub (PrimFloat.mul re 100) (PrimFloat.mul im 0))
                (PrimFloat.add (PrimFloat.mul re 0) (PrimFloat.mul im 100))
  | PyNone => PyNone
  end.

(** The body of the [try]. *)
Definition try_body (r : row) : PyResult pyobj :=
  match sub_days (规模计算日期 r) (成立日 r) with
  | Raise e => Raise e
  | Ok days =>
      if days_le_0 days || isna (最新单位净值 r) then Ok PyNone
      else
        match pow (最新单位净值 r) (div_365 days) with
        | Raise e => Raise e
        | Ok p => Ok (mul_100 (sub_1 p))
        end
  end.

(** [calc_annualized_return(row)]: the bare [except] turns every exception
    into [None]. *)
Definition calc_annualized_return (r : row) : pyobj :=
  match try_body r with
  | Ok v => v
  | Raise _ => PyNone
  end.

End pow.

(** A unit value of -1.5, 100 days after inception. *)
Definition negative_nav_row : row :=
  mk_row (Some (DateNormalizer.Timestamp_of_ymd 2024 1 1)) (Some (DateNormalizer.Timestamp_of_ymd 2023 9 23))
    (-1.5)%float.

(** A unit value of 1.0 whose inception date is Unknown. *)
Definition unknown_inception_row : row :=
  mk_row (Some (DateNormalizer.Timestamp_of_ymd 2024 1 1)) NaT 1%float.

End ReturnCalculator.

(** ** DisclosureDateTracker: [assign_nav_disclosure_dates] *)

Module DisclosureDateTracker.

(** One row of [df_merged], with the four columns the function reads.
    A null object cell (NaN) is [None]. *)
Record row : Type := mk_row {
  产品代码 : option string;
  运作模式 : option string;
  规模计算日期 : option Timestamp;
  最新单位净值 : float
}.

(** [Series.astype(str)] on an object cell: NaN prints as [nan]. *)
Definition astype_str (cell : option string) : string :=
  match cell with
  | Some s => s
  | None => "nan"
  end.

(** [Series.str.contains(pat)] for a pattern without regex metacharacters:
    [pat] occurs somewhere in [s]. *)
Fixpoint str_contains (pat s : string) : bool :=
  String.prefix pat s ||
  match s with
  | EmptyString => false
  | String _ s' => str_contains pat s'
  end.

(** [is_open.loc[idx]] *)
Definition is_open (r : row) : bool :=
  str_contains "开放式" (astype_str (运作模式 r)).

(** The loop variables [last_nav] and [last_date]; Python's [None] is
    [None]. *)
Definition state : Type := option float * option Timestamp.

Definition init : state := (None, None).

(** Python's [!=] between two values that are [None] or a float. *)
Definition py_ne (a b : option float) : bool :=
  match a, b with
  | Some x, Some y => negb (PrimFloat.eqb x y)
  | None, None => false
  | _, _ => true
  end.

(** The body of the [for idx, row in group_sorted.iterrows()] loop, up to
    [dates.append(last_date)]. *)
Definition step (st : state) (r : row) : state :=
  let '(last_nav, last_date) := st in
  if is_open r then
    (Some (最新单位净值 r), 规模计算日期 r)
  else
    let current_nav :=
      if isna (最新单位净值 r) then last_nav else Some (最新单位净值 r) in
    if bool_decide (last_nav = None) || py_ne current_nav last_nav then
      (current_nav, 规模计算日期 r)
    else
      (last_nav, last_date).

(** The list [dates] the loop builds over [group_sorted]. *)
Fixpoint iterrows (st : state) (rows : list (nat * row))
  : list (option Timestamp) :=
  match rows with
  | [] => []
  | (_, r) :: rest =>
      let st' := step st r in
      st'.2 :: iterrows st' rest
  end.

(** The state after the loop. *)
Definition final_state (st : state) (rows : list (nat * row)) : state :=
  fold_left (fun s ir => step s ir.2) rows st.

(** Order of [sort_values('规模计算日期')]: ascending, [NaT] last. *)
Definition date_leb (a b : option Timestamp) : bool :=
  match a, b with
  | Some x, Some y => Z.leb x y
  | _, None => true
  | None, Some _ => false
  end.

Definition date_le (a b : nat * row) : Prop :=
  date_leb (规模计算日期 a.2) (规模计算日期 b.2).

#[global] Instance date_le_dec (a b : nat * row) : Decision (date_le a b).
Proof. unfold date_le. apply _. Defined.

(** One row put at its place among rows already in order: before the
    first row that is not earlier than it. *)
Fixpoint insort (x : nat * row) (sorted : list (nat * row))
  : list (nat * row) :=
  match sorted with
  | [] => [x]
  | y :: rest =>
      if decide (date_le x y) then x :: y :: rest else y :: insort x rest
  end.

(** [group.sort_values('规模计算日期')]: ascending, [NaT] last.  Rows of
    equal date keep their frame order, as the sort leaves them on a small
    group; on a long group pandas does not fix the order of rows of equal
    date. *)
Definition sort_values (group : list (nat * row)) : list (nat * row) :=
  foldr insort [] group.

(** The rows of [df] with their index labels. *)
Definition indexed (df : list row) : list (nat * row) := imap pair df.

(** The group of [code] in [df.groupby('产品代码')]. *)
Definition group (df : list row) (code : string) : list (nat * row) :=
  filter (fun ir => 产品代码 ir.2 = Some code) (indexed df).

Definition str_le (s t : string) : Prop := String.leb s t.

#[global] Instance str_le_dec (s t : string) : Decision (str_le s t).
Proof. unfold str_le. apply _. Defined.

(** The keys [df.groupby('产品代码')] iterates over: the distinct non-null
    codes, sorted. *)
Definition group_keys (df : list row) : list string :=
  merge_sort str_le (remove_dups (omap 产品代码 df)).

Definition group_sorted (df : list row) (code : string) : list (nat * row) :=
  sort_values (group df code).

(** The list [dates] built for the group of [code]. *)
Definition dates_of (df : list row) (code : string) : list (option Timestamp) :=
  iterrows init (group_sorted df code).

(** [result.loc[index] = dates]: the i-th label of [index] receives the
    i-th date.  Every label comes from [df.index], so none is out of
    range. *)
Fixpoint loc_assign (result : list (option Timestamp)) (index : list nat)
    (dates : list (option Timestamp)) : list (option Timestamp) :=
  match index, dates with
  | i :: index', d :: dates' => loc_assign (<[i := d]> result) index' dates'
  | _, _ => result
  end.

(** One iteration of [for code, group in df.groupby('产品代码')]. *)
Definition assign_group (df : list row) (result : list (option Timestamp))
    (code : string) : list (option Timestamp) :=
  loc_assign result (group_sorted df code).*1 (dates_of df code).

(** [assign_nav_disclosure_dates(df)]: [result] starts as a Series of
    [NaT] over [df.index]. *)
Definition assign_nav_disclosure_dates (df : list row)
  : list (option Timestamp) :=
  fold_left (assign_group df) (group_keys df) (replicate (length df) NaT).

(** *** The event regime in the words of the specification (4.4, step 3) *)

(** A ValuationObservation: a nullable unit value and a reporting date. *)
Record observation : Type := mk_observation {
  unitValue : option float;
  reportingDate : option Timestamp
}.

Definition observation_of (r : row) : observation :=
  {| unitValue := if isna (最新单位净值 r) then None else Some (最新单位净值 r);
     reportingDate := 规模计算日期 r |}.

(** [effective = current.unitValue if not null else last_known_value];
    the two fields change together, exactly when [last_known_value] is
    null or [effective] differs from it. *)
Definition event_step_spec (st : state) (current : observation) : state :=
  let '(last_known_value, last_known_disclosure_date) := st in
  let effective :=
    match unitValue current with
    | Some v => Some v
    | None => last_known_value
    end in
  if bool_decide (last_known_value = None) || py_ne effective last_known_value
  then (effective, reportingDate current)
  else (last_known_value, last_known_disclosure_date).

(** Every row emits the date of the state after its step. *)
Fixpoint event_walk_spec (st : state) (obs : list observation)
  : list (option Timestamp) :=
  match obs with
  | [] => []
  | o :: rest =>
      let st' := event_step_spec st o in
      st'.2 :: event_walk_spec st' rest
  end.

(** Strictly ascending date order. *)
Definition date_lt (a b : nat * row) : Prop := date_le a b ∧ ¬ date_le b a.

(** A closed-end product P1 and an open-end product P2, rows out of date
    order. *)
Definition sample_frame : list row := [
  mk_row (Some "P1") (Some "封闭式净值型") (Some (DateNormalizer.Timestamp_of_ymd 2024 3 1)) 1.05;
  mk_row (Some "P2") (Some "开放式净值型") (Some (DateNormalizer.Timestamp_of_ymd 2024 2 1)) 1.20;
  mk_row (Some "P1") (Some "封闭式净值型") (Some (DateNormalizer.Timestamp_of_ymd 2024 1 1)) 1.00;
  mk_row (Some "P2") (Some "开放式净值型") (Some (DateNormalizer.Timestamp_of_ymd 2024 1 1)) 1.10;
  mk_row (Some "P1") (Some "封闭式净值型") (Some (DateNormalizer.Timestamp_of_ymd 2024 2 1)) 1.00
].

End DisclosureDateTracker.

(** ** ReportProjector and the steps before it (lines 98 to 182), on the
    columns of [df_merged] *)

Module ReportProjector.

Definition final_columns : list string := [
  "规模计算日期"; "产品代码"; "产品名称"; "运作模式"; "开放类型"; "风险等级"; "投资性质二级";
  "募集开始日期"; "募集结束日期"; "成立日"; "到期日"; "投资周期（天）";
  "业绩比较基准（%）"; "当前业绩比较基准下限（%）"; "当前业绩比较基准上限（%）";
  "最新销售费(%)"; "最新固定管理费(%)";
  "实际募集总规模"; "折合人民币实际募集总规模"; "产品市值"; "产品市值";
  "成立以来年化收益率（%）"; "最新单位净值"; "最新累计净值"; "最新净值日期";
  "销售商名称"; "销售对象"; "产品系列"; "募集方式"; "募集币种"
].

(** The labels assigned to [df_merged.columns]. *)
Definition report_columns : list string := [
  "规模计算日期"; "产品代码（发行机构销售代码）"; "产品名称"; "运作模式"; "开放类型"; "风险等级"; "投资类型（投资性质二级）";
  "募集开始日期"; "募集结束日期"; "成立日"; "到期日"; "期限（天）";
  "业绩比较基准（%）"; "当前业绩比较基准下限（%）"; "当前业绩比较基准上限（%）";
  "最新销售费（%）"; "最新固定管理费（%）";
  "实际募集总规模（亿元）"; "折合人民币实际募集总规模（亿元）"; "计算日存续规模（亿元）"; "折合人民币计算日存续规模（亿元）";
  "成立以来年化收益率（%）"; "最新单位净值"; "最新累计净值"; "最新净值日期";
  "代销机构"; "销售对象"; "产品系列"; "募集方式"; "募集币种"
].

Definition scaled_columns : list string := [
  "实际募集总规模（亿元）"; "折合人民币实际募集总规模（亿元）";
  "计算日存续规模（亿元）"; "折合人民币计算日存续规模（亿元）"
].

Definition formatted_columns : list string := [
  "规模计算日期"; "募集开始日期"; "募集结束日期"; "成立日"; "到期日"; "最新净值日期"
].

Definition cleaned_columns : list string := [
  "规模计算日期"; "成立日"; "募集开始日期"; "募集结束日期"; "到期日"
].

(** The columns of a merged frame that has every expected field: the
    selected ones that the script does not compute itself. *)
Definition expected_columns : list string :=
  remove_dups
    (filter (fun l => l ∉ ["成立以来年化收益率（%）"; "最新累计净值"; "最新净值日期"])
       final_columns).

(** The columns [assign_nav_disclosure_dates] reads, in the order it
    reads them. *)
Definition tracker_columns : list string := [
  "产品代码"; "规模计算日期"; "运作模式"; "最新单位净值"
].

Section frame.

(** A pandas object that holds values: a column, or what an expression
    over columns evaluates to.  What the values are plays no part in
    whether a label is found. *)
Context {column : Type}.

(** A DataFrame: its columns in order, each with its label. *)
Definition frame : Type := list (string * column).

(** [label in df.columns] *)
Definition has_column (df : frame) (label : string) : bool :=
  bool_decide (label ∈ df.*1).

(** The first column under a label, [KeyError] when there is none:
    [df[label]] for a label that is not repeated. *)
Fixpoint getitem (df : frame) (label : string) : PyResult column :=
  match df with
  | [] => Raise (KeyError label)
  | (l, c) :: rest => if decide (l = label) then Ok c else getitem rest label
  end.

(** [df[label] = values] for a column of values: every column of that
    label is replaced; a new label is appended. *)
Definition setitem (df : frame) (label : string) (values : column) : frame :=
  if has_column df label then
    (fun lc : string * column =>
       if decide (lc.1 = label) then (label, values) else lc) <$> df
  else (df ++ [(label, values)])%list.

(** The columns under a label, in frame order. *)
Definition columns_of (df : list (string * column)) (label : string)
  : list column :=
  (filter (fun lc : string * column => lc.1 = label) df).*2.

(** The [DataFrame] that [df[label]] is when the label is repeated, made
    of the columns under it. *)
Variable DataFrame : list column -> column.

(** [df[label]]: the column under the label, the [DataFrame] of the
    columns under it when it is repeated, [KeyError] when there is
    none. *)
Definition item (df : frame) (label : string) : PyResult column :=
  match columns_of df label with
  | [] => Raise (KeyError label)
  | [c] => Ok c
  | cs => Ok (DataFrame cs)
  end.

(** The labels of a list, each at its first occurrence. *)
Fixpoint unique (seen labels : list string) : list string :=
  match labels with
  | [] => []
  | l :: rest =>
      if decide (l ∈ seen) then unique seen rest
      else l :: unique (l :: seen) rest
  end.

(** [df[labels]]: for each label in turn, every column under it; a
    [KeyError] that names the labels that are no column. *)
Definition getitem_list (df : frame) (labels : list string) : PyResult frame :=
  match unique [] (filter (fun l => l ∉ df.*1) labels) with
  | [] =>
      Ok (mjoin ((fun l => (fun c => (l, c)) <$> columns_of df l) <$> labels))
  | missing => Raise (NotInIndex missing)
  end.

(** [df.columns = labels]: the number of labels must be the number of
    columns. *)
Definition set_columns (df : frame) (labels : list string) : PyResult frame :=
  if bool_decide (length df = length labels) then Ok (zip labels df.*2)
  else Raise ValueError.

(** [for _col in labels: if _col in df.columns: df[_col] = f(df[_col])] *)
Fixpoint transform_present (f : column -> PyResult column)
    (labels : list string) (df : frame) : PyResult frame :=
  match labels with
  | [] => Ok df
  | l :: rest =>
      if has_column df l then
        c ← item df l;
        c' ← f c;
        transform_present f rest (setitem df l c')
      else transform_present f rest df
  end.

(** The column operations of the script, taken as they are, each with
    the exceptions it may raise ([.dt] raises [AttributeError] on what
    is not a datetime column): [parse_mixed_date],
    [pd.to_numeric(..., errors='coerce') / 1e8],
    [.dt.strftime('%Y-%m-%d')], [.dt.year],
    [df.apply(calc_annualized_return, axis=1)] with its assignment, and
    the loop of [assign_nav_disclosure_dates] over the four columns it
    reads. *)
Variable parse_mixed_date : column -> PyResult column.
Variable scale : column -> PyResult column.
Variable strftime : column -> PyResult column.
Variable year : column -> PyResult column.
Variable annualized_return : frame -> PyResult column.
Variable disclosure_dates :
  column -> column -> column -> column -> PyResult column.

(** Whether [groupby] over this key column has a group: some cell of it
    is not null. *)
Variable has_group : column -> bool.

(** The [result] of [assign_nav_disclosure_dates] when no group is
    walked: [NaT] at every label of the index. *)
Variable no_dates : column -> column.

(** [df[label] = values] for a [DataFrame] of values over a label that
    stands over as many columns: these are replaced in order. *)
Fixpoint setitem_frame (df : frame) (label : string) (values : list column)
  : frame :=
  match df with
  | [] => []
  | (l, c) :: rest =>
      if decide (l = label) then
        match values with
        | v :: values' => (l, v) :: setitem_frame rest label values'
        | [] => (l, c) :: rest
        end
      else (l, c) :: setitem_frame rest label values
  end.

(** Line 113: [df['最新累计净值'] = df['最新单位净值']].  A [DataFrame] on
    the right is accepted only over a label that stands over as many
    columns. *)
Definition set_cumulative_nav (df : frame) : PyResult frame :=
  match columns_of df "最新单位净值" with
  | [] => Raise (KeyError "最新单位净值")
  | [nav] => Ok (setitem df "最新累计净值" nav)
  | navs =>
      if bool_decide (length (columns_of df "最新累计净值") = length navs)
      then Ok (setitem_frame df "最新累计净值" navs)
      else Raise ValueError
  end.

(** Line 146.  [assign_nav_disclosure_dates] groups by [产品代码]
    ([KeyError] without the column, [ValueError] on a repeated label);
    only when there is a group does its loop body run and read
    [规模计算日期] ([sort_values]: [KeyError], or [ValueError] on a
    repeated label), [运作模式] ([.str] does not exist on a
    [DataFrame]) and [最新单位净值] of each row. *)
Definition add_disclosure_date (df : frame) : PyResult frame :=
  result ←
    match columns_of df "产品代码" with
    | [] => Raise (KeyError "产品代码")
    | [code] =>
        if has_group code then
          match columns_of df "规模计算日期" with
          | [] => Raise (KeyError "规模计算日期")
          | [dates] =>
              match columns_of df "运作模式" with
              | [] => Raise (KeyError "运作模式")
              | [mode] =>
                  nav ← item df "最新单位净值";
                  disclosure_dates code dates mode nav
              | _ => Raise AttributeError
              end
          | _ => Raise ValueError
          end
        else Ok (no_dates code)
    | _ => Raise ValueError
    end;
  Ok (setitem df "最新净值日期" result).

(** Lines 158 to 182: selection, renaming, scaling, year and date
    formatting. *)
Definition project (df : frame) : PyResult frame :=
  selected ← getitem_list df final_columns;
  renamed ← set_columns selected report_columns;
  scaled ← transform_present scale scaled_columns renamed;
  dates ← item scaled "规模计算日期";
  years ← year dates;
  transform_present strftime formatted_columns (setitem scaled "年份" years).

(** Lines 98 to 182 on the merged frame. *)
Definition pipeline (df : frame) : PyResult frame :=
  cleaned ← transform_present parse_mixed_date cleaned_columns df;
  returns ← annualized_return cleaned;
  with_nav ←
    set_cumulative_nav (setitem cleaned "成立以来年化收益率（%）" returns);
  with_date ← add_disclosure_date with_nav;
  project with_date.

(** Lines 98 to 100 seen from one merged label: the date normalisation
    it goes through. *)
Definition pre (lin : string) (c : column) : PyResult column :=
  if bool_decide (lin ∈ cleaned_columns) then parse_mixed_date c else Ok c.

(** Lines 171 to 173 and 180 to 182 seen from one report label: the
    scaling and the formatting it goes through. *)
Definition post (lout : string) (c : column) : PyResult column :=
  scaled ← (if bool_decide (lout ∈ scaled_columns) then scale c else Ok c);
  if bool_decide (lout ∈ formatted_columns) then strftime scaled
  else Ok scaled.

End frame.

(** A frame of the given labels whose cells are left out. *)
Definition labels_frame (labels : list string) : @frame unit :=
  (fun l => (l, tt)) <$> labels.

(** A merged frame with every expected column but [运作模式]. *)
Definition frame_without_operating_mode : @frame unit :=
  labels_frame (filter (fun l => l ≠ "运作模式") expected_columns).

(** A merged frame with exactly the expected columns, each cell column
    standing for itself by its label, and the report of a run on it in
    which every step prefixes its name to the cells it touches. *)
Definition sample_merged : @frame string :=
  (fun l => (l, l)) <$> expected_columns.

Definition sample_report : @frame string :=
  match
    pipeline (fun _ => "DataFrame")
      (fun c => Ok (String.append "parse " c))
      (fun c => Ok (String.append "scale " c))
      (fun c => Ok (String.append "strftime " c))
      (fun c => Ok (String.append "year " c))
      (fun _ => Ok "return")
      (fun code dates mode nav => Ok (String.append "disclosure " dates))
      (fun _ => true) (fun _ => "NaT")
      sample_merged
  with
  | Ok out => out
  | Raise _ => []
  end.

End ReportProjector.


(** ** File discovery (lines 36 to 43) *)

Module FileDiscovery.

(** [f.endswith(suffix)] *)
Definition endswith (suffix f : string) : bool :=
  (String.length suffix <=? String.length f)%nat &&
  String.eqb
    (substring (String.length f - String.length suffix)
       (String.length suffix) f)
    suffix.

(** [f.startswith(prefix)] *)
Definition startswith (prefix f : string) : bool := String.prefix prefix f.

(** ['产品查询' in f] *)
Definition is_product_query (f : string) : bool :=
  DisclosureDateTracker.str_contains "产品查询" f.

(** The condition of the comprehension that builds [files]. *)
Definition is_workbook (f : string) : bool :=
  (endswith ".xls" f || endswith ".xlsx" f) && negb (startswith "~$" f).

(** [files], for the names [os.listdir] returned. *)
Definition files (listing : list string) : list string :=
  filter (fun f => is_workbook f) listing.

(** [next((f for f in files if '产品查询' in f), None)] *)
Definition product_file (listing : list string) : option string :=
  head (filter (fun f => is_product_query f) (files listing)).

Definition nv_files (listing : list string) : list string :=
  filter (fun f => ¬ is_product_query f) (files listing).

(** What the two [assert] statements leave: the two names the script goes
    on with, or the [AssertionError] with its message. *)
Inductive outcome : Type :=
  | Found (product : string) (nv : list string)
  | AssertionError (message : string).

Definition discover (listing : list string) : outcome :=
  match product_file listing with
  | None => AssertionError "未找到包含“产品查询”的文件"
  | Some product =>
      match nv_files listing with
      | [] => AssertionError "未找到净值数据文件"
      | nv => Found product nv
      end
  end.

End FileDiscovery.

(** ** The columns of one valuation sheet (lines 68 to 78) *)

Module SheetColumns.

Import ReportProjector.

(** What the normalisation of a sheet leaves: the sheet, the
    [IndexError] of [sheet.columns[0]], or the [AttributeError] of
    [sheet.columns.str]. *)
Inductive outcome (A : Type) : Type :=
  | Done (a : A)
  | IndexError
  | AttributeError.
Arguments Done {A} a.
Arguments IndexError {A}.
Arguments AttributeError {A}.

Section sheet.

Context {column : Type}.

(** [sheet.columns = sheet.columns.str.strip()] on a sheet that has
    columns, their labels being text. *)
Definition strip_columns (sheet : @frame column) : @frame column :=
  (fun lc : string * column => (DateNormalizer.strip lc.1, lc.2)) <$> sheet.

(** [sheet.loc[:, ~sheet.columns.duplicated()]]: a column whose label was
    seen before is dropped. *)
Fixpoint drop_duplicated (seen : list string) (sheet : @frame column)
  : @frame column :=
  match sheet with
  | [] => []
  | (l, c) :: rest =>
      if decide (l ∈ seen) then drop_duplicated seen rest
      else (l, c) :: drop_duplicated (l :: seen) rest
  end.

(** [sheet.rename(columns={old: new}, inplace=True)] *)
Definition rename_column (old new : string) (sheet : @frame column)
  : @frame column :=
  (fun lc : string * column =>
     if decide (lc.1 = old) then (new, lc.2) else lc) <$> sheet.

(** [if '产品代码' not in sheet.columns: rename the first column] *)
Definition name_product_code (sheet : @frame column)
  : outcome (@frame column) :=
  if has_column sheet "产品代码" then Done sheet
  else
    match sheet with
    | [] => IndexError
    | (first, _) :: _ => Done (rename_column first "产品代码" sheet)
    end.

(** [alt = [col for col in sheet.columns if '单位净值' in col]] *)
Definition alt (sheet : @frame column) : list string :=
  filter (fun l => DisclosureDateTracker.str_contains "单位净值" l) sheet.*1.

(** [if '最新单位净值' not in sheet.columns: adopt alt[0] if there is one] *)
Definition name_unit_nav (sheet : @frame column) : @frame column :=
  if has_column sheet "最新单位净值" then sheet
  else
    match alt sheet with
    | [] => sheet
    | a :: _ => rename_column a "最新单位净值" sheet
    end.

(** [if '汇总日期' in sheet.columns: rename it to 规模计算日期] *)
Definition name_scale_date (sheet : @frame column) : @frame column :=
  if has_column sheet "汇总日期" then
    rename_column "汇总日期" "规模计算日期" sheet
  else sheet.

(** The body of [for sheet in df_dict.values()], up to [nv_dfs.append].
    A sheet without columns, as [read_excel] returns for an empty
    worksheet, has no text labels: [.str] of line 68 raises
    [AttributeError] on it. *)
Definition normalize_sheet (sheet : @frame column)
  : outcome (@frame column) :=
  match sheet with
  | [] => AttributeError
  | _ :: _ =>
      match name_product_code (drop_duplicated [] (strip_columns sheet)) with
      | Done named => Done (name_scale_date (name_unit_nav named))
      | IndexError => IndexError
      | AttributeError => AttributeError
      end
  end.

End sheet.

End SheetColumns.

(** ** The sheets of the output workbook (lines 176 to 190) *)

Module YearSheets.

(** [.dt.year] on one element; the year of [NaT] is NaN. *)
Definition dt_year (t : option Timestamp) : option Z :=
  (fun v => (DateNormalizer.civil_from_days (v / ns_per_day)).1.1) <$> t.

(** The sheet a group of rows is written to. *)
Inductive sheet_name : Type :=
  | SingleSheet          (* 产品达标分析结果 *)
  | YearSheet (y : Z).   (* str(year) *)

Section sheets.

(** A row of [df_merged] and its [年份] cell ([None]: NaN). *)
Context {A : Type}.
Variable 年份 : A -> option Z.

(** The keys of [df_merged.groupby('年份')]: the distinct years, sorted;
    a NaN key makes no group. *)
Definition year_keys (rows : list A) : list Z :=
  merge_sort Z.le (remove_dups (omap 年份 rows)).

Definition year_group (rows : list A) (y : Z) : list A :=
  filter (fun r => 年份 r = Some y) rows.

(** The [to_excel] calls of the body of [with pd.ExcelWriter(...)], in
    order: the whole frame when there is one group, else one sheet per
    group. *)
Definition sheets (rows : list A) : list (sheet_name * list A) :=
  match year_keys rows with
  | [_] => [(SingleSheet, rows)]
  | keys => (fun y => (YearSheet y, year_group rows y)) <$> keys
  end.

(** How the [with] statement ends. *)
Inductive outcome : Type :=
  | Saved (written : list (sheet_name * list A))
  | IndexError.

(** Lines 185 to 190: the body, then the close of the writer.  openpyxl
    saves no workbook without a visible sheet: when the body has written
    none, the close raises [IndexError]. *)
Definition write_workbook (rows : list A) : outcome :=
  match sheets rows with
  | [] => IndexError
  | written => Saved written
  end.

End sheets.

Arguments IndexError {A}.

End YearSheets.

(** * Properties *)

(** ** DisclosureDateTracker *)

Section tracker_facts.

Import DisclosureDateTracker.

Implicit Types (df : list row) (rows : list (nat * row)) (st : state).
Implicit Types (result dates : list (option Timestamp)) (index : list nat).

Lemma iterrows_length st rows : length (iterrows st rows) = length rows.
Proof.
  revert st. induction rows as [|[i r] rows IH]; intros st; simpl; [done|].
  by rewrite IH.
Qed.

Lemma loc_assign_length result index dates :
  length (loc_assign result index dates) = length result.
Proof.
  revert result dates.
  induction index as [|i index IH]; intros result [|d dates]; simpl; try done.
  by rewrite IH, length_insert.
Qed.

Lemma loc_assign_notin result index dates (i : nat) :
  i ∉ index → loc_assign result index dates !! i = result !! i.
Proof.
  revert result dates.
  induction index as [|j index IH]; intros result [|d dates] Hi; simpl; try done.
  apply not_elem_of_cons in Hi as [Hij Hi].
  rewrite IH by done. by apply list_lookup_insert_ne.
Qed.

Lemma loc_assign_lookup result index dates (k i : nat) :
  NoDup index →
  length index = length dates →
  (∀ j, j ∈ index → (j < length result)%nat) →
  index !! k = Some i →
  loc_assign result index dates !! i = dates !! k.
Proof.
  revert result dates k.
  induction index as [|j index IH]; intros result [|d dates] k Hnd Hlen Hlt Hk;
    simpl in *; try done.
  apply NoDup_cons in Hnd as [Hj Hnd].
  destruct k as [|k]; simpl in *.
  - injection Hk as ->. rewrite loc_assign_notin by done.
    apply list_lookup_insert_eq, Hlt. by left.
  - apply IH; [done|lia| |done].
    intros j' Hj'. rewrite length_insert. apply Hlt. by right.
Qed.

Lemma elem_of_indexed df (i : nat) (r : row) :
  (i, r) ∈ indexed df ↔ df !! i = Some r.
Proof.
  unfold indexed. rewrite elem_of_lookup_imap. split.
  - intros (j & y & [= -> ->] & ?). done.
  - intros ?. by exists i, r.
Qed.

Lemma NoDup_indexed_fst df : NoDup (indexed df).*1.
Proof.
  apply NoDup_alt. intros i j x. unfold indexed.
  rewrite !list_lookup_fmap, !list_lookup_imap.
  destruct (df !! i) eqn:Ei, (df !! j) eqn:Ej; simpl; congruence.
Qed.

Lemma elem_of_group df (c : string) (i : nat) (r : row) :
  (i, r) ∈ group df c ↔ df !! i = Some r ∧ 产品代码 r = Some c.
Proof.
  unfold group. rewrite list_elem_of_filter, elem_of_indexed. simpl. tauto.
Qed.

Lemma insort_Permutation (x : nat * row) rows : insort x rows ≡ₚ x :: rows.
Proof.
  induction rows as [|y rows IH]; [done|]. simpl. case_decide; [done|].
  by rewrite IH, Permutation_swap.
Qed.

Lemma sort_values_Permutation rows : sort_values rows ≡ₚ rows.
Proof.
  induction rows as [|x rows IH]; [done|].
  unfold sort_values in *. simpl. by rewrite insort_Permutation, IH.
Qed.

Lemma group_sorted_perm df (c : string) : group_sorted df c ≡ₚ group df c.
Proof. apply sort_values_Permutation. Qed.

Lemma elem_of_group_sorted df (c : string) (i : nat) (r : row) :
  (i, r) ∈ group_sorted df c ↔ df !! i = Some r ∧ 产品代码 r = Some c.
Proof. by rewrite group_sorted_perm, elem_of_group. Qed.

Lemma NoDup_group_sorted_fst df (c : string) : NoDup (group_sorted df c).*1.
Proof.
  rewrite group_sorted_perm. unfold group.
  apply (sublist_NoDup _ (indexed df).*1); [apply NoDup_indexed_fst|].
  apply fmap_sublist, sublist_filter.
Qed.

Lemma elem_of_group_keys df (c : string) :
  c ∈ group_keys df ↔ ∃ r, r ∈ df ∧ 产品代码 r = Some c.
Proof.
  unfold group_keys.
  by rewrite merge_sort_Permutation, elem_of_remove_dups, list_elem_of_omap.
Qed.

Lemma NoDup_group_keys df : NoDup (group_keys df).
Proof.
  unfold group_keys. rewrite merge_sort_Permutation. apply NoDup_remove_dups.
Qed.

Lemma group_sorted_index_lt df (c : string) (j : nat) :
  j ∈ (group_sorted df c).*1 → (j < length df)%nat.
Proof.
  intros ([i r] & -> & Hin)%list_elem_of_fmap.
  apply elem_of_group_sorted in Hin as [Hi _]. by apply lookup_lt_Some in Hi.
Qed.

Lemma assign_group_length df result (c : string) :
  length (assign_group df result c) = length result.
Proof. apply loc_assign_length. Qed.

Lemma assign_group_other df result (c : string) (i : nat) :
  i ∉ (group_sorted df c).*1 → assign_group df result c !! i = result !! i.
Proof. apply loc_assign_notin. Qed.

Lemma assign_group_lookup df result (c : string) (k i : nat) (r : row) :
  length result = length df →
  group_sorted df c !! k = Some (i, r) →
  assign_group df result c !! i = dates_of df c !! k.
Proof.
  intros Hlen Hk. unfold assign_group. apply loc_assign_lookup.
  - apply NoDup_group_sorted_fst.
  - unfold dates_of. by rewrite iterrows_length, length_fmap.
  - intros j Hj. rewrite Hlen. by eapply group_sorted_index_lt.
  - by rewrite list_lookup_fmap, Hk.
Qed.

(** Two groups that hold the same index label are the same group. *)
Lemma group_sorted_disjoint df (c c' : string) (i : nat) :
  i ∈ (group_sorted df c).*1 → i ∈ (group_sorted df c').*1 → c = c'.
Proof.
  intros ([i1 r1] & -> & H1)%list_elem_of_fmap ([i2 r2] & Hi & H2)%list_elem_of_fmap.
  simpl in Hi. subst i2.
  apply elem_of_group_sorted in H1 as [E1 C1].
  apply elem_of_group_sorted in H2 as [E2 C2]. congruence.
Qed.

Lemma fold_assign_group df (keys : list string) result :
  NoDup keys →
  length result = length df →
  length (fold_left (assign_group df) keys result) = length df ∧
  (∀ (c : string) (k i : nat) (r : row),
     c ∈ keys → group_sorted df c !! k = Some (i, r) →
     fold_left (assign_group df) keys result !! i = dates_of df c !! k) ∧
  (∀ i : nat,
     (∀ c : string, c ∈ keys → i ∉ (group_sorted df c).*1) →
     fold_left (assign_group df) keys result !! i = result !! i).
Proof.
  revert result.
  induction keys as [|c0 keys IH]; intros result Hnd Hlen; simpl.
  { split_and!; [done| |done]. intros c k i r Hc. by apply elem_of_nil in Hc. }
  apply NoDup_cons in Hnd as [Hc0 Hnd].
  destruct (IH (assign_group df result c0) Hnd) as (IHlen & IHin & IHout).
  { by rewrite assign_group_length. }
  split_and!; [done| |].
  - intros c k i r Hc Hk. apply elem_of_cons in Hc as [->|Hc]; [|by eapply IHin].
    rewrite IHout; [by eapply assign_group_lookup|].
    intros c Hc Hi. assert (c0 = c) as <-; [|done].
    eapply group_sorted_disjoint; [|exact Hi].
    apply list_elem_of_fmap. exists (i, r). split; [done|].
    by eapply list_elem_of_lookup_2.
  - intros i Hi. rewrite IHout.
    + apply assign_group_other, Hi. by left.
    + intros c Hc. apply Hi. by right.
Qed.

Lemma assign_length df :
  length (assign_nav_disclosure_dates df) = length df.
Proof.
  unfold assign_nav_disclosure_dates.
  apply fold_assign_group; [apply NoDup_group_keys|apply length_replicate].
Qed.

(** The row at label [i] sits at one place [k] of its group's sorted walk
    and receives the date emitted there. *)
Lemma assign_aligned df (i : nat) (r : row) (c : string) :
  df !! i = Some r → 产品代码 r = Some c →
  ∃ k : nat, group_sorted df c !! k = Some (i, r) ∧
    assign_nav_disclosure_dates df !! i = dates_of df c !! k.
Proof.
  intros Hi Hc.
  assert ((i, r) ∈ group_sorted df c) as [k Hk]%list_elem_of_lookup_1
    by by apply elem_of_group_sorted.
  exists k. split; [done|].
  unfold assign_nav_disclosure_dates.
  eapply fold_assign_group; [apply NoDup_group_keys|apply length_replicate| |done].
  apply elem_of_group_keys. exists r. split; [|done].
  by eapply list_elem_of_lookup_2.
Qed.

(** A row without a product code is in no group and keeps [NaT]. *)
Lemma assign_null_code df (i : nat) (r : row) :
  df !! i = Some r → 产品代码 r = None →
  assign_nav_disclosure_dates df !! i = Some NaT.
Proof.
  intros Hi Hc. unfold assign_nav_disclosure_dates.
  destruct (fold_assign_group df (group_keys df) (replicate (length df) NaT))
    as (_ & _ & Hout); [apply NoDup_group_keys|apply length_replicate|].
  rewrite Hout.
  - apply lookup_replicate_2. by apply lookup_lt_Some in Hi.
  - intros c _ ([i' r'] & Heq & Hin)%list_elem_of_fmap. simpl in Heq. subst i'.
    apply elem_of_group_sorted in Hin as [? ?]. congruence.
Qed.

(** *** The walk *)

Lemma step_open st (r : row) :
  is_open r = true → step st r = (Some (最新单位净值 r), 规模计算日期 r).
Proof. intros Ho. destruct st as [last_nav last_date]. simpl. by rewrite Ho. Qed.

Lemma step_event st (r : row) :
  is_open r = false → step st r = event_step_spec st (observation_of r).
Proof.
  intros Ho. destruct st as [last_nav last_date]. simpl. rewrite Ho.
  by destruct (isna (最新单位净值 r)).
Qed.

Lemma iterrows_open st rows :
  Forall (fun ir => is_open ir.2 = true) rows →
  iterrows st rows = (fun ir => 规模计算日期 ir.2) <$> rows.
Proof.
  intros Hall. revert st.
  induction Hall as [|[i r] rows Ho _ IH]; intros st; simpl in *; [done|].
  by rewrite step_open, IH.
Qed.

Lemma final_state_open st rows (i : nat) (r : row) :
  is_open r = true →
  final_state st (rows ++ [(i, r)]) = (Some (最新单位净值 r), 规模计算日期 r).
Proof.
  intros Ho. unfold final_state. rewrite fold_left_app. simpl.
  by apply step_open.
Qed.

Lemma iterrows_event st rows :
  Forall (fun ir => is_open ir.2 = false) rows →
  iterrows st rows = event_walk_spec st ((fun ir => observation_of ir.2) <$> rows).
Proof.
  intros Hall. revert st.
  induction Hall as [|[i r] rows Ho _ IH]; intros st; simpl in *; [done|].
  by rewrite step_event, IH.
Qed.

(** The date a step leaves in the state is the row's own date, or the
    date it found there beside a tracked value. *)
Lemma step_date st (r : row) :
  (step st r).2 = 规模计算日期 r ∨
  (is_Some st.1 ∧ step st r = st).
Proof.
  destruct st as [last_nav last_date]. simpl.
  destruct (is_open r); [by left|].
  destruct last_nav as [v|]; simpl; [|by left].
  destruct (py_ne _ _); [by left|]. right. eauto.
Qed.

(** Every emitted date is the date of a row at or before the emitting
    row, unless it is the date the walk started with. *)
Lemma iterrows_origin st rows (k : nat) (d : option Timestamp) :
  iterrows st rows !! k = Some d →
  (is_Some st.1 ∧ d = st.2) ∨
  (∃ (j : nat) (ir : nat * row),
     (j ≤ k)%nat ∧ rows !! j = Some ir ∧ d = 规模计算日期 ir.2).
Proof.
  revert st k.
  induction rows as [|[i r] rows IH]; intros st k Hk; simpl in *; [done|].
  destruct k as [|k]; simpl in *.
  - injection Hk as <-.
    destruct (step_date st r) as [->|[Hs ->]]; [|by left].
    right. exists 0%nat, (i, r). split_and!; [lia|done..].
  - apply IH in Hk as [[Hs ->]|(j & ir & Hj & Hir & ->)].
    + destruct (step_date st r) as [->|[Hs' ->]]; [|by left].
      right. exists 0%nat, (i, r). split_and!; [lia|done..].
    + right. exists (S j), ir. split_and!; [lia|done..].
Qed.

(** *** The order of the walk *)

#[local] Instance date_le_refl : Reflexive date_le.
Proof.
  intros [i r]. unfold date_le, date_leb. simpl.
  destruct (规模计算日期 r); [|done]. apply Is_true_true, Z.leb_refl.
Qed.

#[local] Instance date_le_trans : Transitive date_le.
Proof.
  intros [i1 r1] [i2 r2] [i3 r3]. unfold date_le, date_leb. simpl.
  destruct (规模计算日期 r1), (规模计算日期 r2), (规模计算日期 r3); try done.
  rewrite !Is_true_true, !Z.leb_le. lia.
Qed.

#[local] Instance date_le_total : Total date_le.
Proof.
  intros [i1 r1] [i2 r2]. unfold date_le, date_leb. simpl.
  destruct (规模计算日期 r1), (规模计算日期 r2); try (by left); try (by right).
  rewrite !Is_true_true, !Z.leb_le. lia.
Qed.

Lemma insort_StronglySorted (x : nat * row) rows :
  StronglySorted date_le rows → StronglySorted date_le (insort x rows).
Proof.
  induction 1 as [|y rows Hs IH Hy]; simpl; [by repeat constructor|].
  case_decide as Hxy.
  - constructor; [by constructor|]. constructor; [done|].
    eapply Forall_impl; [exact Hy|]. intros z Hz. by transitivity y.
  - constructor; [done|]. rewrite insort_Permutation. constructor; [|done].
    by destruct (total date_le x y).
Qed.

Lemma sort_values_StronglySorted rows :
  StronglySorted date_le (sort_values rows).
Proof.
  induction rows as [|x rows IH]; [constructor|].
  by apply insort_StronglySorted.
Qed.

(** Rows of equal date keep their order: the sort is stable. *)
Lemma sort_values_stable rows :
  StronglySorted date_le rows → sort_values rows = rows.
Proof.
  induction 1 as [|x rows Hs IH Hx]; [done|].
  unfold sort_values in *. simpl. rewrite IH.
  destruct Hx as [|y rows' Hxy _]; [done|]. simpl. by rewrite decide_True.
Qed.

Lemma group_sorted_StronglySorted df (c : string) :
  StronglySorted date_le (group_sorted df c).
Proof. apply sort_values_StronglySorted. Qed.

Lemma StronglySorted_lookup_le rows (j k : nat) (x y : nat * row) :
  StronglySorted date_le rows →
  rows !! j = Some x → rows !! k = Some y → (j ≤ k)%nat → date_le x y.
Proof.
  intros Hs. revert j k.
  induction Hs as [|z rows Hs IH Hz]; intros j k Hj Hk Hjk; [done|].
  destruct j as [|j], k as [|k]; simpl in *; try lia.
  - injection Hj as ->. injection Hk as ->. reflexivity.
  - injection Hj as ->. rewrite Forall_forall in Hz. apply Hz.
    by eapply list_elem_of_lookup_2.
  - eapply IH; [done..|lia].
Qed.

Lemma date_le_known (x y : nat * row) (d e : Timestamp) :
  date_le x y → 规模计算日期 x.2 = Some e → 规模计算日期 y.2 = Some d → e ≤ d.
Proof.
  unfold date_le. intros H Hx Hy. rewrite Hx, Hy in H. simpl in H.
  by apply Is_true_true, Z.leb_le in H.
Qed.


Lemma StronglySorted_date_lt_cases rows (x y : nat * row) :
  StronglySorted date_lt rows → x ∈ rows → y ∈ rows →
  x = y ∨ date_lt x y ∨ date_lt y x.
Proof.
  induction 1 as [|z rows Hs IH Hz]; intros Hx Hy; [by apply elem_of_nil in Hx|].
  rewrite Forall_forall in Hz.
  apply elem_of_cons in Hx as [->|Hx], Hy as [->|Hy]; auto.
Qed.

(** Sorting rows that already stand in strictly ascending date order
    changes nothing. *)
Lemma sort_values_sorted rows :
  StronglySorted date_lt rows → sort_values rows = rows.
Proof.
  intros Hs. apply sort_values_stable.
  induction Hs as [|z rows Hs IH Hz]; constructor; [done|].
  eapply Forall_impl; [exact Hz|]. by intros ? [? _].
Qed.

(** A frame whose rows all carry the code [c] is one group. *)
Lemma filter_all {A : Type} (P : A → Prop) `{∀ x, Decision (P x)} (l : list A) :
  Forall P l → filter P l = l.
Proof.
  induction 1 as [|x l Hx _ IH]; [done|]. by rewrite filter_cons_True, IH.
Qed.

Lemma group_single df (c : string) :
  Forall (fun r => 产品代码 r = Some c) df → group df c = indexed df.
Proof.
  intros Hall. unfold group. apply filter_all.
  apply Forall_forall. intros [i r] Hin. simpl.
  rewrite Forall_forall in Hall.
  apply elem_of_indexed in Hin. apply Hall. by eapply list_elem_of_lookup_2.
Qed.

Lemma group_sorted_single df (c : string) :
  Forall (fun r => 产品代码 r = Some c) df →
  StronglySorted date_lt (indexed df) →
  group_sorted df c = indexed df.
Proof.
  intros Hall Hs. unfold group_sorted. rewrite group_single by done.
  by apply sort_values_sorted.
Qed.

(** The result of a one-product frame in ascending date order is the
    list the walk emits. *)
Lemma assign_single_sorted df (c : string) :
  Forall (fun r => 产品代码 r = Some c) df →
  StronglySorted date_lt (indexed df) →
  assign_nav_disclosure_dates df = iterrows init (indexed df).
Proof.
  intros Hall Hs. apply list_eq. intros i.
  destruct (df !! i) as [r|] eqn:Hi.
  - assert (产品代码 r = Some c) as Hc.
    { rewrite Forall_forall in Hall. apply Hall. by eapply list_elem_of_lookup_2. }
    destruct (assign_aligned df i r c Hi Hc) as (k & Hk & ->).
    unfold dates_of. rewrite group_sorted_single in * by done.
    unfold indexed in Hk. rewrite list_lookup_imap in Hk.
    destruct (df !! k); simpl in Hk; congruence.
  - apply lookup_ge_None in Hi.
    rewrite !(proj2 (lookup_ge_None _ _)); [done|..].
    + unfold indexed. by rewrite iterrows_length, length_imap.
    + by rewrite assign_length.
Qed.

Lemma date_lt_known (i j : nat) (r r' : row) (d e : Timestamp) :
  规模计算日期 r = Some d → 规模计算日期 r' = Some e → d < e →
  date_lt (i, r) (j, r').
Proof.
  intros Hr Hr' Hlt. unfold date_lt, date_le. simpl. rewrite Hr, Hr'. simpl.
  rewrite !Is_true_true, !Z.leb_le. lia.
Qed.

Lemma iterrows_lookup_open st rows (k i : nat) (r : row) :
  rows !! k = Some (i, r) → is_open r = true →
  iterrows st rows !! k = Some (规模计算日期 r).
Proof.
  revert st k.
  induction rows as [|[i0 r0] rows IH]; intros st k Hk Ho; simpl in *; [done|].
  destruct k as [|k]; simpl in *; [|by apply IH].
  injection Hk as -> ->. by rewrite step_open.
Qed.

End tracker_facts.

Section tracker_claims.

Import DisclosureDateTracker.
Import DateNormalizer (Timestamp_of_ymd).

(** C6: every row of every product receives exactly one emitted date, and
    the Series returned holds, at each row's original position, the date
    emitted for that row at its place in its product's sorted walk: the
    result has the length of the input, and the row at label [i] with
    product code [c] stands at exactly one place [k] of the sorted group
    of [c] and receives the [k]-th date of that walk.  A row whose product
    code is null belongs to no product and keeps [NaT].  On
    [sample_frame], whose rows are out of date order, the dates follow
    the input rows. *)
Theorem assign_nav_disclosure_dates_aligned :
  (∀ df : list row,
     length (assign_nav_disclosure_dates df) = length df ∧
     ∀ (i : nat) (r : row) (c : string),
       df !! i = Some r → 产品代码 r = Some c →
       ∃ (k : nat) (d : option Timestamp),
         group_sorted df c !! k = Some (i, r) ∧
         (∀ k' : nat, (group_sorted df c).*1 !! k' = Some i → k' = k) ∧
         dates_of df c !! k = Some d ∧
         assign_nav_disclosure_dates df !! i = Some d) ∧
  (∀ (df : list row) (i : nat) (r : row),
     df !! i = Some r → 产品代码 r = None →
     assign_nav_disclosure_dates df !! i = Some NaT) ∧
  assign_nav_disclosure_dates sample_frame =
    [Some (Timestamp_of_ymd 2024 3 1); Some (Timestamp_of_ymd 2024 2 1);
     Some (Timestamp_of_ymd 2024 1 1); Some (Timestamp_of_ymd 2024 1 1);
     Some (Timestamp_of_ymd 2024 1 1)].
Proof.
  split_and!; [|apply assign_null_code|by vm_compute].
  intros df. split; [apply assign_length|].
  intros i r c Hi Hc.
  destruct (assign_aligned df i r c Hi Hc) as (k & Hk & Hres).
  assert (is_Some (dates_of df c !! k)) as [d Hd].
  { apply lookup_lt_is_Some. unfold dates_of. rewrite iterrows_length.
    by eapply lookup_lt_Some. }
  exists k, d. split_and!; [done| |done|by rewrite Hres].
  intros k' Hk'.
  eapply NoDup_lookup; [apply (NoDup_group_sorted_fst df c)|exact Hk'|].
  by rewrite list_lookup_fmap, Hk.
Qed.

Lemma assign_nav_disclosure_dates_aligned_witness :
  ∃ (k : nat) (d : option Timestamp),
    group_sorted sample_frame "P1" !! k =
      Some (0%nat, mk_row (Some "P1") (Some "封闭式净值型")
                     (Some (Timestamp_of_ymd 2024 3 1)) 1.05) ∧
    (∀ k' : nat, (group_sorted sample_frame "P1").*1 !! k' = Some 0%nat → k' = k) ∧
    dates_of sample_frame "P1" !! k = Some d ∧
    assign_nav_disclosure_dates sample_frame !! 0%nat = Some d.
Proof.
  apply (proj2 (proj1 assign_nav_disclosure_dates_aligned sample_frame) 0%nat
           (mk_row (Some "P1") (Some "封闭式净值型")
              (Some (Timestamp_of_ymd 2024 3 1)) 1.05) "P1");
    reflexivity.
Defined.

(** C10: the date a row receives is the reporting date of a row of the
    same product that stands at or before it in the sorted walk, and when
    both dates are known it is not later than the row's own date. *)
Theorem emitted_date_from_same_product (df : list row) (i : nat) (r : row)
    (c : string) :
  df !! i = Some r → 产品代码 r = Some c →
  ∃ (k j i' : nat) (r' : row),
    group_sorted df c !! k = Some (i, r) ∧
    (j ≤ k)%nat ∧
    group_sorted df c !! j = Some (i', r') ∧
    df !! i' = Some r' ∧
    产品代码 r' = Some c ∧
    assign_nav_disclosure_dates df !! i = Some (规模计算日期 r') ∧
    ∀ d e : Timestamp,
      规模计算日期 r = Some d → 规模计算日期 r' = Some e → e ≤ d.
Proof.
  intros Hi Hc.
  destruct (assign_aligned df i r c Hi Hc) as (k & Hk & Hres).
  assert (is_Some (dates_of df c !! k)) as [d Hd].
  { apply lookup_lt_is_Some. unfold dates_of. rewrite iterrows_length.
    by eapply lookup_lt_Some. }
  pose proof Hd as Ho. unfold dates_of in Ho.
  apply iterrows_origin in Ho as [[[v Hv] _]|(j & [i' r'] & Hjk & Hj & ->)];
    [done|].
  assert ((i', r') ∈ group_sorted df c) as [Hi' Hc']%elem_of_group_sorted
    by by eapply list_elem_of_lookup_2.
  exists k, j, i', r'. split_and!; try done; [by rewrite Hres|].
  intros d e Hd' He.
  eapply (date_le_known (i', r') (i, r)); [|done..].
  eapply StronglySorted_lookup_le; [apply group_sorted_StronglySorted|done..].
Qed.

Lemma emitted_date_from_same_product_witness :
  ∃ (k j i' : nat) (r' : row),
    group_sorted sample_frame "P1" !! k =
      Some (4%nat, mk_row (Some "P1") (Some "封闭式净值型")
                     (Some (Timestamp_of_ymd 2024 2 1)) 1.00) ∧
    (j ≤ k)%nat ∧
    group_sorted sample_frame "P1" !! j = Some (i', r') ∧
    sample_frame !! i' = Some r' ∧
    产品代码 r' = Some "P1" ∧
    assign_nav_disclosure_dates sample_frame !! 4%nat = Some (规模计算日期 r') ∧
    ∀ d e : Timestamp,
      Some (Timestamp_of_ymd 2024 2 1) = Some d → 规模计算日期 r' = Some e → e ≤ d.
Proof.
  apply (emitted_date_from_same_product sample_frame 4
           (mk_row (Some "P1") (Some "封闭式净值型")
              (Some (Timestamp_of_ymd 2024 2 1)) 1.00) "P1");
    reflexivity.
Defined.

(** C5: an observation in the open regime refreshes the tracked state to
    its own unit value and reporting date whatever the state was, and
    receives its own reporting date; three open observations of one
    product on dates D1 < D2 < D3, with any unit values, receive D1, D2
    and D3. *)
Theorem open_regime_own_date :
  (∀ (st : state) (r : row),
     is_open r = true →
     step st r = (Some (最新单位净值 r), 规模计算日期 r)) ∧
  (∀ (df : list row) (i : nat) (r : row) (c : string),
     df !! i = Some r → 产品代码 r = Some c → is_open r = true →
     assign_nav_disclosure_dates df !! i = Some (规模计算日期 r)) ∧
  (∀ (c mode : string) (D1 D2 D3 : Timestamp) (v1 v2 v3 : float),
     str_contains "开放式" mode = true → D1 < D2 → D2 < D3 →
     assign_nav_disclosure_dates
       [mk_row (Some c) (Some mode) (Some D1) v1;
        mk_row (Some c) (Some mode) (Some D2) v2;
        mk_row (Some c) (Some mode) (Some D3) v3] =
     [Some D1; Some D2; Some D3]).
Proof.
  assert (∀ (df : list row) (i : nat) (r : row) (c : string),
     df !! i = Some r → 产品代码 r = Some c → is_open r = true →
     assign_nav_disclosure_dates df !! i = Some (规模计算日期 r)) as Hrow.
  { intros df i r c Hi Hc Ho.
    destruct (assign_aligned df i r c Hi Hc) as (k & Hk & ->).
    by eapply iterrows_lookup_open. }
  split_and!; [apply step_open|exact Hrow|].
  intros c mode D1 D2 D3 v1 v2 v3 Hm _ _.
  apply list_eq. intros [|[|[|i]]].
  - by erewrite (Hrow _ 0%nat _ c) by (reflexivity || exact Hm).
  - by erewrite (Hrow _ 1%nat _ c) by (reflexivity || exact Hm).
  - by erewrite (Hrow _ 2%nat _ c) by (reflexivity || exact Hm).
  - simpl. apply lookup_ge_None. rewrite assign_length. simpl. lia.
Qed.

Lemma open_regime_own_date_witness :
  assign_nav_disclosure_dates
    [mk_row (Some "P2") (Some "开放式净值型") (Some 10) 1.10;
     mk_row (Some "P2") (Some "开放式净值型") (Some 20) nan;
     mk_row (Some "P2") (Some "开放式净值型") (Some 30) 1.10] =
  [Some 10; Some 20; Some 30].
Proof.
  apply (proj2 (proj2 open_regime_own_date)); [reflexivity|lia|lia].
Defined.

(** C1: on observations that are all in the event regime the loop is the
    walk of the specification: from (null, null), each step takes
    effective = the current unit value if it is not null, else the last
    known value, and replaces both fields of the state by (effective,
    current reporting date) exactly when the last known value is null or
    effective differs from it; every row emits the date of the state
    after its step.  A row of such a product receives the date that walk
    emits at the row's place in ascending date order.  Values 1.00, 1.00,
    1.05, 1.05 on D1 < D2 < D3 < D4 give D1, D1, D3, D3, and values 1.00,
    null, 1.05 on D1 < D2 < D3 give D1, D1, D3. *)
Theorem event_regime_walk :
  (∀ (st : state) (rows : list (nat * row)),
     Forall (fun ir => is_open ir.2 = false) rows →
     iterrows st rows =
     event_walk_spec st ((fun ir => observation_of ir.2) <$> rows)) ∧
  (∀ (df : list row) (i : nat) (r : row) (c : string),
     df !! i = Some r → 产品代码 r = Some c →
     (∀ (j : nat) (r' : row),
        df !! j = Some r' → 产品代码 r' = Some c → is_open r' = false) →
     ∃ k : nat,
       group_sorted df c !! k = Some (i, r) ∧
       StronglySorted date_le (group_sorted df c) ∧
       assign_nav_disclosure_dates df !! i =
       event_walk_spec init
         ((fun ir => observation_of ir.2) <$> group_sorted df c) !! k) ∧
  (∀ (c mode : string) (D1 D2 D3 D4 : Timestamp),
     str_contains "开放式" mode = false → D1 < D2 → D2 < D3 → D3 < D4 →
     assign_nav_disclosure_dates
       [mk_row (Some c) (Some mode) (Some D1) 1.00;
        mk_row (Some c) (Some mode) (Some D2) 1.00;
        mk_row (Some c) (Some mode) (Some D3) 1.05;
        mk_row (Some c) (Some mode) (Some D4) 1.05] =
     [Some D1; Some D1; Some D3; Some D3]) ∧
  (∀ (c mode : string) (D1 D2 D3 : Timestamp),
     str_contains "开放式" mode = false → D1 < D2 → D2 < D3 →
     assign_nav_disclosure_dates
       [mk_row (Some c) (Some mode) (Some D1) 1.00;
        mk_row (Some c) (Some mode) (Some D2) nan;
        mk_row (Some c) (Some mode) (Some D3) 1.05] =
     [Some D1; Some D1; Some D3]).
Proof.
  split_and!.
  - apply iterrows_event.
  - intros df i r c Hi Hc Hev.
    destruct (assign_aligned df i r c Hi Hc) as (k & Hk & ->).
    exists k. split_and!; [done|apply group_sorted_StronglySorted|].
    unfold dates_of. rewrite iterrows_event; [done|].
    apply Forall_forall. intros [j r'] [Hj Hc']%elem_of_group_sorted.
    by eapply Hev.
  - intros c mode D1 D2 D3 D4 Hm H12 H23 H34.
    rewrite (assign_single_sorted _ c).
    + rewrite iterrows_event; [by vm_compute|].
      unfold indexed. simpl. by repeat constructor.
    + by repeat constructor.
    + unfold indexed. simpl.
      repeat constructor; eapply date_lt_known; simpl; (reflexivity || lia).
  - intros c mode D1 D2 D3 Hm H12 H23.
    rewrite (assign_single_sorted _ c).
    + rewrite iterrows_event; [by vm_compute|].
      unfold indexed. simpl. by repeat constructor.
    + by repeat constructor.
    + unfold indexed. simpl.
      repeat constructor; eapply date_lt_known; simpl; (reflexivity || lia).
Qed.

Lemma event_regime_walk_witness :
  assign_nav_disclosure_dates
    [mk_row (Some "P1") (Some "封闭式净值型") (Some 10) 1.00;
     mk_row (Some "P1") (Some "封闭式净值型") (Some 20) 1.00;
     mk_row (Some "P1") (Some "封闭式净值型") (Some 30) 1.05;
     mk_row (Some "P1") (Some "封闭式净值型") (Some 40) 1.05] =
  [Some 10; Some 10; Some 30; Some 30].
Proof.
  apply (proj1 (proj2 (proj2 event_regime_walk))); [reflexivity|lia|lia|lia].
Defined.

End tracker_claims.

(** ** DateNormalizer *)

Section normalizer_facts.

Import DateNormalizer.

Variable repr_float : float -> string.
Variable to_datetime : string -> PyResult (option Timestamp).

Local Abbreviation convert := (convert repr_float to_datetime).
Local Abbreviation normalize := (normalize repr_float to_datetime).
Local Abbreviation normalize_spec := (normalize_spec repr_float to_datetime).
Local Abbreviation str := (str repr_float).



Lemma normalize_refines (value : scalar) :
  normalize value = Ok (normalize_spec value).
Proof.
  unfold DateNormalizer.normalize, DateNormalizer.convert,
    DateNormalizer.normalize_spec.
  destruct (isna_scalar value || eq_empty value); [done|].
  set (text := strip (str value)).
  destruct (fullmatch_digits 8 8 text), (fullmatch_digits 4 6 text); simpl;
    repeat (match goal with
            | |- context [to_datetime_Ymd ?x] => destruct (to_datetime_Ymd x)
            | |- context [to_datetime_unit_D ?x] => destruct (to_datetime_unit_D x)
            | |- context [to_datetime ?x] => destruct (to_datetime x)
            end; simpl); done.
Qed.


Lemma floor_D_canonical (t : Timestamp) :
  t mod ns_per_day = 0 → floor_D (Some t) = Some t.
Proof.
  intros Ht. simpl. f_equal.
  rewrite (Z.div_mod t ns_per_day) at 2 by done. rewrite Ht. lia.
Qed.

Lemma floor_D_days (n : Z) :
  floor_D (Some (n * ns_per_day)) = Some (n * ns_per_day).
Proof. simpl. by rewrite Z.div_mul. Qed.

Lemma to_datetime_Ymd_Ok (text : string) (t : Timestamp) :
  to_datetime_Ymd text = Ok t →
  t = Timestamp_of_ymd (digits_val 0 (substring 0 4 text))
        (digits_val 0 (substring 4 2 text))
        (digits_val 0 (substring 6 2 text)).
Proof.
  unfold to_datetime_Ymd.
  repeat (match goal with |- context [if ?b then _ else _] => destruct b end);
    congruence.
Qed.


Lemma fullmatch_digits_exclusive (text : string) :
  fullmatch_digits 8 8 text = true → fullmatch_digits 4 6 text = false.
Proof.
  unfold fullmatch_digits. rewrite !andb_true_iff, !Nat.leb_le.
  intros [[_ ?] ?]. apply andb_false_iff. right. apply Nat.leb_gt. lia.
Qed.

Lemma digit_char_mod10 (x : Z) :
  is_space (digit_char (x mod 10)) = false ∧
  is_digit (digit_char (x mod 10)) = true.
Proof.
  pose proof (Z.mod_pos_bound x 10 ltac:(lia)) as Hb.
  assert (x mod 10 = 0 ∨ x mod 10 = 1 ∨ x mod 10 = 2 ∨ x mod 10 = 3 ∨
          x mod 10 = 4 ∨ x mod 10 = 5 ∨ x mod 10 = 6 ∨ x mod 10 = 7 ∨
          x mod 10 = 8 ∨ x mod 10 = 9) as Hc by lia.
  destruct Hc as [->|[->|[->|[->|[->|[->|[->|[->|[->| ->]]]]]]]]];
    by vm_compute.
Qed.

(** The text of a midnight [Timestamp] is its date followed by
    [ 00:00:00]; trimming leaves it as it is and it is not a run of
    digits. *)
Lemma Timestamp_str_canonical (t : Timestamp) :
  t mod ns_per_day = 0 →
  strip (Timestamp_str t) = Timestamp_str t ∧
  all_digits (Timestamp_str t) = false.
Proof.
  intros Ht. unfold Timestamp_str. rewrite Ht.
  destruct (civil_from_days (t / ns_per_day)) as [[y m] d].
  change (0 / 1000000000) with 0. change (0 mod 1000000000) with 0.
  change (0 mod 1000) with 0. change (0 =? 0) with true. cbv iota.
  change (0 / 3600) with 0. change (0 / 60 mod 60) with 0.
  change (0 mod 60) with 0. change (pad 2 0) with "00".
  split.
  - cbv [pad String.append].
    destruct (digit_char_mod10 (y / 10 ^ Z.of_nat 3)) as [Hs _].
    unfold strip. cbn [lstrip]. rewrite Hs.
    repeat match goal with
           | |- context [digit_char ?x] => generalize (digit_char x); intros ?
           end.
    reflexivity.
  - cbv [pad String.append]. cbn [all_digits].
    change (is_digit "-") with false. by rewrite !andb_false_r.
Qed.

Lemma normalize_canonical (t : Timestamp) :
  t mod ns_per_day = 0 →
  to_datetime (Timestamp_str t) = Ok (Some t) →
  normalize (STimestamp t) = Ok (Some t).
Proof.
  intros Ht Hp.
  destruct (Timestamp_str_canonical t Ht) as [Hstrip Hdigits].
  unfold DateNormalizer.normalize, DateNormalizer.convert.
  cbn [isna_scalar eq_empty orb str].
  rewrite Hstrip. unfold fullmatch_digits. rewrite Hdigits.
  cbn [andb]. rewrite Hp. by rewrite floor_D_canonical.
Qed.

Lemma normalize_null (value : scalar) :
  isna_scalar value || eq_empty value = true → normalize value = Ok NaT.
Proof.
  intros Hn. unfold DateNormalizer.normalize, DateNormalizer.convert.
  by rewrite Hn.
Qed.



Section zones.

Variable tzinfo : string -> option Z.

Local Abbreviation convert_tz := (convert_tz repr_float to_datetime tzinfo).
Local Abbreviation zones := (zones repr_float to_datetime tzinfo).
Local Abbreviation parse_mixed_date :=
  (parse_mixed_date repr_float to_datetime tzinfo).



End zones.

End normalizer_facts.

Section normalizer_claims.

Import DateNormalizer.






(** C9: the normaliser is idempotent on canonical dates.  A Timestamp at
    day resolution whose own text the generic parser reads back
    normalises to itself, and normalising any result of the normaliser
    again gives the same result. *)
Theorem normalize_idempotent (repr_float : float -> string)
    (to_datetime : string -> PyResult (option Timestamp)) (x : Timestamp) :
  x mod ns_per_day = 0 →
  to_datetime (Timestamp_str x) = Ok (Some x) →
  normalize repr_float to_datetime (STimestamp x) = Ok (Some x) ∧
  (∀ r : option Timestamp,
     normalize repr_float to_datetime (STimestamp x) = Ok r →
     normalize repr_float to_datetime (cell_of r) = Ok r) ∧
  normalize repr_float to_datetime (cell_of NaT) = Ok NaT.
Proof.
  intros Hx Hp.
  pose proof (normalize_canonical repr_float to_datetime x Hx Hp) as Hn.
  split_and!; [done| |done].
  intros r. rewrite Hn. by intros [= <-].
Qed.

Lemma normalize_idempotent_witness :
  normalize (fun _ => "nan") iso_to_datetime
    (STimestamp (Timestamp_of_ymd 2024 1 1)) =
    Ok (Some (Timestamp_of_ymd 2024 1 1)) ∧
  (∀ r : option Timestamp,
     normalize (fun _ => "nan") iso_to_datetime
       (STimestamp (Timestamp_of_ymd 2024 1 1)) = Ok r →
     normalize (fun _ => "nan") iso_to_datetime (cell_of r) = Ok r) ∧
  normalize (fun _ => "nan") iso_to_datetime (cell_of NaT) = Ok NaT.
Proof.
  apply (normalize_idempotent (fun _ => "nan") iso_to_datetime
           (Timestamp_of_ymd 2024 1 1)); reflexivity.
Defined.

End normalizer_claims.

(** ** RecordMerger *)

Section merger_facts.

Import RecordMerger.

Context {Valuation CatalogEntry : Type}.
Variable left_on : Valuation -> option string.
Variable right_on : CatalogEntry -> option string.

Implicit Types (left : list Valuation) (right : list CatalogEntry).
Implicit Types (l : Valuation) (e : CatalogEntry).

Lemma elem_of_matches right l e :
  e ∈ matches left_on right_on right l ↔ e ∈ right ∧ right_on e = left_on l.
Proof. unfold matches. rewrite list_elem_of_filter. tauto. Qed.

(** With unique catalog codes a valuation row has at most one match. *)
Lemma matches_unique right l :
  NoDup (right_on <$> right) →
  matches left_on right_on right l = [] ∨
  ∃ e, matches left_on right_on right l = [e].
Proof.
  unfold matches. induction right as [|e right IH]; intros Hnd; [by left|].
  rewrite fmap_cons in Hnd. apply NoDup_cons in Hnd as [He Hnd].
  rewrite filter_cons. case_decide as Hk; [|by apply IH].
  right. exists e. f_equal.
  destruct (filter _ right) as [|e' rest] eqn:Hf; [done|].
  assert (e' ∈ filter (fun r => right_on r = left_on l) right) as Hin
    by (rewrite Hf; by left).
  apply list_elem_of_filter in Hin as [Hk' Hin].
  destruct He. rewrite Hk, <- Hk'. by apply list_elem_of_fmap_2.
Qed.

Lemma merge_row_unique right l :
  NoDup (right_on <$> right) →
  merge_row left_on right_on right l =
  [(l, head (matches left_on right_on right l))].
Proof.
  intros Hnd. unfold merge_row.
  by destruct (matches_unique right l Hnd) as [->|[e ->]].
Qed.

Lemma merge_unique left right :
  NoDup (right_on <$> right) →
  merge left_on right_on left right =
  (fun l => (l, head (matches left_on right_on right l))) <$> left.
Proof.
  intros Hnd. unfold merge.
  induction left as [|l left IH]; [done|].
  rewrite bind_cons, fmap_cons, IH, merge_row_unique by done. done.
Qed.

End merger_facts.

Section merger_claims.

Import RecordMerger.

(** C8: the merge is a left join on the exact product code.  When the
    catalog codes are unique, the output has one row per valuation row,
    in the order of the valuation table; a valuation row without a
    catalog row of the same code is kept with null catalog fields; a
    valuation row with one carries that catalog row; and a catalog row
    whose code no valuation has does not appear.  Codes that differ in
    case or in surrounding blanks do not match. *)
Theorem merge_left_join {Valuation CatalogEntry : Type}
    (left_on : Valuation -> option string)
    (right_on : CatalogEntry -> option string)
    (valuations : list Valuation) (catalog : list CatalogEntry) :
  NoDup (right_on <$> catalog) →
  (merge left_on right_on valuations catalog).*1 = valuations ∧
  length (merge left_on right_on valuations catalog) = length valuations ∧
  (∀ (i : nat) (l : Valuation),
     valuations !! i = Some l →
     (∀ e, e ∈ catalog → right_on e ≠ left_on l) →
     merge left_on right_on valuations catalog !! i = Some (l, None)) ∧
  (∀ (i : nat) (l : Valuation) (e : CatalogEntry),
     valuations !! i = Some l →
     e ∈ catalog → right_on e = left_on l →
     merge left_on right_on valuations catalog !! i = Some (l, Some e)) ∧
  (∀ (e : CatalogEntry) (l : Valuation),
     (l, Some e) ∈ merge left_on right_on valuations catalog →
     l ∈ valuations ∧ e ∈ catalog ∧ right_on e = left_on l) ∧
  (∀ e : CatalogEntry,
     (∀ l, l ∈ valuations → left_on l ≠ right_on e) →
     ∀ l, (l, Some e) ∉ merge left_on right_on valuations catalog).
Proof.
  intros Hnd. rewrite (merge_unique left_on right_on _ _ Hnd).
  assert (∀ (e : CatalogEntry) (l : Valuation),
     (l, Some e) ∈ (fun l => (l, head (matches left_on right_on catalog l)))
                     <$> valuations →
     l ∈ valuations ∧ e ∈ catalog ∧ right_on e = left_on l) as Hin.
  { intros e l (l' & [= <- Hh] & Hl)%list_elem_of_fmap. split; [done|].
    apply (elem_of_matches left_on right_on). symmetry in Hh.
    apply head_Some_elem_of in Hh. done. }
  split_and!.
  - rewrite <- list_fmap_compose. apply list_fmap_id.
  - apply length_fmap.
  - intros i l Hi Hno. rewrite list_lookup_fmap, Hi. simpl. do 2 f_equal.
    destruct (matches _ _ _ _) as [|e rest] eqn:Hm; [done|].
    assert (e ∈ matches left_on right_on catalog l) as Hin'
      by (rewrite Hm; by left).
    apply elem_of_matches in Hin' as [He Hk]. by destruct (Hno e He).
  - intros i l e Hi He Hk. rewrite list_lookup_fmap, Hi. simpl. do 2 f_equal.
    destruct (matches_unique left_on right_on catalog l Hnd) as [Hm|[e' Hm]].
    + assert (e ∈ matches left_on right_on catalog l) as Hin'
        by by apply elem_of_matches.
      rewrite Hm in Hin'. by apply elem_of_nil in Hin'.
    + rewrite Hm. simpl. f_equal.
      assert (e ∈ matches left_on right_on catalog l) as Hin'
        by by apply elem_of_matches.
      rewrite Hm in Hin'. by apply list_elem_of_singleton in Hin'.
  - exact Hin.
  - intros e Hno l Hl. apply Hin in Hl as (Hl & _ & Hk).
    by destruct (Hno l Hl).
Qed.

(** Three valuation rows and a two-row catalog: [abc] matches, [ABC] and
    [abc ] with a trailing blank do not, and the catalog row [zzz] is
    dropped. *)
Lemma merge_left_join_witness :
  (merge fst fst
     [(Some "abc", 1); (Some "ABC", 2); (Some "abc ", 3)]
     [(Some "abc", 10); (Some "zzz", 20)]).*1 =
    [(Some "abc", 1); (Some "ABC", 2); (Some "abc ", 3)] ∧
  merge fst fst
     [(Some "abc", 1); (Some "ABC", 2); (Some "abc ", 3)]
     [(Some "abc", 10); (Some "zzz", 20)] =
    [((Some "abc", 1), Some (Some "abc", 10));
     ((Some "ABC", 2), None); ((Some "abc ", 3), None)].
Proof.
  split.
  - apply (merge_left_join fst fst
             [(Some "abc", 1); (Some "ABC", 2); (Some "abc ", 3)]
             [(Some "abc", 10); (Some "zzz", 20)]).
    apply (bool_decide_unpack _). reflexivity.
  - reflexivity.
Defined.

End merger_claims.

(** ** ReturnCalculator *)

Section return_facts.

Import ReturnCalculator.
Import DateNormalizer (Timestamp_of_ymd).

Variable real_pow : float -> float -> PyResult float.
Variable complex_pow : float -> float -> float * float.

Local Abbreviation calc_annualized_return :=
  (calc_annualized_return real_pow complex_pow).

(** Zero or negative elapsed days give [None], for any unit value. *)
Lemma calc_days_le_0 (r : row) (x y : Timestamp) :
  规模计算日期 r = Some x → 成立日 r = Some y → x ≤ y →
  calc_annualized_return r = PyNone.
Proof.
  intros Hx Hy Hle. unfold ReturnCalculator.calc_annualized_return, try_body, sub_days.
  rewrite Hx, Hy. destruct (DateNormalizer.in_bounds _); [|done]. simpl.
  assert (((x - y) / ns_per_day <=? 0) = true) as ->; [|done].
  apply Z.leb_le. apply Z.div_le_upper_bound; [done|lia].
Qed.

(** A null unit value gives [None]. *)
Lemma calc_nav_null (r : row) :
  isna (最新单位净值 r) = true → calc_annualized_return r = PyNone.
Proof.
  intros Hn. unfold ReturnCalculator.calc_annualized_return, try_body.
  destruct (sub_days _ _) as [days|e]; [|done]. simpl.
  by rewrite Hn, orb_true_r.
Qed.

(** Otherwise the value is [(pow(v, 365 / days) - 1) * 100], and [None]
    when [pow] raises. *)
Lemma calc_formula (r : row) (x y : Timestamp) :
  规模计算日期 r = Some x → 成立日 r = Some y →
  DateNormalizer.in_bounds (x - y) = true →
  0 < (x - y) / ns_per_day →
  isna (最新单位净值 r) = false →
  calc_annualized_return r =
  match pow real_pow complex_pow (最新单位净值 r)
          (PrimFloat.div 365
             (PrimFloat.of_uint63 (Uint63.of_Z ((x - y) / ns_per_day)))) with
  | Ok p => mul_100 (sub_1 p)
  | Raise _ => PyNone
  end.
Proof.
  intros Hx Hy Hb Hd Hn.
  unfold ReturnCalculator.calc_annualized_return, try_body, sub_days.
  rewrite Hx, Hy, Hb. simpl. rewrite Hn.
  assert (((x - y) / ns_per_day <=? 0) = false) as -> by by apply Z.leb_gt.
  simpl. by destruct (pow _ _ _ _).
Qed.

End return_facts.

Section return_claims.

Import ReturnCalculator.
Import DateNormalizer (Timestamp_of_ymd).

(** C2, at the inputs where the code leaves the claim: a negative unit
    value under the fractional exponent 365/100 does not raise, so the
    function returns the complex number [(pow(-1.5, 3.65) - 1) * 100]
    and not [None]; and with an Unknown inception date, where [days] is
    NaN and passes the guard [days <= 0], a unit value of 1.0 returns
    0.0 and not [None]. *)
Theorem calc_annualized_return_not_none
    (real_pow : float -> float -> PyResult float)
    (complex_pow : float -> float -> float * float) :
  calc_annualized_return real_pow complex_pow negative_nav_row =
    mul_100 (sub_1 (PyComplex (complex_pow (-1.5)%float (PrimFloat.div 365 100)).1
                              (complex_pow (-1.5)%float (PrimFloat.div 365 100)).2)) ∧
  calc_annualized_return real_pow complex_pow negative_nav_row ≠ PyNone ∧
  calc_annualized_return real_pow complex_pow unknown_inception_row = PyFloat 0.
Proof.
  assert (calc_annualized_return real_pow complex_pow negative_nav_row =
    mul_100 (sub_1 (PyComplex (complex_pow (-1.5)%float (PrimFloat.div 365 100)).1
                              (complex_pow (-1.5)%float (PrimFloat.div 365 100)).2)))
    as Hneg.
  { unfold calc_annualized_return, try_body, negative_nav_row.
    cbn [规模计算日期 成立日 最新单位净值].
    change (sub_days _ _) with (Ok (DaysInt 100)).
    change (days_le_0 (DaysInt 100) || isna (-1.5)%float) with false. cbv iota.
    change (div_365 (DaysInt 100)) with (PrimFloat.div 365 100).
    unfold pow.
    change (PrimFloat.eqb (PrimFloat.div 365 100) 0) with false.
    change (PrimFloat.is_nan (-1.5)%float) with false.
    change (PrimFloat.is_nan (PrimFloat.div 365 100)) with false.
    change (PrimFloat.is_infinity (PrimFloat.div 365 100)) with false.
    change (PrimFloat.is_infinity (-1.5)%float) with false.
    change (PrimFloat.ltb (-1.5)%float 0) with true.
    change (is_integral (PrimFloat.div 365 100)) with false.
    cbv iota beta. simpl orb. simpl andb. cbv iota.
    by destruct (complex_pow _ _). }
  split_and!; [done| |by vm_compute].
  rewrite Hneg. simpl. done.
Qed.

End return_claims.

(** ** ReportProjector *)

(** Membership in a list of labels written out, decided by evaluation. *)
Ltac decide_labels := apply (bool_decide_unpack _); vm_compute; exact I.

Section projector_facts.

Import ReportProjector.

Context {column : Type}.
Variable DataFrame : list column → column.

Implicit Types (df : @frame column) (l label : string) (c : column).
Implicit Types (labels : list string).

Lemma getitem_present df l : l ∈ df.*1 → ∃ c, getitem df l = Ok c.
Proof.
  induction df as [|[l0 c0] df IH]; simpl; [by intros ?%elem_of_nil|].
  intros [->|Hin]%elem_of_cons; case_decide; eauto. done.
Qed.

Lemma getitem_absent df l : l ∉ df.*1 → getitem df l = Raise (KeyError l).
Proof.
  induction df as [|[l0 c0] df IH]; simpl; [done|].
  intros [Hne Hin]%not_elem_of_cons. case_decide; [congruence|by apply IH].
Qed.

Lemma getitem_Ok_elem_of df l c : getitem df l = Ok c → l ∈ df.*1.
Proof.
  intros Hget. destruct (decide (l ∈ df.*1)) as [|Hno]; [done|].
  rewrite (getitem_absent df l Hno) in Hget. done.
Qed.

Lemma setitem_labels_present df l c : l ∈ df.*1 → (setitem df l c).*1 = df.*1.
Proof.
  intros Hin. unfold setitem, has_column. rewrite bool_decide_eq_true_2 by done.
  rewrite <- list_fmap_compose. apply list_fmap_ext.
  intros i [l0 c0] _. simpl. by case_decide.
Qed.

Lemma setitem_labels_absent df l c :
  l ∉ df.*1 → (setitem df l c).*1 = (df.*1 ++ [l])%list.
Proof.
  intros Hno. unfold setitem, has_column. rewrite bool_decide_eq_false_2 by done.
  by rewrite fmap_app.
Qed.

Lemma elem_of_setitem_labels df l c l' :
  l' ∈ (setitem df l c).*1 ↔ l' ∈ df.*1 ∨ l' = l.
Proof.
  destruct (decide (l ∈ df.*1)) as [Hin|Hno].
  - rewrite setitem_labels_present by done. split; [by left|].
    by intros [?| ->].
  - rewrite setitem_labels_absent, elem_of_app, list_elem_of_singleton by done.
    done.
Qed.

Lemma getitem_app_absent df (df' : @frame column) l :
  l ∉ df.*1 → getitem (df ++ df')%list l = getitem df' l.
Proof.
  induction df as [|[l0 c0] df IH]; simpl; [done|].
  intros [Hne Hin]%not_elem_of_cons. case_decide; [congruence|by apply IH].
Qed.

Lemma getitem_app_present df (df' : @frame column) l :
  l ∈ df.*1 → getitem (df ++ df')%list l = getitem df l.
Proof.
  induction df as [|[l0 c0] df IH]; simpl; [by intros ?%elem_of_nil|].
  intros [->|Hin]%elem_of_cons; case_decide; try done. by apply IH.
Qed.

Lemma getitem_setitem_eq df l c : getitem (setitem df l c) l = Ok c.
Proof.
  unfold setitem, has_column. case_bool_decide as Hin.
  - induction df as [|[l0 c0] df IH]; [by apply elem_of_nil in Hin|].
    simpl. case_decide as Hl; simpl.
    + by rewrite decide_True.
    + rewrite decide_False by done. apply IH.
      simpl in Hin. apply elem_of_cons in Hin as [->|Hin]; done.
  - rewrite getitem_app_absent by done. simpl. by rewrite decide_True.
Qed.

Lemma getitem_setitem_ne df l c l' :
  l ≠ l' → getitem (setitem df l c) l' = getitem df l'.
Proof.
  intros Hne. unfold setitem, has_column. case_bool_decide as Hin.
  - clear Hin. induction df as [|[l0 c0] df IH]; [done|].
    simpl. case_decide as Hl; simpl.
    + subst l0. by rewrite !decide_False by done.
    + case_decide; [done|apply IH].
  - destruct (decide (l' ∈ df.*1)) as [Hin'|Hno'].
    + by apply getitem_app_present.
    + rewrite getitem_app_absent by done. simpl.
      rewrite decide_False by done. by rewrite getitem_absent.
Qed.


(** The columns under a label. *)
Lemma columns_of_cons l0 c0 df l :
  columns_of ((l0, c0) :: df) l =
  if decide (l0 = l) then c0 :: columns_of df l else columns_of df l.
Proof.
  unfold columns_of. rewrite filter_cons. simpl. by case_decide.
Qed.

Lemma columns_of_app df (df' : @frame column) l :
  columns_of (df ++ df')%list l = (columns_of df l ++ columns_of df' l)%list.
Proof. unfold columns_of. by rewrite filter_app, fmap_app. Qed.

Lemma columns_of_absent df l : l ∉ df.*1 → columns_of df l = [].
Proof.
  induction df as [|[l0 c0] df IH]; [done|].
  intros [Hne Hin]%not_elem_of_cons. rewrite columns_of_cons.
  simpl in Hne. rewrite decide_False by done. by apply IH.
Qed.

Lemma columns_of_present df l : l ∈ df.*1 → columns_of df l ≠ [].
Proof.
  induction df as [|[l0 c0] df IH]; [by intros ?%elem_of_nil|].
  rewrite columns_of_cons. intros [->|Hin]%elem_of_cons.
  - by rewrite decide_True.
  - case_decide; [done|by apply IH].
Qed.

Lemma columns_of_elem_of df l c cs : columns_of df l = c :: cs → l ∈ df.*1.
Proof.
  intros Hcs. destruct (decide (l ∈ df.*1)) as [|Hno]; [done|].
  by rewrite columns_of_absent in Hcs.
Qed.

Lemma columns_of_getitem df l c cs :
  columns_of df l = c :: cs → getitem df l = Ok c.
Proof.
  induction df as [|[l0 c0] df IH]; [done|].
  rewrite columns_of_cons. simpl. case_decide; [|done]. by intros [= -> _].
Qed.

Lemma item_single df l c : columns_of df l = [c] → item DataFrame df l = Ok c.
Proof. unfold item. by intros ->. Qed.

Lemma item_present df l : l ∈ df.*1 → ∃ c, item DataFrame df l = Ok c.
Proof.
  intros Hin%columns_of_present. unfold item.
  destruct (columns_of df l) as [|c [|c' cs]]; [done|eauto..].
Qed.

Lemma columns_of_setitem_ne df l c l' :
  l ≠ l' → columns_of (setitem df l c) l' = columns_of df l'.
Proof.
  intros Hne. unfold setitem. destruct (has_column df l).
  - induction df as [|[l0 c0] df IH]; [done|].
    rewrite fmap_cons. simpl. case_decide as Hl.
    + subst l0. rewrite !columns_of_cons, !decide_False by done. apply IH.
    + rewrite !columns_of_cons. case_decide; by rewrite IH.
  - rewrite columns_of_app, (columns_of_cons l c [] l').
    rewrite decide_False by done. apply app_nil_r.
Qed.

Lemma columns_of_setitem_eq df l c :
  columns_of (setitem df l c) l =
  replicate (length (columns_of df l) `max` 1) c.
Proof.
  unfold setitem, has_column. case_bool_decide as Hin.
  - apply columns_of_present in Hin.
    assert (columns_of
              ((fun lc : string * column =>
                  if decide (lc.1 = l) then (l, c) else lc) <$> df) l =
            replicate (length (columns_of df l)) c) as ->.
    { clear Hin. induction df as [|[l0 c0] df IH]; [done|].
      rewrite fmap_cons. simpl. case_decide as Hl.
      - subst l0. rewrite !columns_of_cons, !decide_True by done.
        simpl. by rewrite IH.
      - rewrite !columns_of_cons, !decide_False by done. apply IH. }
    f_equal. destruct (columns_of df l); [done|]. simpl. lia.
  - rewrite columns_of_app, (columns_of_absent df l) by done.
    by rewrite (columns_of_cons l c [] l), decide_True by done.
Qed.

(** An assignment leaves a label over one column when it stood over at
    most one. *)
Lemma columns_of_setitem_single df l c :
  (length (columns_of df l) ≤ 1)%nat → columns_of (setitem df l c) l = [c].
Proof.
  intros Hle. rewrite columns_of_setitem_eq.
  by replace (length (columns_of df l) `max` 1)%nat with 1%nat by lia.
Qed.

Lemma length_columns_of_setitem df l c l' :
  (length (columns_of df l') ≤ length (columns_of (setitem df l c) l'))%nat.
Proof.
  destruct (decide (l = l')) as [->|Hne].
  - rewrite columns_of_setitem_eq, length_replicate. lia.
  - by rewrite columns_of_setitem_ne.
Qed.

Lemma columns_of_setitem_frame_ne df l (values : list column) l' :
  l ≠ l' → columns_of (setitem_frame df l values) l' = columns_of df l'.
Proof.
  intros Hne. revert values.
  induction df as [|[l0 c0] df IH]; intros values; [done|].
  simpl. case_decide as Hl.
  - subst l0. destruct values as [|v values]; [done|].
    rewrite !columns_of_cons, !decide_False by done. apply IH.
  - rewrite !columns_of_cons. case_decide; by rewrite IH.
Qed.

(** The guarded loop. *)
Lemma transform_present_labels (f : column → PyResult column) labels df df' :
  transform_present DataFrame f labels df = Ok df' → df'.*1 = df.*1.
Proof.
  revert df. induction labels as [|l labels IH]; intros df; simpl.
  { by intros [= ->]. }
  unfold has_column. case_bool_decide as Hin; [|apply IH].
  destruct (item DataFrame df l) as [c|e]; [|done]. cbn [mbind PyResult_bind].
  destruct (f c) as [c'|e]; [|done]. cbn [mbind PyResult_bind].
  intros ->%IH. by apply setitem_labels_present.
Qed.

Lemma transform_present_skip (f : column → PyResult column) labels df :
  transform_present DataFrame f labels df =
  transform_present DataFrame f (filter (fun l => l ∈ df.*1) labels) df.
Proof.
  revert df. induction labels as [|l labels IH]; intros df; [done|].
  rewrite filter_cons. simpl. unfold has_column.
  case_bool_decide as Hin.
  - rewrite decide_True by done. simpl. unfold has_column.
    rewrite bool_decide_eq_true_2 by done.
    destruct (item DataFrame df l) as [c|e]; [|done].
    cbn [mbind PyResult_bind].
    destruct (f c) as [c'|e]; [|done]. cbn [mbind PyResult_bind].
    rewrite IH. by rewrite setitem_labels_present.
  - rewrite decide_False by done. apply IH.
Qed.

Lemma transform_present_absent (f : column → PyResult column) labels df :
  (∀ l, l ∈ labels → l ∉ df.*1) →
  transform_present DataFrame f labels df = Ok df.
Proof.
  intros Hno. rewrite transform_present_skip.
  assert (filter (fun l => l ∈ df.*1) labels = []) as ->; [|done].
  induction labels as [|l labels IH]; [done|].
  rewrite filter_cons, decide_False by (apply Hno; by left).
  apply IH. intros l' Hl'. apply Hno. by right.
Qed.

Lemma transform_present_Raise (f : column → PyResult column) labels df e :
  transform_present DataFrame f labels df = Raise e → ∃ c, f c = Raise e.
Proof.
  revert df. induction labels as [|l labels IH]; intros df; simpl; [done|].
  unfold has_column. case_bool_decide as Hin; [|apply IH].
  destruct (item_present df l Hin) as [c ->]. cbn [mbind PyResult_bind].
  destruct (f c) as [c'|e'] eqn:Hf; cbn [mbind PyResult_bind]; [apply IH|].
  intros [= ->]. eauto.
Qed.

Lemma transform_present_Ok (f : column → PyResult column) labels df :
  (∀ c, ∃ c', f c = Ok c') → ∃ df', transform_present DataFrame f labels df = Ok df'.
Proof.
  intros Hf. destruct (transform_present DataFrame f labels df) as [df'|e] eqn:Hrun;
    [eauto|].
  apply transform_present_Raise in Hrun as [c Hc].
  destruct (Hf c) as [c' Hc']. congruence.
Qed.

(** What the loop leaves under a label: as many columns as before; under
    a label over one column, that column, transformed when the loop
    names the label. *)
Lemma transform_present_columns (f : column → PyResult column) labels df df' l :
  NoDup labels →
  transform_present DataFrame f labels df = Ok df' →
  length (columns_of df' l) = length (columns_of df l) ∧
  (l ∉ labels → columns_of df' l = columns_of df l) ∧
  (∀ c, columns_of df l = [c] →
        ∃ c', (if bool_decide (l ∈ labels) then f c else Ok c) = Ok c' ∧
              columns_of df' l = [c']).
Proof.
  revert df. induction labels as [|l0 labels IH]; intros df Hnd Hrun.
  { injection Hrun as <-. split_and!; [done..|]. intros c Hc. by exists c. }
  apply NoDup_cons in Hnd as [Hl0 Hnd]. simpl in Hrun.
  unfold has_column in Hrun. case_bool_decide as Hin.
  - destruct (item DataFrame df l0) as [c0|e] eqn:Hitem; [|done].
    cbn [mbind PyResult_bind] in Hrun.
    destruct (f c0) as [c0'|e] eqn:Hf; [|done].
    cbn [mbind PyResult_bind] in Hrun.
    destruct (IH _ Hnd Hrun) as (Hlen & Hkeep & Hone).
    destruct (decide (l0 = l)) as [->|Hne].
    + split_and!.
      * rewrite Hlen, columns_of_setitem_eq, length_replicate.
        apply columns_of_present in Hin.
        destruct (columns_of df l); [done|]. simpl. lia.
      * intros []%not_elem_of_cons. done.
      * intros c Hc. rewrite bool_decide_eq_true_2 by by left.
        unfold item in Hitem. rewrite Hc in Hitem. injection Hitem as <-.
        exists c0'. split; [done|].
        rewrite Hkeep by done.
        apply columns_of_setitem_single. rewrite Hc. simpl. lia.
    + rewrite columns_of_setitem_ne in Hlen, Hkeep, Hone by done.
      split_and!; [done| |].
      * intros []%not_elem_of_cons. by apply Hkeep.
      * intros c Hc. destruct (Hone c Hc) as (c' & Hc' & Hcol).
        exists c'. split; [|done].
        rewrite <- Hc'.
        rewrite (bool_decide_ext (l ∈ l0 :: labels) (l ∈ labels)); [done|].
        rewrite elem_of_cons. split; [by intros [->|?]|by right].
  - destruct (IH _ Hnd Hrun) as (Hlen & Hkeep & Hone).
    assert (l0 ≠ l ∨ columns_of df l = []) as Hcase.
    { destruct (decide (l0 = l)) as [->|]; [right|by left].
      by apply columns_of_absent. }
    split_and!; [done| |].
    + intros []%not_elem_of_cons. by apply Hkeep.
    + intros c Hc. destruct Hcase as [Hne|Hnil]; [|congruence].
      destruct (Hone c Hc) as (c' & Hc' & Hcol).
      exists c'. split; [|done].
      rewrite <- Hc'.
      rewrite (bool_decide_ext (l ∈ l0 :: labels) (l ∈ labels)); [done|].
      rewrite elem_of_cons. split; [by intros [->|?]|by right].
Qed.

(** The selection [df[labels]]. *)
Lemma elem_of_unique (seen labels : list string) l :
  l ∈ unique seen labels ↔ l ∈ labels ∧ l ∉ seen.
Proof.
  revert seen. induction labels as [|l0 labels IH]; intros seen; simpl.
  { rewrite elem_of_nil. split; [done|]. by intros [[] _]. }
  case_decide as Hseen.
  - rewrite IH, elem_of_cons. split; [by intros [? ?]; auto|].
    intros [[->|?] ?]; done.
  - rewrite !elem_of_cons, IH, not_elem_of_cons. split.
    + intros [->|[? [? ?]]]; auto.
    + intros [[->|?] ?]; [by left|].
      destruct (decide (l = l0)) as [->|]; [by left|right; auto].
Qed.

Lemma getitem_list_missing df labels l :
  l ∈ labels → l ∉ df.*1 →
  ∃ missing, getitem_list df labels = Raise (NotInIndex missing) ∧
             l ∈ missing ∧ ∀ l', l' ∈ missing → l' ∈ labels ∧ l' ∉ df.*1.
Proof.
  intros Hl Hno. unfold getitem_list.
  assert (l ∈ unique [] (filter (fun l => l ∉ df.*1) labels)) as Hin.
  { apply elem_of_unique. split; [|apply not_elem_of_nil].
    by apply list_elem_of_filter. }
  assert (∀ l', l' ∈ unique [] (filter (fun l => l ∉ df.*1) labels) →
                l' ∈ labels ∧ l' ∉ df.*1) as Hall.
  { intros l' [[? ?]%list_elem_of_filter _]%elem_of_unique. done. }
  destruct (unique [] _) as [|m ms]; [by apply elem_of_nil in Hin|]. eauto.
Qed.

Lemma getitem_list_inv df labels selected :
  getitem_list df labels = Ok selected →
  (∀ l, l ∈ labels → l ∈ df.*1) ∧
  selected =
    mjoin ((fun l => (fun c => (l, c)) <$> columns_of df l) <$> labels).
Proof.
  unfold getitem_list. intros Hsel. split.
  - intros l Hl. destruct (decide (l ∈ df.*1)) as [|Hno]; [done|].
    destruct (getitem_list_missing df labels l Hl Hno) as (m & Hm & _).
    unfold getitem_list in Hm. congruence.
  - destruct (unique [] _); [|done]. by injection Hsel.
Qed.

Lemma getitem_list_present df labels :
  (∀ l, l ∈ labels → l ∈ df.*1) →
  getitem_list df labels =
  Ok (mjoin ((fun l => (fun c => (l, c)) <$> columns_of df l) <$> labels)).
Proof.
  intros Hall. unfold getitem_list.
  assert (filter (fun l => l ∉ df.*1) labels = []) as ->; [|done].
  induction labels as [|l labels IH]; [done|].
  rewrite filter_cons, decide_False.
  - apply IH. intros l' Hl'. apply Hall. by right.
  - intros Hno. apply Hno, Hall. by left.
Qed.

Lemma length_selection df labels :
  length (mjoin ((fun l => (fun c => (l, c)) <$> columns_of df l) <$> labels)) =
  sum_list ((fun l => length (columns_of df l)) <$> labels).
Proof.
  rewrite length_join, <- list_fmap_compose. f_equal.
  apply list_fmap_ext. intros i l _. simpl. apply length_fmap.
Qed.

Lemma sum_list_ones {A : Type} (n : A → nat) (xs : list A) :
  (∀ x, x ∈ xs → (1 ≤ n x)%nat) →
  (length xs ≤ sum_list (n <$> xs))%nat ∧
  (sum_list (n <$> xs) = length xs → ∀ x, x ∈ xs → n x = 1%nat).
Proof.
  induction xs as [|x0 xs IH]; intros Hall.
  { split; [done|]. by intros _ x ?%elem_of_nil. }
  destruct IH as [Hge Heq]; [intros x Hx; apply Hall; by right|].
  pose proof (Hall x0 ltac:(by left)) as H0.
  rewrite fmap_cons.
  change (sum_list (n x0 :: (n <$> xs)))
    with (n x0 + sum_list (n <$> xs))%nat.
  cbn [length]. split; [lia|].
  intros Hsum x [->|Hx]%elem_of_cons; [lia|]. apply Heq; [lia|done].
Qed.

(** A selection of as many columns as labels has one column under each
    label. *)
Lemma selection_length df labels :
  (∀ l, l ∈ labels → l ∈ df.*1) →
  length (mjoin ((fun l => (fun c => (l, c)) <$> columns_of df l) <$> labels)) =
    length labels →
  ∀ l, l ∈ labels → ∃ c, columns_of df l = [c].
Proof.
  intros Hall Hlen l Hl. rewrite length_selection in Hlen.
  destruct (sum_list_ones (fun l => length (columns_of df l)) labels)
    as [_ Hone].
  { intros l' Hl'. apply Hall, columns_of_present in Hl'.
    destruct (columns_of df l'); [done|]. simpl. lia. }
  specialize (Hone Hlen l Hl). simpl in Hone.
  destruct (columns_of df l) as [|c [|c' cs]]; [done|eauto|done].
Qed.

Lemma selection_lookup df labels (i : nat) l c :
  (∀ l, l ∈ labels → ∃ c, columns_of df l = [c]) →
  labels !! i = Some l → columns_of df l = [c] →
  mjoin ((fun l => (fun c => (l, c)) <$> columns_of df l) <$> labels) !! i =
  Some (l, c).
Proof.
  revert i. induction labels as [|l0 labels IH]; intros i Hall Hi Hc; [done|].
  rewrite fmap_cons. cbn [mjoin list_join].
  destruct (Hall l0 ltac:(by left)) as [c0 Hc0]. rewrite Hc0.
  destruct i as [|i]; simpl in *.
  - injection Hi as ->. congruence.
  - apply IH; [|done..]. intros l' Hl'. apply Hall. by right.
Qed.

Lemma selection_singletons_length df labels :
  (∀ l, l ∈ labels → ∃ c, columns_of df l = [c]) →
  length (mjoin ((fun l => (fun c => (l, c)) <$> columns_of df l) <$> labels)) =
  length labels.
Proof.
  induction labels as [|l0 labels IH]; intros Hall; [done|].
  rewrite fmap_cons. cbn [mjoin list_join].
  destruct (Hall l0 ltac:(by left)) as [c0 ->]. simpl. f_equal.
  apply IH. intros l' Hl'. apply Hall. by right.
Qed.

(** The columns of a frame given by distinct labels. *)
Lemma columns_of_zip labels (cs : list column) (i : nat) l c :
  NoDup labels → labels !! i = Some l → cs !! i = Some c →
  columns_of (zip labels cs) l = [c].
Proof.
  revert cs i. induction labels as [|l0 labels IH]; intros cs i Hnd Hl Hc;
    [done|].
  apply NoDup_cons in Hnd as [Hl0 Hnd].
  destruct cs as [|c0 cs]; [done|]. cbn [zip zip_with].
  rewrite columns_of_cons. destruct i as [|i]; simpl in *.
  - injection Hl as ->. injection Hc as ->. rewrite decide_True by done.
    f_equal. apply columns_of_absent.
    intros Hin. apply Hl0.
    apply list_elem_of_fmap in Hin as ([l' c'] & -> & Hin).
    by apply elem_of_zip_l in Hin.
  - rewrite decide_False; [by eapply IH|].
    intros ->. apply Hl0. by eapply list_elem_of_lookup_2.
Qed.

Lemma set_columns_inv df labels renamed :
  set_columns df labels = Ok renamed →
  length df = length labels ∧ renamed = zip labels df.*2.
Proof.
  unfold set_columns. case_bool_decide; [|done]. by intros [= <-].
Qed.

End projector_facts.

Section projector_steps.

Import ReportProjector.

Context {column : Type}.
Variable DataFrame : list column → column.
Variable parse_mixed_date scale strftime year : column → PyResult column.
Variable annualized_return : @frame column → PyResult column.
Variable disclosure_dates :
  column → column → column → column → PyResult column.
Variable has_group : column → bool.
Variable no_dates : column → column.

Implicit Types (df out : @frame column) (l lin lout : string) (c : column).

Local Abbreviation project := (project DataFrame scale strftime year).
Local Abbreviation add_disclosure_date :=
  (add_disclosure_date DataFrame disclosure_dates has_group no_dates).
Local Abbreviation pipeline :=
  (pipeline DataFrame parse_mixed_date scale strftime year annualized_return
     disclosure_dates has_group no_dates).
Local Abbreviation pre := (pre parse_mixed_date).
Local Abbreviation post := (post scale strftime).

(** What lines 158 to 182 leave, when they run to their end. *)
Lemma project_lookup df out :
  project df = Ok out →
  out.*1 = (report_columns ++ ["年份"])%list ∧
  (∀ l, l ∈ final_columns → ∃ c, columns_of df l = [c]) ∧
  (∀ (i : nat) lin lout,
     final_columns !! i = Some lin → report_columns !! i = Some lout →
     ∃ c c', columns_of df lin = [c] ∧ post lout c = Ok c' ∧
             columns_of out lout = [c']) ∧
  (∃ c y, columns_of df "规模计算日期" = [c] ∧ year c = Ok y ∧
          columns_of out "年份" = [y]).
Proof.
  unfold ReportProjector.project. intros Hrun.
  destruct (getitem_list df final_columns) as [selected|e] eqn:Hsel; [|done].
  cbn [mbind PyResult_bind] in Hrun.
  apply getitem_list_inv in Hsel as [Hpresent ->].
  set (selected := mjoin _) in *.
  destruct (set_columns selected report_columns) as [renamed|e] eqn:Hren;
    [|done].
  cbn [mbind PyResult_bind] in Hrun.
  apply set_columns_inv in Hren as [Hlen ->].
  assert (∀ l, l ∈ final_columns → ∃ c, columns_of df l = [c]) as Hone.
  { apply selection_length; [done|]. fold selected. by rewrite Hlen. }
  assert (NoDup report_columns) as Hnd by decide_labels.
  assert (∀ (i : nat) lin lout,
            final_columns !! i = Some lin → report_columns !! i = Some lout →
            ∃ c, columns_of df lin = [c] ∧
                 columns_of (zip report_columns selected.*2) lout = [c])
    as Hrenamed.
  { intros i lin lout Hin Hout.
    destruct (Hone lin) as [c Hc]; [by eapply list_elem_of_lookup_2|].
    exists c. split; [done|].
    apply (columns_of_zip _ _ i); [done..|].
    rewrite list_lookup_fmap. subst selected.
    by rewrite (selection_lookup df final_columns i lin c). }
  assert ((zip report_columns selected.*2).*1 = report_columns) as Hlabels.
  { apply fst_zip. rewrite length_fmap. lia. }
  set (renamed := zip report_columns selected.*2) in *.
  destruct (transform_present DataFrame scale scaled_columns renamed)
    as [scaled|e] eqn:Hsc; [|done].
  cbn [mbind PyResult_bind] in Hrun.
  destruct (item DataFrame scaled "规模计算日期") as [dates|e] eqn:Hdates;
    [|done].
  cbn [mbind PyResult_bind] in Hrun.
  destruct (year dates) as [years|e] eqn:Hyears; [|done].
  cbn [mbind PyResult_bind] in Hrun.
  assert (NoDup scaled_columns) as Hnds by decide_labels.
  assert (NoDup formatted_columns) as Hndf by decide_labels.
  pose proof (transform_present_labels DataFrame _ _ _ _ Hsc) as Hsl.
  pose proof (transform_present_labels DataFrame _ _ _ _ Hrun) as Hol.
  assert ("年份" ∉ scaled.*1) as Hyear.
  { rewrite Hsl, Hlabels. decide_labels. }
  split_and!.
  - by rewrite Hol, setitem_labels_absent, Hsl, Hlabels.
  - done.
  - intros i lin lout Hin Hout.
    destruct (Hrenamed i lin lout Hin Hout) as (c & Hc & Hr).
    destruct (transform_present_columns DataFrame _ _ _ _ lout Hnds Hsc)
      as (_ & _ & Hs).
    destruct (Hs c Hr) as (c1 & Hc1 & Hs1).
    assert (lout ≠ "年份") as Hne.
    { intros ->. apply list_elem_of_lookup_2 in Hout. revert Hout.
      decide_labels. }
    destruct (transform_present_columns DataFrame _ _ _ _ lout Hndf Hrun)
      as (_ & _ & Ho).
    destruct (Ho c1) as (c' & Hc' & Ho1).
    { by rewrite columns_of_setitem_ne. }
    exists c, c'. split_and!; [done| |done].
    unfold ReportProjector.post. rewrite Hc1. by cbn [mbind PyResult_bind].
  - destruct (Hrenamed 0%nat "规模计算日期" "规模计算日期" eq_refl eq_refl)
      as (c & Hc & Hr).
    destruct (transform_present_columns DataFrame _ _ _ _ "规模计算日期"
                Hnds Hsc) as (_ & Hkeep & _).
    rewrite <- Hkeep in Hr by decide_labels.
    rewrite (item_single DataFrame _ _ _ Hr) in Hdates.
    injection Hdates as <-.
    exists c, years. split_and!; [done..|].
    destruct (transform_present_columns DataFrame _ _ _ _ "年份" Hndf Hrun)
      as (_ & Hkeep' & _).
    rewrite Hkeep' by decide_labels.
    apply columns_of_setitem_single.
    rewrite columns_of_absent by done. simpl. lia.
Qed.

(** Line 113 leaves the other labels as they are. *)
Lemma set_cumulative_nav_columns df df' l :
  set_cumulative_nav df = Ok df' → l ≠ "最新累计净值" →
  columns_of df' l = columns_of df l.
Proof.
  unfold set_cumulative_nav. intros Hrun Hne.
  destruct (columns_of df "最新单位净值") as [|nav [|nav' navs]]; [done| |].
  - injection Hrun as <-. by apply columns_of_setitem_ne.
  - case_bool_decide; [|done]. injection Hrun as <-.
    by apply columns_of_setitem_frame_ne.
Qed.

Lemma set_cumulative_nav_single df nav :
  columns_of df "最新单位净值" = [nav] →
  set_cumulative_nav df = Ok (setitem df "最新累计净值" nav).
Proof. unfold set_cumulative_nav. by intros ->. Qed.

(** Line 146 adds or replaces the one label. *)
Lemma add_disclosure_date_inv df df' :
  add_disclosure_date df = Ok df' →
  ∃ result, df' = setitem df "最新净值日期" result.
Proof.
  unfold ReportProjector.add_disclosure_date.
  destruct (match columns_of df "产品代码" with [] => _ | _ => _ end)
    as [result|e]; [|done].
  cbn [mbind PyResult_bind]. intros [= <-]. eauto.
Qed.

Lemma add_disclosure_date_single df code dates mode nav :
  columns_of df "产品代码" = [code] →
  columns_of df "规模计算日期" = [dates] →
  columns_of df "运作模式" = [mode] →
  columns_of df "最新单位净值" = [nav] →
  add_disclosure_date df =
  (result ← (if has_group code then disclosure_dates code dates mode nav
             else Ok (no_dates code));
   Ok (setitem df "最新净值日期" result)).
Proof.
  unfold ReportProjector.add_disclosure_date. intros -> -> -> Hnav.
  by rewrite (item_single DataFrame _ _ _ Hnav).
Qed.

(** The steps of a run that reaches its end. *)
Lemma pipeline_inv df out :
  pipeline df = Ok out →
  ∃ (cleaned with_nav with_date : @frame column) (returns : column),
    transform_present DataFrame parse_mixed_date cleaned_columns df =
      Ok cleaned ∧
    annualized_return cleaned = Ok returns ∧
    set_cumulative_nav (setitem cleaned "成立以来年化收益率（%）" returns) =
      Ok with_nav ∧
    add_disclosure_date with_nav = Ok with_date ∧
    project with_date = Ok out.
Proof.
  unfold ReportProjector.pipeline. intros Hrun.
  destruct (transform_present _ _ _ df) as [cleaned|e] eqn:Hc; [|done].
  cbn [mbind PyResult_bind] in Hrun.
  destruct (annualized_return cleaned) as [returns|e] eqn:Hr; [|done].
  cbn [mbind PyResult_bind] in Hrun.
  destruct (set_cumulative_nav _) as [with_nav|e] eqn:Hn; [|done].
  cbn [mbind PyResult_bind] in Hrun.
  destruct (ReportProjector.add_disclosure_date _ _ _ _ with_nav)
    as [with_date|e] eqn:Hd; [|done].
  cbn [mbind PyResult_bind] in Hrun.
  by exists cleaned, with_nav, with_date, returns.
Qed.

Lemma final_columns_cases l :
  l ∈ final_columns →
  l ∈ expected_columns ∨
  l ∈ ["成立以来年化收益率（%）"; "最新累计净值"; "最新净值日期"].
Proof.
  intros Hl.
  destruct (decide (l ∈ ["成立以来年化收益率（%）"; "最新累计净值"; "最新净值日期"]))
    as [|Hno]; [by right|left].
  unfold expected_columns. rewrite elem_of_remove_dups.
  by apply list_elem_of_filter.
Qed.

Lemma expected_columns_final l :
  l ∈ expected_columns →
  l ∈ final_columns ∧
  l ∉ ["成立以来年化收益率（%）"; "最新累计净值"; "最新净值日期"].
Proof.
  unfold expected_columns. rewrite elem_of_remove_dups.
  intros [? ?]%list_elem_of_filter. done.
Qed.

(** In a run that reaches its end every selected label stood over one
    column from the start, but for the three labels the script computes,
    which stood over at most one; and the frame handed to the selection
    is known. *)
Lemma pipeline_single df out :
  pipeline df = Ok out →
  ∃ (cleaned : @frame column) (nav returns result : column),
    transform_present DataFrame parse_mixed_date cleaned_columns df =
      Ok cleaned ∧
    annualized_return cleaned = Ok returns ∧
    columns_of cleaned "最新单位净值" = [nav] ∧
    add_disclosure_date
      (setitem (setitem cleaned "成立以来年化收益率（%）" returns)
         "最新累计净值" nav) =
      Ok (setitem
            (setitem (setitem cleaned "成立以来年化收益率（%）" returns)
               "最新累计净值" nav)
            "最新净值日期" result) ∧
    project
      (setitem
         (setitem (setitem cleaned "成立以来年化收益率（%）" returns)
            "最新累计净值" nav)
         "最新净值日期" result) = Ok out ∧
    (∀ l, l ∈ expected_columns → ∃ c, columns_of df l = [c]) ∧
    (∀ l, l ∈ final_columns → (length (columns_of df l) ≤ 1)%nat).
Proof.
  intros (cleaned & with_nav & with_date & returns & Hc & Hr & Hn & Hd & Hp)
    %pipeline_inv.
  pose proof (project_lookup _ _ Hp) as (_ & Hone & _).
  assert (NoDup cleaned_columns) as Hndc by decide_labels.
  destruct (add_disclosure_date_inv _ _ Hd) as [result ->].
  assert (∀ l, l ∈ final_columns → (length (columns_of with_nav l) ≤ 1)%nat)
    as Hone_nav.
  { intros l Hl. destruct (Hone l Hl) as [c Hcol].
    pose proof (length_columns_of_setitem with_nav "最新净值日期" result l).
    rewrite Hcol in H. simpl in H. lia. }
  assert (∃ nav,
    columns_of (setitem cleaned "成立以来年化收益率（%）" returns)
      "最新单位净值" = [nav]) as [nav Hnav].
  { destruct (Hone "最新单位净值") as [nav Hnav]; [decide_labels|].
    rewrite columns_of_setitem_ne in Hnav by done.
    rewrite (set_cumulative_nav_columns _ _ _ Hn) in Hnav by done. eauto. }
  rewrite (set_cumulative_nav_single _ _ Hnav) in Hn. injection Hn as <-.
  rewrite columns_of_setitem_ne in Hnav by done.
  assert (∀ l, l ∈ final_columns → (length (columns_of df l) ≤ 1)%nat)
    as Hone_df.
  { intros l Hl. specialize (Hone_nav l Hl).
    pose proof (length_columns_of_setitem
                  (setitem cleaned "成立以来年化收益率（%）" returns)
                  "最新累计净值" nav l).
    pose proof (length_columns_of_setitem cleaned
                  "成立以来年化收益率（%）" returns l).
    destruct (transform_present_columns DataFrame _ _ _ _ l Hndc Hc)
      as (Hlen & _).
    lia. }
  exists cleaned, nav, returns, result.
  split_and!; [done|done|done|done|done| |done].
  intros l [Hl Hder]%expected_columns_final.
  rewrite !not_elem_of_cons in Hder. destruct Hder as (H1 & H2 & H3 & _).
  destruct (Hone l Hl) as [c Hcol].
  rewrite !columns_of_setitem_ne in Hcol by done.
  destruct (transform_present_columns DataFrame _ _ _ _ l Hndc Hc)
    as (Hlen & _).
  rewrite Hcol in Hlen.
  destruct (columns_of df l) as [|c0 [|c1 cs]]; [done|eauto|done].
Qed.

Lemma length_one {A : Type} (xs : list A) :
  length xs = 1%nat → ∃ x, xs = [x].
Proof. destruct xs as [|x [|y xs]]; [done|eauto|done]. Qed.

(** Lines 158 to 182 run to their end on a frame that has every selected
    label over one column, when the column operations raise nothing. *)
Lemma project_Ok df :
  (∀ c, ∃ c', scale c = Ok c') → (∀ c, ∃ c', strftime c = Ok c') →
  (∀ c, ∃ c', year c = Ok c') →
  (∀ l, l ∈ final_columns → ∃ c, columns_of df l = [c]) →
  ∃ out, project df = Ok out.
Proof.
  intros Hscale Hstrftime Hyear Hone. unfold ReportProjector.project.
  rewrite getitem_list_present.
  2:{ intros l [c Hc]%Hone. by eapply columns_of_elem_of. }
  cbn [mbind PyResult_bind].
  set (selected := mjoin _).
  assert (length selected = length report_columns) as Hlen.
  { subst selected. by rewrite selection_singletons_length. }
  unfold set_columns. rewrite bool_decide_eq_true_2 by done.
  cbn [mbind PyResult_bind].
  set (renamed := zip report_columns selected.*2).
  assert (renamed.*1 = report_columns) as Hlabels.
  { apply fst_zip. rewrite length_fmap. lia. }
  destruct (transform_present_Ok DataFrame scale scaled_columns renamed Hscale)
    as [scaled Hsc].
  rewrite Hsc. cbn [mbind PyResult_bind].
  pose proof (transform_present_labels DataFrame _ _ _ _ Hsc) as Hsl.
  destruct (item_present DataFrame scaled "规模计算日期") as [dates ->].
  { rewrite Hsl, Hlabels. decide_labels. }
  cbn [mbind PyResult_bind].
  destruct (Hyear dates) as [years ->]. cbn [mbind PyResult_bind].
  by apply transform_present_Ok.
Qed.

(** The whole run reaches its end on a merged frame that has every
    expected field over one column and no label the script computes over
    more than one, when the column operations raise nothing. *)
Lemma pipeline_Ok df :
  (∀ c, ∃ c', parse_mixed_date c = Ok c') →
  (∀ c, ∃ c', scale c = Ok c') → (∀ c, ∃ c', strftime c = Ok c') →
  (∀ c, ∃ c', year c = Ok c') →
  (∀ fr, ∃ c', annualized_return fr = Ok c') →
  (∀ code dates mode nav, ∃ c',
     disclosure_dates code dates mode nav = Ok c') →
  (∀ l, l ∈ expected_columns → ∃ c, columns_of df l = [c]) →
  (∀ l, l ∈ ["成立以来年化收益率（%）"; "最新累计净值"; "最新净值日期"] →
        (length (columns_of df l) ≤ 1)%nat) →
  ∃ out, pipeline df = Ok out.
Proof.
  intros Hparse Hscale Hstrftime Hyear Hreturn Hdates Hexp Hder.
  unfold ReportProjector.pipeline.
  destruct (transform_present_Ok DataFrame parse_mixed_date cleaned_columns df
              Hparse) as [cleaned Hc].
  rewrite Hc. cbn [mbind PyResult_bind].
  assert (NoDup cleaned_columns) as Hndc by decide_labels.
  assert (∀ l, length (columns_of cleaned l) = length (columns_of df l))
    as Hlen.
  { intros l.
    by destruct (transform_present_columns DataFrame _ _ _ _ l Hndc Hc). }
  assert (∀ l, l ∈ expected_columns → ∃ c, columns_of cleaned l = [c])
    as Hexp'.
  { intros l [c Hl]%Hexp. apply length_one. by rewrite Hlen, Hl. }
  destruct (Hreturn cleaned) as [returns ->]. cbn [mbind PyResult_bind].
  set (with_return := setitem cleaned "成立以来年化收益率（%）" returns).
  destruct (Hexp' "最新单位净值") as [nav Hnav]; [decide_labels|].
  rewrite (set_cumulative_nav_single with_return nav)
    by (subst with_return; by rewrite columns_of_setitem_ne).
  cbn [mbind PyResult_bind].
  set (with_nav := setitem with_return "最新累计净值" nav).
  assert (∀ l, l ∈ expected_columns →
               columns_of with_nav l = columns_of cleaned l) as Hsame.
  { intros l [_ Hno]%expected_columns_final.
    rewrite !not_elem_of_cons in Hno. destruct Hno as (H1 & H2 & _).
    subst with_nav with_return. by rewrite !columns_of_setitem_ne. }
  destruct (Hexp' "产品代码") as [code Hcode]; [decide_labels|].
  destruct (Hexp' "规模计算日期") as [dates Hd]; [decide_labels|].
  destruct (Hexp' "运作模式") as [mode Hmode]; [decide_labels|].
  rewrite (add_disclosure_date_single with_nav code dates mode nav)
    by (rewrite Hsame; [done|decide_labels]).
  assert (∃ result,
    (if has_group code then disclosure_dates code dates mode nav
     else Ok (no_dates code)) = Ok result) as [result ->].
  { destruct (has_group code); [apply Hdates|eauto]. }
  cbn [mbind PyResult_bind].
  apply project_Ok; [done..|].
  intros l [He|Hd']%final_columns_cases.
  - pose proof (expected_columns_final l He) as [_ Hno].
    rewrite !not_elem_of_cons in Hno. destruct Hno as (H1 & H2 & H3 & _).
    rewrite columns_of_setitem_ne, Hsame by done. by apply Hexp'.
  - pose proof (Hder l Hd') as Hle. rewrite <- Hlen in Hle.
    rewrite !elem_of_cons, elem_of_nil in Hd'.
    destruct Hd' as [->|[->|[->|[]]]].
    + exists returns. subst with_nav with_return.
      rewrite !columns_of_setitem_ne by done.
      by apply columns_of_setitem_single.
    + exists nav. subst with_nav with_return.
      rewrite columns_of_setitem_ne by done.
      apply columns_of_setitem_single.
      by rewrite columns_of_setitem_ne.
    + exists result. apply columns_of_setitem_single.
      subst with_nav with_return. by rewrite !columns_of_setitem_ne.
Qed.

End projector_steps.

Section projector_claims.

Import ReportProjector.

(** C3 as stated fails: on a merged frame that lacks the expected field
    [运作模式], and has a product to walk, the run is not carried on by a
    presence check: the disclosure-date tracker raises [KeyError]. *)
Lemma pipeline_absent_column_raises :
  pipeline (fun _ => tt) Ok Ok Ok Ok (fun _ => Ok tt)
    (fun _ _ _ _ => Ok tt) (fun _ => true) (fun _ => tt)
    frame_without_operating_mode = Raise (KeyError "运作模式").
Proof. by vm_compute. Qed.

(** C3, amended.  A loop guarded by [_col in df.columns] (the date
    normalisation, the hundred-million scaling, the date formatting)
    skips the labels that are absent: it runs as the loop over the labels
    that are present, does nothing when none is, raises only what the
    transform itself raises on a column, and leaves an absent label
    absent and the other columns as they were.  What is not guarded does
    raise [KeyError] for an absent column: line 113 for [最新单位净值],
    the selection of line 158 for every selected label, and the
    disclosure-date tracker for [产品代码] and, when there is a product
    group to walk, for the other three columns it reads, in the order
    in which it reads them; without a group it reads none of these. *)
Theorem guarded_transforms_skip_absent_columns {column : Type}
    (DataFrame : list column → column) :
  (∀ (f : column → PyResult column) (labels : list string)
     (df : @frame column),
     transform_present DataFrame f labels df =
       transform_present DataFrame f (filter (fun l => l ∈ df.*1) labels) df ∧
     ((∀ l, l ∈ labels → l ∉ df.*1) →
      transform_present DataFrame f labels df = Ok df) ∧
     (∀ e, transform_present DataFrame f labels df = Raise e →
           ∃ c, f c = Raise e) ∧
     (∀ df', transform_present DataFrame f labels df = Ok df' →
        df'.*1 = df.*1 ∧
        (∀ l, l ∈ labels → l ∉ df.*1 → getitem df' l = Raise (KeyError l)) ∧
        (NoDup labels →
         (∀ l, l ∉ labels → columns_of df' l = columns_of df l) ∧
         (∀ l c, l ∈ labels → columns_of df l = [c] →
                 ∃ c', f c = Ok c' ∧ columns_of df' l = [c'])))) ∧
  NoDup cleaned_columns ∧ NoDup scaled_columns ∧ NoDup formatted_columns ∧
  (∀ df : @frame column,
     "最新单位净值" ∉ df.*1 →
     set_cumulative_nav df = Raise (KeyError "最新单位净值")) ∧
  (∀ (scale strftime year : column → PyResult column) (df : @frame column)
     (l : string),
     l ∈ final_columns → l ∉ df.*1 →
     ∃ missing,
       project DataFrame scale strftime year df = Raise (NotInIndex missing) ∧
       l ∈ missing) ∧
  (∀ (disclosure_dates :
        column → column → column → column → PyResult column)
     (has_group : column → bool) (no_dates : column → column)
     (df : @frame column),
     ("产品代码" ∉ df.*1 →
      add_disclosure_date DataFrame disclosure_dates has_group no_dates df =
      Raise (KeyError "产品代码")) ∧
     (∀ code,
        columns_of df "产品代码" = [code] → has_group code = false →
        add_disclosure_date DataFrame disclosure_dates has_group no_dates df =
        Ok (setitem df "最新净值日期" (no_dates code))) ∧
     (∀ code,
        columns_of df "产品代码" = [code] → has_group code = true →
        ("规模计算日期" ∉ df.*1 →
         add_disclosure_date DataFrame disclosure_dates has_group no_dates df =
         Raise (KeyError "规模计算日期")) ∧
        (∀ dates,
           columns_of df "规模计算日期" = [dates] → "运作模式" ∉ df.*1 →
           add_disclosure_date DataFrame disclosure_dates has_group no_dates
             df = Raise (KeyError "运作模式")) ∧
        (∀ dates mode,
           columns_of df "规模计算日期" = [dates] →
           columns_of df "运作模式" = [mode] → "最新单位净值" ∉ df.*1 →
           add_disclosure_date DataFrame disclosure_dates has_group no_dates
             df = Raise (KeyError "最新单位净值")) ∧
        (∀ dates mode nav,
           columns_of df "规模计算日期" = [dates] →
           columns_of df "运作模式" = [mode] →
           columns_of df "最新单位净值" = [nav] →
           add_disclosure_date DataFrame disclosure_dates has_group no_dates
             df =
           (result ← disclosure_dates code dates mode nav;
            Ok (setitem df "最新净值日期" result))))).
Proof.
  split_and!.
  - intros f labels df. split_and!.
    + apply transform_present_skip.
    + apply transform_present_absent.
    + apply transform_present_Raise.
    + intros df' Hrun.
      pose proof (transform_present_labels DataFrame _ _ _ _ Hrun) as Hl.
      split_and!; [done| |].
      * intros l _ Hno. apply getitem_absent. by rewrite Hl.
      * intros Hnd. split.
        -- intros l Hl'.
           destruct (transform_present_columns DataFrame _ _ _ _ l Hnd Hrun)
             as (_ & Hkeep & _).
           by apply Hkeep.
        -- intros l c Hin Hc.
           destruct (transform_present_columns DataFrame _ _ _ _ l Hnd Hrun)
             as (_ & _ & Hone).
           destruct (Hone c Hc) as (c' & Hc' & Hcol).
           rewrite bool_decide_eq_true_2 in Hc' by done. eauto.
  - decide_labels.
  - decide_labels.
  - decide_labels.
  - intros df Hno. unfold set_cumulative_nav.
    by rewrite columns_of_absent.
  - intros scale strftime year df l Hl Hno. unfold project.
    destruct (getitem_list_missing df final_columns l Hl Hno)
      as (missing & -> & Hin & _).
    eauto.
  - intros disclosure_dates has_group no_dates df.
    unfold add_disclosure_date. split_and!.
    + intros Hno. by rewrite columns_of_absent.
    + intros code -> ->. done.
    + intros code -> ->. split_and!.
      * intros Hno. by rewrite columns_of_absent.
      * intros dates -> Hno. by rewrite columns_of_absent.
      * intros dates mode -> -> Hno. unfold item.
        by rewrite columns_of_absent.
      * intros dates mode nav -> -> Hnav. unfold item. by rewrite Hnav.
Qed.

(** The scaling loop on a frame that has one of the four columns. *)
Lemma guarded_transforms_skip_absent_columns_witness :
  ∃ c' : Z,
    Ok (250000000 / 100000000) = Ok c' ∧
    columns_of [("实际募集总规模（亿元）", 2); ("年份", 2024)]
      "实际募集总规模（亿元）" = [c'].
Proof.
  destruct (guarded_transforms_skip_absent_columns (fun _ : list Z => 0))
    as [Hloop _].
  destruct (Hloop (fun x => Ok (x / 100000000)) scaled_columns
              [("实际募集总规模（亿元）", 250000000); ("年份", 2024)])
    as (_ & _ & _ & Hrun).
  destruct (Hrun [("实际募集总规模（亿元）", 2); ("年份", 2024)] eq_refl)
    as (_ & _ & Hnd).
  destruct Hnd as [_ Hone]; [decide_labels|].
  apply (Hone "实际募集总规模（亿元）" 250000000); [decide_labels|reflexivity].
Defined.

End projector_claims.

(** * Further properties of the script *)

(** ** File discovery *)

Section discovery_facts.

Import FileDiscovery.

Lemma head_filter_Some {A : Type} (P : A → Prop) `{∀ x, Decision (P x)}
    (l : list A) (x : A) :
  head (filter P l) = Some x →
  ∃ l1 l2, l = (l1 ++ x :: l2)%list ∧ Forall (fun y => ¬ P y) l1 ∧ P x.
Proof.
  induction l as [|y l IH]; [done|].
  rewrite filter_cons. case_decide as Hy.
  - intros [= ->]. by exists [], l.
  - intros (l1 & l2 & -> & Hl1 & Hx)%IH.
    exists (y :: l1), l2. split_and!; [done| |done]. by constructor.
Qed.

Lemma head_filter_None {A : Type} (P : A → Prop) `{∀ x, Decision (P x)}
    (l : list A) :
  head (filter P l) = None ↔ ∀ x, x ∈ l → ¬ P x.
Proof.
  split.
  - intros Hh x Hx HP.
    assert (x ∈ filter P l) as Hin by by apply list_elem_of_filter.
    destruct (filter P l); [by apply elem_of_nil in Hin|done].
  - intros Hno. destruct (filter P l) as [|y k] eqn:Hf; [done|].
    assert (y ∈ filter P l) as [HP Hy]%list_elem_of_filter
      by (rewrite Hf; by left).
    by destruct (Hno y Hy).
Qed.

Lemma elem_of_files (listing : list string) (f : string) :
  f ∈ files listing ↔ is_workbook f = true ∧ f ∈ listing.
Proof.
  unfold files. rewrite list_elem_of_filter, Is_true_true. done.
Qed.

Lemma elem_of_nv_files (listing : list string) (f : string) :
  f ∈ nv_files listing ↔
  is_product_query f = false ∧ is_workbook f = true ∧ f ∈ listing.
Proof.
  unfold nv_files. rewrite list_elem_of_filter, elem_of_files.
  rewrite Is_true_false. tauto.
Qed.

(** X1: the listing is split by the marker.  A workbook name (ending in
    .xls or .xlsx, not starting with ~$) that lacks the marker is a
    valuation file; one that has it is never a valuation file, and the
    catalog is the first such name in listing order, so a second catalog
    workbook is read by nothing.  Any other name is in neither. *)
Theorem discovery_splits_by_marker (listing : list string) :
  (∀ f, f ∈ nv_files listing ↔
        f ∈ listing ∧ is_workbook f = true ∧ is_product_query f = false) ∧
  (∀ p, product_file listing = Some p →
        p ∈ listing ∧ is_workbook p = true ∧ is_product_query p = true ∧
        (p ∉ nv_files listing) ∧
        ∃ before after,
          files listing = (before ++ p :: after)%list ∧
          Forall (fun f => is_product_query f = false) before) ∧
  (∀ f, f ∈ listing → is_workbook f = true → is_product_query f = true →
        is_Some (product_file listing) ∧ f ∉ nv_files listing).
Proof.
  split_and!.
  - intros f. rewrite elem_of_nv_files. tauto.
  - intros p Hp. unfold product_file in Hp.
    apply head_filter_Some in Hp as (before & after & Hfiles & Hb & Hq).
    apply Is_true_true in Hq.
    assert (p ∈ files listing) as [Hw Hin]%elem_of_files.
    { rewrite Hfiles. apply elem_of_app. right. by left. }
    split_and!; [done..| |].
    + rewrite elem_of_nv_files. intros [? _]. congruence.
    + exists before, after. split; [done|].
      eapply Forall_impl; [exact Hb|]. intros f Hf. simpl in Hf.
      by apply Is_true_false in Hf.
  - intros f Hin Hw Hq. split.
    + unfold product_file.
      destruct (head _) as [p|] eqn:Hh; [by eexists|].
      rewrite head_filter_None in Hh. destruct (Hh f).
      * by apply elem_of_files.
      * by apply Is_true_true.
    + rewrite elem_of_nv_files. intros [? _]. congruence.
Qed.

Lemma discovery_splits_by_marker_witness :
  product_file ["净值2024.xlsx"; "~$产品查询.xlsx"; "产品查询A.xls";
                "产品查询B.xlsx"; "notes.txt"] = Some "产品查询A.xls" ∧
  nv_files ["净值2024.xlsx"; "~$产品查询.xlsx"; "产品查询A.xls";
            "产品查询B.xlsx"; "notes.txt"] = ["净值2024.xlsx"] ∧
  is_Some (product_file ["净值2024.xlsx"; "~$产品查询.xlsx"; "产品查询A.xls";
                         "产品查询B.xlsx"; "notes.txt"]) ∧
  "产品查询B.xlsx" ∉ nv_files ["净值2024.xlsx"; "~$产品查询.xlsx";
                              "产品查询A.xls"; "产品查询B.xlsx"; "notes.txt"].
Proof.
  split_and!; [reflexivity|reflexivity|..];
    apply (proj2 (proj2 (discovery_splits_by_marker
             ["净值2024.xlsx"; "~$产品查询.xlsx"; "产品查询A.xls";
              "产品查询B.xlsx"; "notes.txt"])) "产品查询B.xlsx");
    first [reflexivity | apply (bool_decide_unpack _); vm_compute; exact I].
Defined.

Lemma discovery_assertions_aux (listing : list string) (p : string) :
  product_file listing = Some p →
  ∃ f, f ∈ listing ∧ is_workbook f = true ∧ is_product_query f = true.
Proof.
  intros Hp. unfold product_file in Hp.
  apply head_filter_Some in Hp as (before & after & Hfiles & _ & Hq).
  assert (p ∈ files listing) as [Hw Hin]%elem_of_files.
  { rewrite Hfiles. apply elem_of_app. right. by left. }
  exists p. split_and!; [done..|]. by apply Is_true_true.
Qed.

(** X2: the two assertions.  The run stops with the first message
    exactly when no workbook of the listing has the marker, and with the
    second exactly when some workbook has the marker and every workbook
    has it; otherwise it goes on with the first catalog workbook and the
    non-empty list of the workbooks without the marker. *)
Theorem discovery_assertions (listing : list string) :
  (discover listing = AssertionError "未找到包含“产品查询”的文件" ↔
   ∀ f, f ∈ listing → is_workbook f = true → is_product_query f = false) ∧
  (discover listing = AssertionError "未找到净值数据文件" ↔
   (∃ f, f ∈ listing ∧ is_workbook f = true ∧ is_product_query f = true) ∧
   ∀ f, f ∈ listing → is_workbook f = true → is_product_query f = true) ∧
  (∀ p nv, discover listing = Found p nv ↔
     product_file listing = Some p ∧ nv = nv_files listing ∧ nv ≠ []).
Proof.
  assert (product_file listing = None ↔
    ∀ f, f ∈ listing → is_workbook f = true → is_product_query f = false)
    as Hnone.
  { unfold product_file. rewrite head_filter_None. split.
    - intros Hno f Hin Hw. apply Is_true_false. apply Hno.
      by apply elem_of_files.
    - intros Hno f [Hw Hin]%elem_of_files. apply Is_true_false. by apply Hno. }
  assert (nv_files listing = [] ↔
    ∀ f, f ∈ listing → is_workbook f = true → is_product_query f = true)
    as Hnv.
  { split.
    - intros Hnil f Hin Hw. destruct (is_product_query f) eqn:Hq; [done|].
      assert (f ∈ nv_files listing) as Hf by by apply elem_of_nv_files.
      rewrite Hnil in Hf. by apply elem_of_nil in Hf.
    - intros Hall. destruct (nv_files listing) as [|f k] eqn:Hf; [done|].
      assert (f ∈ nv_files listing) as (Hq & Hw & Hin)%elem_of_nv_files
        by (rewrite Hf; by left).
      rewrite (Hall f Hin Hw) in Hq. done. }
  unfold discover. split_and!.
  - rewrite <- Hnone. destruct (product_file listing) as [p|]; [|done].
    split; [|done]. by destruct (nv_files listing).
  - rewrite <- Hnv. split.
    + destruct (product_file listing) as [p|] eqn:Hp; [|done].
      destruct (nv_files listing) eqn:Hf; [|done]. intros _. split; [|done].
      apply (discovery_assertions_aux listing p Hp).
    + intros [(f & Hin & Hw & Hq) Hnil].
      destruct (product_file listing) as [p|] eqn:Hp.
      * by rewrite Hnil.
      * rewrite (proj1 Hnone eq_refl f Hin Hw) in Hq. done.
  - intros p nv. clear Hnone Hnv.
    destruct (product_file listing) as [p'|]; [|split; [done|by intros [? _]]].
    destruct (nv_files listing) as [|f k]; split; try done.
    + by intros (_ & -> & ?).
    + by intros [= <- <-].
    + by intros ([= ->] & -> & _).
Qed.

End discovery_facts.

(** ** ReturnCalculator: what [calc_annualized_return] does return *)

Section return_extras.

Import ReturnCalculator.
Import DateNormalizer (Timestamp_of_ymd).

(** X3: the guard of [calc_annualized_return].  When the as-of date is
    not after the inception date, or when the unit value is null, the
    function returns [None], whatever the other cells hold and whatever
    [pow] would do. *)
Theorem calc_annualized_return_guard
    (real_pow : float -> float -> PyResult float)
    (complex_pow : float -> float -> float * float) (r : row) :
  (∀ x y : Timestamp,
     规模计算日期 r = Some x → 成立日 r = Some y → x ≤ y →
     calc_annualized_return real_pow complex_pow r = PyNone) ∧
  (isna (最新单位净值 r) = true →
   calc_annualized_return real_pow complex_pow r = PyNone).
Proof.
  split.
  - intros x y. apply calc_days_le_0.
  - apply calc_nav_null.
Qed.

Lemma calc_annualized_return_guard_witness :
  calc_annualized_return (fun b _ => Ok b) (fun b _ => (b, b))
    (mk_row (Some (Timestamp_of_ymd 2024 1 1))
       (Some (Timestamp_of_ymd 2024 1 1)) 1.10) = PyNone.
Proof.
  apply (proj1 (calc_annualized_return_guard (fun b _ => Ok b)
                  (fun b _ => (b, b))
                  (mk_row (Some (Timestamp_of_ymd 2024 1 1))
                     (Some (Timestamp_of_ymd 2024 1 1)) 1.10))
           (Timestamp_of_ymd 2024 1 1) (Timestamp_of_ymd 2024 1 1));
    [reflexivity|reflexivity|lia].
Defined.

(** X4: past the guard the function returns [(pow(v, 365 / days) - 1) *
    100] with [days] the whole days from inception to the as-of date, and
    [None] when [pow] raises (an [OverflowError], say). *)
Theorem calc_annualized_return_formula
    (real_pow : float -> float -> PyResult float)
    (complex_pow : float -> float -> float * float)
    (r : row) (x y : Timestamp) :
  规模计算日期 r = Some x → 成立日 r = Some y →
  DateNormalizer.in_bounds (x - y) = true →
  0 < (x - y) / ns_per_day →
  isna (最新单位净值 r) = false →
  calc_annualized_return real_pow complex_pow r =
  match pow real_pow complex_pow (最新单位净值 r)
          (PrimFloat.div 365
             (PrimFloat.of_uint63 (Uint63.of_Z ((x - y) / ns_per_day)))) with
  | Ok p => mul_100 (sub_1 p)
  | Raise _ => PyNone
  end.
Proof. apply calc_formula. Qed.

(** Inception 2023-01-01, as-of 2024-01-01 (365 days, exponent 1.0),
    unit value 1.10, with a [pow] that is right at the exponent 1. *)
Lemma calc_annualized_return_formula_witness :
  calc_annualized_return (fun b _ => Ok b) (fun b _ => (b, b))
    (mk_row (Some (Timestamp_of_ymd 2024 1 1))
       (Some (Timestamp_of_ymd 2023 1 1)) 1.10) =
  PyFloat (PrimFloat.mul (PrimFloat.sub 1.10 1) 100).
Proof.
  rewrite (calc_annualized_return_formula (fun b _ => Ok b) (fun b _ => (b, b))
             (mk_row (Some (Timestamp_of_ymd 2024 1 1))
                (Some (Timestamp_of_ymd 2023 1 1)) 1.10)
             (Timestamp_of_ymd 2024 1 1) (Timestamp_of_ymd 2023 1 1));
    reflexivity.
Defined.

(** X5: an Unknown date does not give [None].  When either date is [NaT]
    the value of [.days] is NaN, which passes the guard [days <= 0]; for
    a unit value that is not null and not 1.0 the function returns the
    float NaN. *)
Theorem calc_annualized_return_unknown_date
    (real_pow : float -> float -> PyResult float)
    (complex_pow : float -> float -> float * float) (r : row) :
  规模计算日期 r = NaT ∨ 成立日 r = NaT →
  isna (最新单位净值 r) = false →
  PrimFloat.eqb (最新单位净值 r) 1 = false →
  ∃ x : float,
    calc_annualized_return real_pow complex_pow r = PyFloat x ∧
    PrimFloat.is_nan x = true.
Proof.
  intros Hd Hn H1.
  exists (PrimFloat.mul (PrimFloat.sub nan 1) 100). split; [|reflexivity].
  unfold calc_annualized_return, try_body.
  assert (sub_days (规模计算日期 r) (成立日 r) = Ok DaysNaN) as ->.
  { unfold sub_days. destruct Hd as [-> | ->]; [done|].
    by destruct (规模计算日期 r). }
  cbn [days_le_0 orb]. rewrite Hn. cbn [div_365]. unfold pow.
  change (PrimFloat.eqb nan 0) with false. cbv iota.
  unfold isna in Hn. rewrite Hn.
  change (PrimFloat.is_nan nan) with true. cbv iota.
  rewrite H1. reflexivity.
Qed.

Lemma calc_annualized_return_unknown_date_witness :
  ∃ x : float,
    calc_annualized_return (fun b _ => Ok b) (fun b _ => (b, b))
      (mk_row (Some (Timestamp_of_ymd 2024 1 1)) NaT 1.05) = PyFloat x ∧
    PrimFloat.is_nan x = true.
Proof.
  apply (calc_annualized_return_unknown_date (fun b _ => Ok b)
           (fun b _ => (b, b))
           (mk_row (Some (Timestamp_of_ymd 2024 1 1)) NaT 1.05));
    [by right|reflexivity|reflexivity].
Defined.

End return_extras.

(** ** DisclosureDateTracker: further behaviour of the walk *)

Section tracker_extras.

Import DisclosureDateTracker.
Import DateNormalizer (Timestamp_of_ymd).

Implicit Types (df : list row) (rows : list (nat * row)) (st : state).

(** The row at place [k] of the sorted group of [c] receives the [k]-th
    date of the walk. *)
Lemma assign_at_position df (c : string) (k i : nat) (r : row) :
  group_sorted df c !! k = Some (i, r) →
  assign_nav_disclosure_dates df !! i = dates_of df c !! k.
Proof.
  intros Hk.
  assert ((i, r) ∈ group_sorted df c) as [Hi Hc]%elem_of_group_sorted
    by by eapply list_elem_of_lookup_2.
  unfold assign_nav_disclosure_dates.
  eapply fold_assign_group; [apply NoDup_group_keys|apply length_replicate| |done].
  apply elem_of_group_keys. exists r. split; [|done].
  by eapply list_elem_of_lookup_2.
Qed.

Lemma step_init_date (d0 : option Timestamp) (r : row) :
  (step (None, d0) r).2 = 规模计算日期 r.
Proof. simpl. by destruct (is_open r). Qed.

(** X6: the chronologically first observation of a product always
    receives its own reporting date, in either regime and whatever its
    unit value; so does the only observation of a product. *)
Theorem first_observation_own_date (df : list row) (i : nat) (r : row)
    (c : string) :
  df !! i = Some r → 产品代码 r = Some c →
  (group_sorted df c !! 0%nat = Some (i, r) →
   assign_nav_disclosure_dates df !! i = Some (规模计算日期 r)) ∧
  ((∀ (j : nat) (r' : row),
      df !! j = Some r' → 产品代码 r' = Some c → j = i) →
   assign_nav_disclosure_dates df !! i = Some (规模计算日期 r)).
Proof.
  intros Hi Hc.
  assert (group_sorted df c !! 0%nat = Some (i, r) →
          assign_nav_disclosure_dates df !! i = Some (规模计算日期 r)) as Hfirst.
  { intros H0. rewrite (assign_at_position df c 0 i r H0).
    unfold dates_of. destruct (group_sorted df c) as [|[i0 r0] rest]; [done|].
    injection H0 as -> ->. cbn [iterrows lookup list_lookup]. unfold init.
    by rewrite step_init_date. }
  split; [done|]. intros Honly. apply Hfirst.
  assert ((i, r) ∈ group_sorted df c) as [k Hk]%list_elem_of_lookup_1
    by by apply elem_of_group_sorted.
  destruct (group_sorted df c) as [|[i0 r0] rest] eqn:Hg; [done|].
  assert ((i0, r0) ∈ group_sorted df c) as [H0 Hc0]%elem_of_group_sorted
    by (rewrite Hg; by left).
  simpl. f_equal. rewrite (Honly i0 r0 H0 Hc0) in H0 |- *. congruence.
Qed.

Lemma first_observation_own_date_witness :
  (group_sorted sample_frame "P1" !! 0%nat =
     Some (2%nat, mk_row (Some "P1") (Some "封闭式净值型")
                    (Some (Timestamp_of_ymd 2024 1 1)) 1.00) →
   assign_nav_disclosure_dates sample_frame !! 2%nat =
     Some (Some (Timestamp_of_ymd 2024 1 1))) ∧
  ((∀ (j : nat) (r' : row),
      sample_frame !! j = Some r' → 产品代码 r' = Some "P1" → j = 2%nat) →
   assign_nav_disclosure_dates sample_frame !! 2%nat =
     Some (Some (Timestamp_of_ymd 2024 1 1))).
Proof.
  apply (first_observation_own_date sample_frame 2
           (mk_row (Some "P1") (Some "封闭式净值型")
              (Some (Timestamp_of_ymd 2024 1 1)) 1.00) "P1"); reflexivity.
Defined.

(** Every date the walk emits is at or after the date of a state that
    tracks a value, when all rows are. *)
Lemma iterrows_ge st rows :
  Forall (fun ir => date_leb st.2 (规模计算日期 ir.2) = true) rows →
  Forall (fun d => date_leb st.2 d = true) (iterrows st rows).
Proof.
  intros Hall. apply Forall_lookup. intros k d Hk.
  apply iterrows_origin in Hk as [[_ ->]|(j & ir & _ & Hj & ->)].
  - destruct st.2; simpl; [apply Z.leb_refl|done].
  - rewrite Forall_lookup in Hall. by apply (Hall j ir).
Qed.

Lemma iterrows_sorted st rows :
  StronglySorted date_le rows →
  st.1 = None ∨ Forall (fun ir => date_leb st.2 (规模计算日期 ir.2) = true) rows →
  StronglySorted (fun a b => date_leb a b = true) (iterrows st rows).
Proof.
  intros Hs. revert st.
  induction Hs as [|[i r] rows Hs IH Hr]; intros st Hst; simpl; [constructor|].
  assert (Forall (fun ir => date_leb (step st r).2 (规模计算日期 ir.2) = true) rows)
    as Hnext.
  { destruct (step_date st r) as [->|[Hsome ->]].
    - eapply Forall_impl; [exact Hr|]. intros ir Hir.
      unfold date_le in Hir. simpl in Hir. by apply Is_true_true.
    - destruct Hst as [Hnone|Hall].
      + destruct Hsome as [v Hv]. congruence.
      + by apply Forall_cons in Hall as [_ Hall]. }
  constructor.
  - apply IH. by right.
  - by apply iterrows_ge.
Qed.

(** X7: within a product the disclosure dates never go backwards.  Of
    two rows of one product, the one that stands later in the sorted walk
    receives a date that is not earlier ([NaT] counting as last). *)
Theorem disclosure_dates_monotone (df : list row) (c : string)
    (k k' i i' : nat) (r r' : row) :
  group_sorted df c !! k = Some (i, r) →
  group_sorted df c !! k' = Some (i', r') →
  (k ≤ k')%nat →
  ∃ d d' : option Timestamp,
    assign_nav_disclosure_dates df !! i = Some d ∧
    assign_nav_disclosure_dates df !! i' = Some d' ∧
    date_leb d d' = true.
Proof.
  intros Hk Hk' Hle.
  rewrite (assign_at_position df c k i r Hk).
  rewrite (assign_at_position df c k' i' r' Hk').
  assert (StronglySorted (fun a b => date_leb a b = true) (dates_of df c)) as Hs.
  { apply iterrows_sorted; [apply group_sorted_StronglySorted|by left]. }
  assert (is_Some (dates_of df c !! k)) as [d Hd].
  { apply lookup_lt_is_Some. unfold dates_of. rewrite iterrows_length.
    by eapply lookup_lt_Some. }
  assert (is_Some (dates_of df c !! k')) as [d' Hd'].
  { apply lookup_lt_is_Some. unfold dates_of. rewrite iterrows_length.
    by eapply lookup_lt_Some. }
  exists d, d'. split_and!; [done..|].
  destruct (decide (k = k')) as [->|Hne].
  - rewrite Hd in Hd'. injection Hd' as <-.
    destruct d; simpl; [apply Z.leb_refl|done].
  - clear -Hs Hd Hd' Hle Hne. revert k k' Hd Hd' Hle Hne.
    induction Hs as [|z l Hs IH Hz]; intros k k' Hd Hd' Hle Hne; [done|].
    destruct k as [|k], k' as [|k']; simpl in *; try lia.
    + injection Hd as ->. rewrite Forall_forall in Hz. apply Hz.
      by eapply list_elem_of_lookup_2.
    + eapply (IH k k'); [done..|lia|lia].
Qed.

Lemma disclosure_dates_monotone_witness :
  ∃ d d' : option Timestamp,
    assign_nav_disclosure_dates sample_frame !! 4%nat = Some d ∧
    assign_nav_disclosure_dates sample_frame !! 0%nat = Some d' ∧
    date_leb d d' = true.
Proof.
  apply (disclosure_dates_monotone sample_frame "P1" 1 2 4 0
           (mk_row (Some "P1") (Some "封闭式净值型")
              (Some (Timestamp_of_ymd 2024 2 1)) 1.00)
           (mk_row (Some "P1") (Some "封闭式净值型")
              (Some (Timestamp_of_ymd 2024 3 1)) 1.05));
    [reflexivity|reflexivity|lia].
Defined.

Lemma filter_none {A : Type} (P : A → Prop) `{∀ x, Decision (P x)} (l : list A) :
  Forall (fun x => ¬ P x) l → filter P l = [].
Proof.
  induction 1 as [|x l Hx _ IH]; [done|]. by rewrite filter_cons_False.
Qed.

Lemma group_app df (extra : list row) (c : string) :
  Forall (fun r' => 产品代码 r' ≠ Some c) extra →
  group (df ++ extra) c = group df c.
Proof.
  intros Hextra. unfold group, indexed.
  rewrite imap_app, filter_app, (filter_none _ (imap _ extra)).
  - by rewrite app_nil_r.
  - apply Forall_forall. intros [j r'] (j' & r'' & [= -> ->] & Hin)%elem_of_lookup_imap.
    simpl. rewrite Forall_forall in Hextra. apply Hextra.
    by eapply list_elem_of_lookup_2.
Qed.

(** X8: products do not influence each other.  The dates of the rows of
    a product are the same in two frames that hold the same rows of that
    product at the same positions; in particular, appending rows of
    other products changes none of them. *)
Theorem disclosure_dates_per_product (df df' : list row) (c : string)
    (i : nat) (r : row) :
  group df c = group df' c →
  df !! i = Some r → 产品代码 r = Some c →
  assign_nav_disclosure_dates df !! i = assign_nav_disclosure_dates df' !! i ∧
  ∀ extra : list row,
    Forall (fun r' => 产品代码 r' ≠ Some c) extra →
    assign_nav_disclosure_dates (df ++ extra) !! i =
    assign_nav_disclosure_dates df !! i.
Proof.
  intros Hg Hi Hc.
  assert (∀ df2 : list row, group df c = group df2 c →
            assign_nav_disclosure_dates df !! i =
            assign_nav_disclosure_dates df2 !! i) as Hsame.
  { intros df2 Hg2.
    destruct (assign_aligned df i r c Hi Hc) as (k & Hk & ->).
    assert (group_sorted df2 c = group_sorted df c) as Hgs
      by (unfold group_sorted; by rewrite Hg2).
    rewrite (assign_at_position df2 c k i r) by by rewrite Hgs.
    unfold dates_of. by rewrite Hgs. }
  split; [by apply Hsame|].
  intros extra Hextra. symmetry. apply Hsame. symmetry. by apply group_app.
Qed.

Lemma disclosure_dates_per_product_witness :
  assign_nav_disclosure_dates sample_frame !! 0%nat =
    assign_nav_disclosure_dates
      (sample_frame ++ [mk_row (Some "P9") None NaT 1.0]) !! 0%nat ∧
  ∀ extra : list row,
    Forall (fun r' => 产品代码 r' ≠ Some "P1") extra →
    assign_nav_disclosure_dates (sample_frame ++ extra) !! 0%nat =
    assign_nav_disclosure_dates sample_frame !! 0%nat.
Proof.
  apply (disclosure_dates_per_product sample_frame
           (sample_frame ++ [mk_row (Some "P9") None NaT 1.0]) "P1" 0
           (mk_row (Some "P1") (Some "封闭式净值型")
              (Some (Timestamp_of_ymd 2024 3 1)) 1.05)); reflexivity.
Defined.

Lemma iterrows_leading_nulls rows (d0 : option Timestamp) (k i : nat) (r : row) :
  rows !! k = Some (i, r) →
  (∀ (j i' : nat) (r' : row),
     (j < k)%nat → rows !! j = Some (i', r') →
     is_open r' = false ∧ isna (最新单位净值 r') = true) →
  iterrows (None, d0) rows !! k = Some (规模计算日期 r).
Proof.
  revert d0 k.
  induction rows as [|[i0 r0] rows IH]; intros d0 k Hk Hbefore; [done|].
  destruct k as [|k]; cbn [iterrows lookup list_lookup].
  - injection Hk as -> ->. by rewrite step_init_date.
  - destruct (Hbefore 0%nat i0 r0) as [Ho Hn]; [lia|done|].
    assert (step (None, d0) r0 = (None, 规模计算日期 r0)) as ->.
    { simpl. by rewrite Ho, Hn. }
    apply IH; [done|]. intros j i' r' Hj Hl. apply (Hbefore (S j) i' r'); [lia|done].
Qed.

(** X9: a null unit value is not always a repeat.  As long as every
    earlier observation of the product is in the event regime with a null
    unit value, nothing is tracked yet, and the observation receives its
    own reporting date: leading nulls each advance the date. *)
Theorem leading_nulls_own_date (df : list row) (c : string) (k i : nat)
    (r : row) :
  group_sorted df c !! k = Some (i, r) →
  (∀ (j i' : nat) (r' : row),
     (j < k)%nat → group_sorted df c !! j = Some (i', r') →
     is_open r' = false ∧ isna (最新单位净值 r') = true) →
  assign_nav_disclosure_dates df !! i = Some (规模计算日期 r).
Proof.
  intros Hk Hbefore. rewrite (assign_at_position df c k i r Hk).
  by apply (iterrows_leading_nulls _ _ k i r).
Qed.

(** Two null observations, then a value: each receives its own date. *)
Lemma leading_nulls_own_date_witness :
  assign_nav_disclosure_dates
    [mk_row (Some "P1") (Some "封闭式") (Some 10) nan;
     mk_row (Some "P1") (Some "封闭式") (Some 20) nan;
     mk_row (Some "P1") (Some "封闭式") (Some 30) 1.00] !! 1%nat =
  Some (Some 20).
Proof.
  apply (leading_nulls_own_date _ "P1" 1 1
           (mk_row (Some "P1") (Some "封闭式") (Some 20) nan)); [reflexivity|].
  intros [|j] i' r' Hj; [|lia]. simpl. by intros [= <- <-].
Defined.

Lemma iterrows_constant rows (v : float) (d : option Timestamp) :
  PrimFloat.is_nan v = false →
  Forall (fun ir => is_open ir.2 = false ∧ 最新单位净值 ir.2 = v) rows →
  iterrows (Some v, d) rows = replicate (length rows) d.
Proof.
  intros Hv Hall. induction Hall as [|[i r] rows [Ho Hr] _ IH]; [done|].
  simpl in Ho, Hr. cbn [iterrows length replicate].
  assert (step (Some v, d) r = (Some v, d)) as ->.
  { simpl. rewrite Ho, Hr. unfold isna. rewrite Hv. simpl.
    unfold PrimFloat.is_nan in Hv. apply negb_false_iff in Hv. by rewrite Hv. }
  simpl. by rewrite IH.
Qed.

(** X10: an event-regime product whose unit value never changes keeps one
    date.  When all observations of a product are in the event regime and
    carry the same non-null unit value, every row receives the reporting
    date of the chronologically first one. *)
Theorem constant_value_first_date (df : list row) (c : string) (v : float)
    (i0 i : nat) (r0 r : row) :
  PrimFloat.is_nan v = false →
  (∀ (j : nat) (r' : row),
     df !! j = Some r' → 产品代码 r' = Some c →
     is_open r' = false ∧ 最新单位净值 r' = v) →
  group_sorted df c !! 0%nat = Some (i0, r0) →
  df !! i = Some r → 产品代码 r = Some c →
  assign_nav_disclosure_dates df !! i = Some (规模计算日期 r0).
Proof.
  intros Hv Hall H0 Hi Hc.
  destruct (assign_aligned df i r c Hi Hc) as (k & Hk & ->).
  unfold dates_of.
  assert (Forall (fun ir => is_open ir.2 = false ∧ 最新单位净值 ir.2 = v)
            (group_sorted df c)) as Hgroup.
  { apply Forall_forall. intros [j r'] [Hj Hc']%elem_of_group_sorted.
    by apply (Hall j r'). }
  destruct (group_sorted df c) as [|[j0 s0] rest] eqn:Hg; [done|].
  injection H0 as -> ->.
  apply Forall_cons in Hgroup as [[Ho0 Hv0] Hrest]. simpl in Ho0, Hv0.
  cbn [iterrows].
  assert (step init r0 = (Some v, 规模计算日期 r0)) as ->.
  { unfold init. simpl. rewrite Ho0, Hv0. unfold isna. by rewrite Hv. }
  rewrite (iterrows_constant rest v _ Hv Hrest).
  destruct k as [|k]; [done|]. simpl in *.
  apply lookup_replicate_2. apply lookup_lt_Some in Hk. done.
Qed.

Lemma constant_value_first_date_witness :
  assign_nav_disclosure_dates
    [mk_row (Some "P1") (Some "封闭式") (Some 30) 1.00;
     mk_row (Some "P1") (Some "封闭式") (Some 10) 1.00;
     mk_row (Some "P1") (Some "封闭式") (Some 20) 1.00] !! 0%nat =
  Some (Some 10).
Proof.
  apply (constant_value_first_date _ "P1" 1.00 1 0
           (mk_row (Some "P1") (Some "封闭式") (Some 10) 1.00)
           (mk_row (Some "P1") (Some "封闭式") (Some 30) 1.00));
    try reflexivity.
  intros [|[|[|j]]] r'; simpl; intros [= <-] _; by vm_compute.
Defined.

(** The date a row receives is the one its step leaves, from the state
    the rows before it have built. *)
Lemma iterrows_lookup (st : state) rows (k i : nat) (r : row) :
  rows !! k = Some (i, r) →
  iterrows st rows !! k = Some (step (final_state st (take k rows)) r).2.
Proof.
  revert st k.
  induction rows as [|[i0 r0] rows IH]; intros st k Hk; [done|].
  destruct k as [|k]; cbn [iterrows lookup list_lookup].
  - by injection Hk as -> ->.
  - cbn [take]. unfold final_state. cbn [fold_left]. by apply IH.
Qed.

Lemma final_state_snoc (st : state) rows (ir : nat * row) :
  final_state st (rows ++ [ir]) = step (final_state st rows) ir.2.
Proof. unfold final_state. by rewrite fold_left_app. Qed.

Lemma eqb_refl_is_nan (x : float) :
  PrimFloat.eqb x x = negb (PrimFloat.is_nan x).
Proof. unfold PrimFloat.is_nan. by rewrite negb_involutive. Qed.

(** X24: the two regimes share [last_nav] and [last_date].  An
    event-regime row that directly follows an open-regime row of its
    product in the sorted walk keeps the open row's date when its unit
    value equals the open row's, or is null while the open row's is not;
    otherwise it takes its own date.  After an open row with a null unit
    value it always takes its own date, a NaN being unequal to itself. *)
Theorem event_row_after_open_row (df : list row) (c : string) (k i i' : nat)
    (r r' : row) :
  group_sorted df c !! k = Some (i, r) →
  group_sorted df c !! S k = Some (i', r') →
  is_open r = true → is_open r' = false →
  assign_nav_disclosure_dates df !! i' =
  Some (if (if isna (最新单位净值 r') then negb (isna (最新单位净值 r))
            else PrimFloat.eqb (最新单位净值 r') (最新单位净值 r))
        then 规模计算日期 r else 规模计算日期 r').
Proof.
  intros Hk Hk' Ho Ho'.
  rewrite (assign_at_position df c (S k) i' r' Hk'). unfold dates_of.
  rewrite (iterrows_lookup init _ (S k) i' r' Hk').
  rewrite (take_S_r _ k (i, r) Hk), final_state_snoc. cbn [snd].
  destruct (final_state init (take k (group_sorted df c))) as [n0 d0].
  f_equal. unfold step at 2. rewrite Ho. unfold step. rewrite Ho'.
  cbn [bool_decide decide_rel orb]. unfold isna.
  destruct (PrimFloat.is_nan (最新单位净值 r')) eqn:Hn'.
  - cbn [py_ne]. rewrite eqb_refl_is_nan, negb_involutive.
    by destruct (PrimFloat.is_nan (最新单位净值 r)).
  - cbn [py_ne]. by destruct (PrimFloat.eqb _ _).
Qed.

Lemma event_row_after_open_row_witness :
  assign_nav_disclosure_dates
    [mk_row (Some "P1") (Some "开放式净值型") (Some 10) 1.05;
     mk_row (Some "P1") (Some "封闭式净值型") (Some 20) nan;
     mk_row (Some "P1") (Some "封闭式净值型") (Some 30) 1.05] !! 1%nat =
  Some (Some 10).
Proof.
  apply (event_row_after_open_row _ "P1" 0 0 1
           (mk_row (Some "P1") (Some "开放式净值型") (Some 10) 1.05)
           (mk_row (Some "P1") (Some "封闭式净值型") (Some 20) nan));
    reflexivity.
Defined.

End tracker_extras.

(** ** DateNormalizer: which stage reads a text *)

Section normalizer_extras.

Import DateNormalizer.

Lemma is_digit_val (c : ascii) : is_digit c = true → 0 ≤ digit_val c ≤ 9.
Proof.
  unfold is_digit, digit_val. rewrite andb_true_iff, !N.leb_le. lia.
Qed.

Lemma digits_val_bounds (s : string) (acc : Z) :
  all_digits s = true → 0 ≤ acc →
  acc * 10 ^ Z.of_nat (String.length s) ≤ digits_val acc s <
  (acc + 1) * 10 ^ Z.of_nat (String.length s).
Proof.
  revert acc. induction s as [|c s IH]; intros acc Hd Hacc.
  { simpl. lia. }
  simpl in Hd. apply andb_true_iff in Hd as [Hc Hs].
  apply is_digit_val in Hc.
  cbn [digits_val String.length].
  rewrite Nat2Z.inj_succ, Z.pow_succ_r by lia.
  specialize (IH (acc * 10 + digit_val c) Hs ltac:(lia)).
  assert (0 < 10 ^ Z.of_nat (String.length s)) by (apply Z.pow_pos_nonneg; lia).
  nia.
Qed.

Lemma to_datetime_unit_D_window (n : Z) :
  0 ≤ n →
  (n ≤ 132320 →
   to_datetime_unit_D n = Ok ((n + days_from_civil 1899 12 30) * ns_per_day)) ∧
  (132320 < n → to_datetime_unit_D n = Raise OutOfBoundsDatetime).
Proof.
  intros Hn. unfold to_datetime_unit_D, in_bounds.
  change ioffset with (-25569). change (days_from_civil 1899 12 30) with (-25569).
  unfold ns_per_day. split; intros Hle.
  - assert ((- 2 ^ 63 <? (n + -25569) * (86400 * 1000000000)) = true) as ->
      by (apply Z.ltb_lt; lia).
    assert (((n + -25569) * (86400 * 1000000000) <? 2 ^ 63) = true) as ->
      by (apply Z.ltb_lt; lia).
    done.
  - assert (((n + -25569) * (86400 * 1000000000) <? 2 ^ 63) = false) as ->
      by (apply Z.ltb_ge; lia).
    by rewrite andb_false_r.
Qed.

(** X11: a text of 4 to 6 digits is tried as a day serial before the
    generic parser sees it.  Up to 132320 days, that is up to 2262-04-11,
    the last day a nanosecond [Timestamp] holds, the serial is taken and
    the generic parser is never consulted; every text of 4 or 5 digits,
    2024 included, is in that window, so it is a serial and not a year.
    Only when the serial stage raises does the text go to the generic
    parser. *)
Theorem digits_read_as_serial (repr_float : float -> string)
    (to_datetime : string -> PyResult (option Timestamp)) (value : scalar) :
  isna_scalar value || eq_empty value = false →
  fullmatch_digits 4 6 (strip (str repr_float value)) = true →
  (digits_val 0 (strip (str repr_float value)) ≤ 132320 →
   normalize repr_float to_datetime value =
   Ok (Some ((digits_val 0 (strip (str repr_float value)) +
              days_from_civil 1899 12 30) * ns_per_day))) ∧
  ((String.length (strip (str repr_float value)) ≤ 5)%nat →
   normalize repr_float to_datetime value =
   Ok (Some ((digits_val 0 (strip (str repr_float value)) +
              days_from_civil 1899 12 30) * ns_per_day))) ∧
  (∀ e : exn,
     to_datetime_unit_D (digits_val 0 (strip (str repr_float value))) =
       Raise e →
     normalize repr_float to_datetime value =
     Ok (floor_D (first_success [to_datetime (strip (str repr_float value))]))).
Proof.
  intros Hn H46.
  set (text := strip (str repr_float value)) in *.
  assert (all_digits text = true) as Hd.
  { unfold fullmatch_digits in H46. rewrite !andb_true_iff in H46. tauto. }
  pose proof (digits_val_bounds text 0 Hd ltac:(lia)) as Hb.
  assert (fullmatch_digits 8 8 text = false) as H8.
  { destruct (fullmatch_digits 8 8 text) eqn:E; [|done].
    apply fullmatch_digits_exclusive in E. congruence. }
  destruct (to_datetime_unit_D_window (digits_val 0 text)) as [Hin _]; [lia|].
  assert (digits_val 0 text ≤ 132320 →
          normalize repr_float to_datetime value =
          Ok (Some ((digits_val 0 text + days_from_civil 1899 12 30) *
                    ns_per_day))) as Hserial.
  { intros Hle. rewrite normalize_refines. unfold normalize_spec.
    fold text. rewrite Hn, H8, H46, (Hin Hle).
    cbn [app first_success attempt]. by rewrite floor_D_days. }
  split_and!.
  - exact Hserial.
  - intros Hlen. apply Hserial.
    assert (10 ^ Z.of_nat (String.length text) ≤ 10 ^ 5)
      by (apply Z.pow_le_mono_r; lia).
    lia.
  - intros e He. rewrite normalize_refines. unfold normalize_spec.
    fold text. by rewrite Hn, H8, H46, He.
Qed.

(** The text [2024] is 1905-07-16, the 2024th day after 1899-12-30. *)
Lemma digits_read_as_serial_witness :
  normalize (fun _ => "nan") iso_to_datetime (SStr "2024") =
  Ok (Some (Timestamp_of_ymd 1905 7 16)).
Proof.
  apply (proj1 (proj2 (digits_read_as_serial (fun _ => "nan") iso_to_datetime
                         (SStr "2024") eq_refl eq_refl))).
  vm_compute. lia.
Defined.

(** X12: a float cell is never read as a serial or as YYYYMMDD.  The text
    of a Python float always holds a character that is not a digit (a
    point, an exponent, inf or nan); given that, the cell, 45292.0
    included, goes to the generic parser alone. *)
Theorem float_cell_generic (repr_float : float -> string)
    (to_datetime : string -> PyResult (option Timestamp)) (f : float) :
  isna f = false →
  all_digits (strip (repr_float f)) = false →
  normalize repr_float to_datetime (SFloat f) =
  Ok (floor_D (first_success [to_datetime (strip (repr_float f))])).
Proof.
  intros Hn Hd. rewrite normalize_refines. unfold normalize_spec.
  cbn [isna_scalar eq_empty str]. rewrite Hn. cbn [orb].
  unfold fullmatch_digits. by rewrite Hd.
Qed.

Lemma float_cell_generic_witness :
  normalize (fun _ => "45292.0") iso_to_datetime (SFloat 45292) =
  Ok (floor_D (first_success [iso_to_datetime (strip "45292.0")])).
Proof.
  apply (float_cell_generic (fun _ => "45292.0") iso_to_datetime 45292);
    reflexivity.
Defined.

End normalizer_extras.

(** ** The calendar behind [%Y%m%d] and [.dt.year] *)

Section calendar_extras.

Import DateNormalizer.

(** The civil date of a day given by its era, year of the era, month
    counted from March and day of the month. *)
Lemma civil_from_days_parts (era yoe mp d : Z) :
  0 ≤ yoe < 400 → 0 ≤ mp ≤ 11 →
  1 ≤ d ≤ (153 * (mp + 1) + 2) / 5 - (153 * mp + 2) / 5 →
  (153 * mp + 2) / 5 + d - 1 ≤ 364 ∨
  ((153 * mp + 2) / 5 + d - 1 = 365 ∧
   (yoe + 1) mod 4 = 0 ∧ ((yoe + 1) mod 100 ≠ 0 ∨ (yoe + 1) mod 400 = 0)) →
  civil_from_days
    (era * 146097 +
     (yoe * 365 + yoe / 4 - yoe / 100 + ((153 * mp + 2) / 5 + d - 1)) -
     719468) =
  ((if (if mp <? 10 then mp + 3 else mp - 9) <=? 2
    then yoe + era * 400 + 1 else yoe + era * 400),
   if mp <? 10 then mp + 3 else mp - 9, d).
Proof.
  intros Hyoe Hmp Hd Hdoy. unfold civil_from_days.
  set (doy := (153 * mp + 2) / 5 + d - 1) in *.
  set (doe := yoe * 365 + yoe / 4 - yoe / 100 + doy).
  assert (0 ≤ doy ≤ 365) as Hdoy'.
  { destruct Hdoy as [?|[? _]]; subst doy; Z.div_mod_to_equations; lia. }
  assert (0 ≤ doe < 146097) as Hdoe.
  { subst doe. destruct Hdoy as [?|?]; Z.div_mod_to_equations; lia. }
  assert ((era * 146097 + doe - 719468 + 719468) / 146097 = era) as ->.
  { Z.div_mod_to_equations. lia. }
  replace (era * 146097 + doe - 719468 + 719468 - era * 146097) with doe by lia.
  assert ((doe - doe / 1460 + doe / 36524 - doe / 146096) / 365 = yoe) as ->.
  { subst doe. destruct Hdoy as [?|?]; Z.div_mod_to_equations; lia. }
  replace (doe - (365 * yoe + yoe / 4 - yoe / 100)) with doy by (subst doe; lia).
  assert ((5 * doy + 2) / 153 = mp) as ->.
  { subst doy. Z.div_mod_to_equations. lia. }
  by replace (doy - (153 * mp + 2) / 5 + 1) with d by (subst doy; lia).
Qed.

Lemma is_leap_spec (y : Z) :
  is_leap y = true ↔ y mod 4 = 0 ∧ (y mod 100 ≠ 0 ∨ y mod 400 = 0).
Proof.
  unfold is_leap.
  rewrite orb_true_iff, andb_true_iff, negb_true_iff, !Z.eqb_eq, Z.eqb_neq.
  split; [|tauto]. intros [[??]|?]; [tauto|].
  split; [|tauto]. Z.div_mod_to_equations. lia.
Qed.

Lemma days_in_month_cases (y m : Z) :
  1 ≤ m ≤ 12 →
  (m = 2 ∧ days_in_month y m = (if is_leap y then 29 else 28)) ∨
  (m ∈ [4; 6; 9; 11] ∧ days_in_month y m = 30) ∨
  (m ∈ [1; 3; 5; 7; 8; 10; 12] ∧ days_in_month y m = 31).
Proof.
  intros Hm.
  assert (m = 1 ∨ m = 2 ∨ m = 3 ∨ m = 4 ∨ m = 5 ∨ m = 6 ∨ m = 7 ∨ m = 8 ∨
          m = 9 ∨ m = 10 ∨ m = 11 ∨ m = 12) as Hcases by lia.
  destruct_or!; subst m; cbn [days_in_month Z.eqb Pos.eqb orb];
    [right; right|left|right; right|right; left|right; right|right; left|
     right; right|right; right|right; left|right; right|right; left|
     right; right]; (split; [|done]); try decide_labels.
Qed.

(** The civil date of the day count of a valid civil date is that date,
    in every year. *)
Lemma civil_round_trip (y m d : Z) :
  1 ≤ m ≤ 12 → 1 ≤ d ≤ days_in_month y m →
  civil_from_days (days_from_civil y m d) = (y, m, d).
Proof.
  intros Hm Hd. unfold days_from_civil. cbv zeta.
  remember (if m <=? 2 then y - 1 else y) as y' eqn:Hy'.
  remember (if 2 <? m then m - 3 else m + 9) as mp eqn:Hmp'.
  remember (y' / 400) as era eqn:Hera.
  remember (y' - era * 400) as yoe eqn:Hyoe'.
  assert (0 ≤ yoe < 400) as Hyoe.
  { subst yoe era. Z.div_mod_to_equations. lia. }
  assert (0 ≤ mp ≤ 11) as Hmp.
  { rewrite Hmp'. destruct (2 <? m) eqn:H2;
      [apply Z.ltb_lt in H2|apply Z.ltb_ge in H2]; lia. }
  rewrite civil_from_days_parts; [| done | done | |].
  - assert ((if mp <? 10 then mp + 3 else mp - 9) = m) as ->.
    { rewrite Hmp'. destruct (2 <? m) eqn:H2;
        [apply Z.ltb_lt in H2|apply Z.ltb_ge in H2].
      - destruct (m - 3 <? 10) eqn:H10; [lia|apply Z.ltb_ge in H10; lia].
      - destruct (m + 9 <? 10) eqn:H10; [apply Z.ltb_lt in H10; lia|lia]. }
    f_equal. f_equal. destruct (m <=? 2); subst yoe y'; lia.
  - destruct (days_in_month_cases y m Hm)
      as [[-> Hl]|[[Hin Hl]|[Hin Hl]]]; rewrite Hl in Hd.
    + cbn in Hmp'. subst mp. destruct (is_leap y); Z.div_mod_to_equations; lia.
    + rewrite !elem_of_cons, elem_of_nil in Hin.
      destruct_or!; try done; subst m; cbn in Hmp'; subst mp;
        Z.div_mod_to_equations; lia.
    + rewrite !elem_of_cons, elem_of_nil in Hin.
      destruct_or!; try done; subst m; cbn in Hmp'; subst mp;
        Z.div_mod_to_equations; lia.
  - destruct (days_in_month_cases y m Hm)
      as [[-> Hl]|[[Hin Hl]|[Hin Hl]]]; rewrite Hl in Hd.
    + cbn in Hmp', Hy'. subst mp.
      destruct (is_leap y) eqn:Hleap.
      * apply is_leap_spec in Hleap.
        destruct (decide (d = 29)) as [->|?].
        -- right. split; [done|]. subst yoe era y'.
           Z.div_mod_to_equations. lia.
        -- left. Z.div_mod_to_equations. lia.
      * left. Z.div_mod_to_equations. lia.
    + left. rewrite !elem_of_cons, elem_of_nil in Hin.
      destruct_or!; try done; subst m; cbn in Hmp'; subst mp;
        Z.div_mod_to_equations; lia.
    + left. rewrite !elem_of_cons, elem_of_nil in Hin.
      destruct_or!; try done; subst m; cbn in Hmp'; subst mp;
        Z.div_mod_to_equations; lia.
Qed.

Lemma to_datetime_Ymd_valid (text : string) (t : Timestamp) :
  to_datetime_Ymd text = Ok t →
  1 ≤ digits_val 0 (substring 4 2 text) ≤ 12 ∧
  1 ≤ digits_val 0 (substring 6 2 text) ≤
    days_in_month (digits_val 0 (substring 0 4 text))
      (digits_val 0 (substring 4 2 text)).
Proof.
  unfold to_datetime_Ymd.
  destruct (_ && _) eqn:Hvalid; [|done]. intros _.
  rewrite !andb_true_iff, !Z.leb_le in Hvalid. lia.
Qed.

(** X23: a cell of eight digits.  When the trimmed text of a cell is
    exactly eight digits that [%Y%m%d] accepts, the cell is normalised to
    that day without consulting the generic parser, and the calendar date
    read back from the result, the year that line 176 takes for 年份
    included, is the year, month and day written in the text; when
    [%Y%m%d] rejects the digits (no such day, or a day outside the range
    of a [Timestamp]) the text is never a serial and goes to the generic
    parser. *)
Theorem eight_digit_date (repr_float : float -> string)
    (to_datetime : string -> PyResult (option Timestamp)) (value : scalar) :
  isna_scalar value || eq_empty value = false →
  fullmatch_digits 8 8 (strip (str repr_float value)) = true →
  (∀ t : Timestamp,
     to_datetime_Ymd (strip (str repr_float value)) = Ok t →
     normalize repr_float to_datetime value = Ok (Some t) ∧
     civil_from_days (t / ns_per_day) =
       (digits_val 0 (substring 0 4 (strip (str repr_float value))),
        digits_val 0 (substring 4 2 (strip (str repr_float value))),
        digits_val 0 (substring 6 2 (strip (str repr_float value)))) ∧
     YearSheets.dt_year (Some t) =
       Some (digits_val 0 (substring 0 4 (strip (str repr_float value))))) ∧
  (∀ e : exn,
     to_datetime_Ymd (strip (str repr_float value)) = Raise e →
     normalize repr_float to_datetime value =
     Ok (floor_D (first_success [to_datetime (strip (str repr_float value))]))).
Proof.
  intros Hn H8.
  set (text := strip (str repr_float value)) in *.
  pose proof (fullmatch_digits_exclusive text H8) as H46.
  split.
  - intros t Ht.
    pose proof (to_datetime_Ymd_valid text t Ht) as [Hm Hd].
    pose proof (to_datetime_Ymd_Ok text t Ht) as Heq.
    assert (civil_from_days (t / ns_per_day) =
            (digits_val 0 (substring 0 4 text),
             digits_val 0 (substring 4 2 text),
             digits_val 0 (substring 6 2 text))) as Hcivil.
    { rewrite Heq. unfold Timestamp_of_ymd.
      rewrite Z.div_mul by done. by apply civil_round_trip. }
    split_and!; [|done|].
    + rewrite normalize_refines. unfold normalize_spec.
      fold text. rewrite Hn, H8, H46, Ht.
      cbn [app first_success attempt]. rewrite Heq.
      unfold Timestamp_of_ymd. by rewrite floor_D_days.
    + unfold YearSheets.dt_year. cbn [fmap option_fmap option_map].
      by rewrite Hcivil.
  - intros e He. rewrite normalize_refines. unfold normalize_spec.
    fold text. by rewrite Hn, H8, H46, He.
Qed.

(** The text [ 20240229], a leap day. *)
Lemma eight_digit_date_witness :
  normalize (fun _ => "nan") iso_to_datetime (SStr " 20240229") =
    Ok (Some 1709164800000000000) ∧
  civil_from_days (1709164800000000000 / ns_per_day) = (2024, 2, 29) ∧
  YearSheets.dt_year (Some 1709164800000000000) = Some 2024.
Proof.
  apply (proj1 (eight_digit_date (fun _ => "nan") iso_to_datetime
                  (SStr " 20240229") eq_refl eq_refl)
           1709164800000000000).
  reflexivity.
Defined.

End calendar_extras.

(** ** RecordMerger without the uniqueness of catalog codes *)

Section merger_extras.

Import RecordMerger.

Context {Valuation CatalogEntry : Type}.
Variable left_on : Valuation -> option string.
Variable right_on : CatalogEntry -> option string.

Lemma merge_row_length (right : list CatalogEntry) (l : Valuation) :
  length (merge_row left_on right_on right l) =
  (1 `max` length (matches left_on right_on right l))%nat.
Proof.
  unfold merge_row. destruct (matches _ _ _ _) as [|e ms]; [done|].
  rewrite length_fmap. simpl. lia.
Qed.

Lemma merge_row_fst (right : list CatalogEntry) (l : Valuation)
    (lo : Valuation * option CatalogEntry) :
  lo ∈ merge_row left_on right_on right l → lo.1 = l.
Proof.
  unfold merge_row. destruct (matches _ _ _ _) as [|e ms].
  - by intros ->%list_elem_of_singleton.
  - by intros (e' & -> & _)%list_elem_of_fmap.
Qed.

Lemma merge_row_nonempty (right : list CatalogEntry) (l : Valuation) :
  ∃ o, (l, o) ∈ merge_row left_on right_on right l.
Proof.
  unfold merge_row. destruct (matches _ _ _ _) as [|e ms].
  - exists None. by left.
  - exists (Some e). by left.
Qed.

End merger_extras.

(** X13: what the merge does with repeated catalog codes.  With no
    assumption on the catalog, every valuation row is kept, and a
    valuation row whose code [n >= 1] catalog rows carry appears [n]
    times, once with each of them: the output has
    [sum (max 1 (matches))] rows, never fewer than the valuation table. *)
Theorem merge_fan_out {Valuation CatalogEntry : Type}
    (left_on : Valuation -> option string)
    (right_on : CatalogEntry -> option string)
    (valuations : list Valuation) (catalog : list CatalogEntry) :
  length (RecordMerger.merge left_on right_on valuations catalog) =
    sum_list ((fun l =>
                 (1 `max` length (RecordMerger.matches left_on right_on catalog l))%nat)
              <$> valuations) ∧
  (length valuations ≤
   length (RecordMerger.merge left_on right_on valuations catalog))%nat ∧
  (∀ l, l ∈ valuations ↔
        l ∈ (RecordMerger.merge left_on right_on valuations catalog).*1) ∧
  (∀ l e, l ∈ valuations → e ∈ catalog → right_on e = left_on l →
          (l, Some e) ∈ RecordMerger.merge left_on right_on valuations catalog).
Proof.
  unfold RecordMerger.merge. split_and!.
  - induction valuations as [|l v IH]; [done|].
    rewrite bind_cons, length_app, fmap_cons, merge_row_length, IH. done.
  - induction valuations as [|l v IH]; [done|].
    rewrite bind_cons, length_app, merge_row_length. simpl. lia.
  - intros l. rewrite list_elem_of_fmap. split.
    + intros Hl. destruct (merge_row_nonempty left_on right_on catalog l) as [o Ho].
      exists (l, o). split; [done|]. apply list_elem_of_bind. eauto.
    + intros (lo & -> & (l' & Hlo & Hl')%list_elem_of_bind).
      by rewrite (merge_row_fst _ _ _ _ _ Hlo).
  - intros l e Hl He Hk. apply list_elem_of_bind. exists l. split; [|done].
    unfold RecordMerger.merge_row.
    assert (e ∈ RecordMerger.matches left_on right_on catalog l) as Hin
      by by apply elem_of_matches.
    destruct (RecordMerger.matches _ _ _ _) as [|e0 ms];
      [by apply elem_of_nil in Hin|].
    apply list_elem_of_fmap. by exists e.
Qed.

(** A catalog that lists the code [abc] twice. *)
Lemma merge_fan_out_witness :
  RecordMerger.merge fst fst
    [(Some "abc", 1); (Some "xyz", 2)]
    [(Some "abc", 10); (Some "abc", 20)] =
  [((Some "abc", 1), Some (Some "abc", 10));
   ((Some "abc", 1), Some (Some "abc", 20));
   ((Some "xyz", 2), None)] ∧
  length (RecordMerger.merge fst fst
            [(Some "abc", 1); (Some "xyz", 2)]
            [(Some "abc", 10); (Some "abc", 20)]) =
    sum_list ((fun l =>
                 (1 `max` length (RecordMerger.matches fst fst
                                    [(Some "abc", 10); (Some "abc", 20)] l))%nat)
              <$> [(Some "abc", 1); (Some "xyz", 2)]).
Proof.
  split; [reflexivity|].
  apply (merge_fan_out fst fst [(Some "abc", 1); (Some "xyz", 2)]
           [(Some "abc", 10); (Some "abc", 20)]).
Defined.

(** ** The columns of a valuation sheet *)

Section sheet_facts.

Import ReportProjector SheetColumns.

Context {column : Type}.

Implicit Types (sheet s : @frame column) (l old new : string).

Lemma rename_column_labels old new s :
  (rename_column old new s).*1 =
  (fun l => if decide (l = old) then new else l) <$> s.*1.
Proof.
  unfold rename_column. rewrite <- !list_fmap_compose.
  apply list_fmap_ext. intros i [l c] _. simpl. by case_decide.
Qed.

Lemma rename_column_values old new s : (rename_column old new s).*2 = s.*2.
Proof.
  unfold rename_column. rewrite <- list_fmap_compose.
  apply list_fmap_ext. intros i [l c] _. simpl. by case_decide.
Qed.

Lemma elem_of_rename_column old new s l :
  l ∈ (rename_column old new s).*1 ↔
  (l = new ∧ old ∈ s.*1) ∨ (l ≠ old ∧ l ∈ s.*1).
Proof.
  rewrite rename_column_labels, list_elem_of_fmap. split.
  - intros (l' & -> & Hl'). case_decide; subst; auto.
  - intros [[-> Hold]|[Hne Hl]].
    + exists old. by rewrite decide_True.
    + exists l. by rewrite decide_False.
Qed.

Lemma NoDup_rename_column old new s :
  NoDup s.*1 → new ∉ s.*1 → NoDup (rename_column old new s).*1.
Proof.
  intros Hnd Hnew. rewrite rename_column_labels.
  apply NoDup_fmap_2_strong; [|done].
  intros x y Hx Hy. repeat case_decide; congruence.
Qed.

(** The renamed column is found under its new label. *)
Lemma getitem_rename_column old new s :
  new ∉ s.*1 → getitem (rename_column old new s) new =
  match getitem s old with
  | Ok c => Ok c
  | Raise _ => Raise (KeyError new)
  end.
Proof.
  unfold rename_column. induction s as [|[l c] s IH]; intros Hnew; [done|].
  simpl in Hnew. apply not_elem_of_cons in Hnew as [Hne Hnew].
  cbn [fmap list_fmap getitem]. simpl.
  destruct (decide (l = old)) as [->|Hl]; simpl.
  - by rewrite decide_True.
  - rewrite decide_False by done. by apply IH.
Qed.

Lemma getitem_rename_column_ne old new s l :
  l ≠ old → l ≠ new → getitem (rename_column old new s) l = getitem s l.
Proof.
  intros Hold Hnew. unfold rename_column.
  induction s as [|[l0 c] s IH]; [done|].
  cbn [fmap list_fmap getitem]. simpl.
  destruct (decide (l0 = old)) as [->|Hl]; simpl.
  - by rewrite !decide_False by done.
  - case_decide; [done|apply IH].
Qed.

Lemma drop_duplicated_labels (seen : list string) sheet :
  NoDup (drop_duplicated seen sheet).*1 ∧
  ∀ l, l ∈ (drop_duplicated seen sheet).*1 ↔ l ∈ sheet.*1 ∧ l ∉ seen.
Proof.
  revert seen. induction sheet as [|[l0 c] sheet IH]; intros seen.
  { split; [constructor|]. intros l. simpl. split; [by intros ?%elem_of_nil|].
    by intros [?%elem_of_nil _]. }
  simpl. case_decide as Hseen.
  - destruct (IH seen) as [Hnd Hin]. split; [done|].
    intros l. rewrite Hin, elem_of_cons. split; [tauto|].
    intros [[->|?] ?]; [done|tauto].
  - destruct (IH (l0 :: seen)) as [Hnd Hin]. split.
    + simpl. apply NoDup_cons. split; [|done].
      rewrite Hin. intros [_ Hno]. apply Hno. by left.
    + intros l. simpl. rewrite !elem_of_cons, Hin, not_elem_of_cons.
      destruct (decide (l = l0)) as [->|]; tauto.
Qed.

Lemma drop_duplicated_sublist (seen : list string) sheet :
  drop_duplicated seen sheet `sublist_of` sheet.
Proof.
  revert seen. induction sheet as [|[l0 c] sheet IH]; intros seen; [done|].
  simpl. case_decide; [by apply sublist_cons|by apply sublist_skip].
Qed.

Lemma drop_duplicated_nil (seen : list string) sheet :
  seen = [] → drop_duplicated seen sheet = [] → sheet = [].
Proof.
  intros -> Hd. destruct sheet as [|[l0 c] sheet]; [done|].
  cbn [drop_duplicated] in Hd.
  destruct (decide (l0 ∈ [])) as [Hin|]; [by apply elem_of_nil in Hin|done].
Qed.

Lemma strip_columns_values sheet : (strip_columns sheet).*2 = sheet.*2.
Proof.
  unfold strip_columns. rewrite <- list_fmap_compose.
  by apply list_fmap_ext; intros i [l c] _.
Qed.

Lemma alt_not_product_code s l :
  l ∈ alt s → l ≠ "产品代码" ∧ l ≠ "汇总日期" ∧ l ≠ "规模计算日期".
Proof.
  unfold alt. intros [Hc _]%list_elem_of_filter.
  split_and!; intros ->; by vm_compute in Hc.
Qed.

Lemma name_unit_nav_labels s l :
  l ∈ s.*1 → l ∉ alt s → l ∈ (name_unit_nav s).*1.
Proof.
  intros Hl Halt. unfold name_unit_nav.
  destruct (has_column s "最新单位净值"); [done|].
  destruct (alt s) as [|a rest] eqn:Ha; [done|].
  apply elem_of_rename_column. right. split; [|done].
  intros ->. apply Halt. by left.
Qed.

Lemma name_unit_nav_values s : (name_unit_nav s).*2 = s.*2.
Proof.
  unfold name_unit_nav. destruct (has_column s _); [done|].
  destruct (alt s); [done|]. apply rename_column_values.
Qed.

Lemma name_scale_date_values s : (name_scale_date s).*2 = s.*2.
Proof.
  unfold name_scale_date. destruct (has_column s _); [|done].
  apply rename_column_values.
Qed.

Lemma name_product_code_Done s named :
  name_product_code s = Done named →
  "产品代码" ∈ named.*1 ∧ named.*2 = s.*2 ∧
  (NoDup s.*1 → NoDup named.*1) ∧
  (∀ l, l ∈ named.*1 → l = "产品代码" ∨ l ∈ s.*1).
Proof.
  unfold name_product_code, has_column. case_bool_decide as Hp.
  - intros [= <-]. auto.
  - destruct s as [|[first c] rest]; [done|]. intros [= <-].
    split_and!.
    + apply (elem_of_rename_column first "产品代码" ((first, c) :: rest)).
      left. split; [done|]. by left.
    + apply (rename_column_values first "产品代码" ((first, c) :: rest)).
    + intros Hnd.
      by apply (NoDup_rename_column first "产品代码" ((first, c) :: rest)).
    + intros l Hl.
      apply (elem_of_rename_column first "产品代码" ((first, c) :: rest)) in Hl
        as [[-> _]|[_ Hl]]; auto.
Qed.

Lemma normalize_sheet_Done (sheet s : @frame column) :
  normalize_sheet sheet = Done s →
  sheet ≠ [] ∧
  ∃ named,
    name_product_code (drop_duplicated [] (strip_columns sheet)) = Done named ∧
    s = name_scale_date (name_unit_nav named).
Proof.
  unfold normalize_sheet. destruct sheet as [|lc rest]; [done|].
  destruct (name_product_code _) as [named| |]; [|done..].
  intros [= <-]. split; [done|]. by exists named.
Qed.

Lemma name_product_code_nonempty (l0 : string) (c0 : column) rest :
  ∃ named,
    name_product_code (drop_duplicated [] (strip_columns ((l0, c0) :: rest))) =
    Done named.
Proof.
  unfold strip_columns. rewrite fmap_cons. cbn [fst snd drop_duplicated].
  case_decide as Hin; [by apply elem_of_nil in Hin|].
  unfold name_product_code. destruct (has_column _ _); eauto.
Qed.

(** X14: the product-code column of a valuation sheet, the labels of a
    sheet being text.  On a sheet without columns the normalisation
    stops at line 68 with [AttributeError], so that the [IndexError] of
    [sheet.columns[0]] is never reached; every sheet with a column is
    normalised.  The sheet
    then has a 产品代码 column and no 汇总日期 column, its values are
    those of the columns kept (first occurrence of each trimmed label),
    untouched and in order; and when no trimmed label is 产品代码 it is
    the first column that carries that name. *)
Theorem normalize_sheet_product_code (sheet : @frame column) :
  (normalize_sheet sheet = AttributeError ↔ sheet = []) ∧
  normalize_sheet sheet ≠ IndexError ∧
  (sheet ≠ [] → ∃ s, normalize_sheet sheet = Done s) ∧
  (∀ s, normalize_sheet sheet = Done s →
     "产品代码" ∈ s.*1 ∧ ("汇总日期" ∉ s.*1) ∧
     s.*2 = (drop_duplicated [] (strip_columns sheet)).*2 ∧
     s.*2 `sublist_of` sheet.*2 ∧
     (∀ l0 c0 rest,
        sheet = (l0, c0) :: rest →
        "产品代码" ∉ (strip_columns sheet).*1 →
        getitem s "产品代码" = Ok c0)).
Proof.
  split_and!.
  - split; [|by intros ->].
    destruct sheet as [|[l0 c0] rest]; [done|]. unfold normalize_sheet.
    by destruct (name_product_code_nonempty l0 c0 rest) as [named ->].
  - destruct sheet as [|[l0 c0] rest]; [done|]. unfold normalize_sheet.
    by destruct (name_product_code_nonempty l0 c0 rest) as [named ->].
  - destruct sheet as [|[l0 c0] rest]; [done|]. intros _.
    unfold normalize_sheet.
    destruct (name_product_code_nonempty l0 c0 rest) as [named ->]. eauto.
  - intros s (_ & named & Hn & ->)%normalize_sheet_Done.
    set (s1 := drop_duplicated [] (strip_columns sheet)) in *.
    destruct (name_product_code_Done s1 named Hn) as (Hp & Hv & _ & _).
    assert ("产品代码" ∈ (name_unit_nav named).*1) as Hp2.
    { apply name_unit_nav_labels; [done|].
      intros Ha%alt_not_product_code. by destruct Ha. }
    split_and!.
    + unfold name_scale_date. destruct (has_column _ "汇总日期"); [|done].
      apply elem_of_rename_column. by right.
    + unfold name_scale_date, has_column. case_bool_decide as Hh; [|done].
      intros [[? _]|[? _]]%elem_of_rename_column; done.
    + by rewrite name_scale_date_values, name_unit_nav_values.
    + rewrite name_scale_date_values, name_unit_nav_values, Hv.
      rewrite <- (strip_columns_values sheet).
      apply fmap_sublist, drop_duplicated_sublist.
    + intros l0 c0 rest -> Hno.
      assert (∃ tail, s1 = (DateNormalizer.strip l0, c0) :: tail)
        as [tail Hs1].
      { subst s1. unfold strip_columns. rewrite fmap_cons.
        cbn [fst snd drop_duplicated].
        case_decide as Hin; [by apply elem_of_nil in Hin|]. eauto. }
      assert (named = rename_column (DateNormalizer.strip l0) "产品代码" s1)
        as ->.
      { unfold name_product_code, has_column in Hn.
        rewrite bool_decide_eq_false_2 in Hn.
        - rewrite Hs1 in Hn |- *. by injection Hn as <-.
        - intros Hin. apply Hno.
          by apply (proj2 (drop_duplicated_labels [] (strip_columns _))) in Hin
            as [? _]. }
      assert (getitem (rename_column (DateNormalizer.strip l0) "产品代码" s1)
                "产品代码" = Ok c0) as Hg.
      { rewrite Hs1. unfold rename_column. simpl.
        rewrite decide_True by done. simpl. repeat case_decide; done. }
      assert (getitem (name_unit_nav
                (rename_column (DateNormalizer.strip l0) "产品代码" s1))
                "产品代码" = Ok c0) as Hg2.
      { unfold name_unit_nav. destruct (has_column _ "最新单位净值"); [done|].
        destruct (alt _) as [|a more] eqn:Ha; [done|].
        assert (a ∈ alt (rename_column (DateNormalizer.strip l0) "产品代码" s1))
          as Hin by (rewrite Ha; by left).
        apply alt_not_product_code in Hin as (? & _).
        by rewrite getitem_rename_column_ne. }
      unfold name_scale_date. destruct (has_column _ "汇总日期"); [|done].
      by rewrite getitem_rename_column_ne.
Qed.

End sheet_facts.

Section sheet_witnesses.

Import ReportProjector SheetColumns.

(** A sheet whose first column is not named: it becomes 产品代码. *)
Lemma normalize_sheet_product_code_witness :
  "产品代码" ∈ [("产品代码", 1); ("最新单位净值", 2); ("规模计算日期", 3)].*1 ∧
  ("汇总日期" ∉ [("产品代码", 1); ("最新单位净值", 2); ("规模计算日期", 3)].*1) ∧
  [("产品代码", 1); ("最新单位净值", 2); ("规模计算日期", 3)].*2 =
    (drop_duplicated []
       (strip_columns [(" 代码 ", 1); ("单位净值", 2); ("汇总日期", 3)])).*2 ∧
  [("产品代码", 1); ("最新单位净值", 2); ("规模计算日期", 3)].*2
    `sublist_of` [(" 代码 ", 1); ("单位净值", 2); ("汇总日期", 3)].*2 ∧
  (∀ l0 c0 rest,
     [(" 代码 ", 1); ("单位净值", 2); ("汇总日期", 3)] = (l0, c0) :: rest →
     "产品代码" ∉ (strip_columns
                    [(" 代码 ", 1); ("单位净值", 2); ("汇总日期", 3)]).*1 →
     getitem [("产品代码", 1); ("最新单位净值", 2); ("规模计算日期", 3)] "产品代码" =
     Ok c0).
Proof.
  apply (proj2 (proj2 (proj2 (@normalize_sheet_product_code Z
                  [(" 代码 ", 1); ("单位净值", 2); ("汇总日期", 3)])))
           [("产品代码", 1); ("最新单位净值", 2); ("规模计算日期", 3)]).
  reflexivity.
Defined.

End sheet_witnesses.

Section sheet_names.

Import ReportProjector SheetColumns.

Context {column : Type}.

Implicit Types (sheet s : @frame column) (l old new : string).

(** X15: the unit-value column of a valuation sheet.  A sheet with a
    column named 最新单位净值 is left as it is; without one, the first
    column, in column order, whose name contains 单位净值 takes that name
    with its values, and the other columns keep theirs; with no such
    column the sheet stays without a unit value. *)
Theorem unit_nav_first_match (s : @frame column) :
  ("最新单位净值" ∈ s.*1 → name_unit_nav s = s) ∧
  ("最新单位净值" ∉ s.*1 →
   (∀ l, l ∈ s.*1 → DisclosureDateTracker.str_contains "单位净值" l = false) →
   name_unit_nav s = s) ∧
  ("最新单位净值" ∉ s.*1 →
   ∀ a, head (alt s) = Some a →
     (∃ c, getitem s a = Ok c ∧
           getitem (name_unit_nav s) "最新单位净值" = Ok c) ∧
     (∃ before after,
        s.*1 = (before ++ a :: after)%list ∧
        Forall (fun l => DisclosureDateTracker.str_contains "单位净值" l = false)
          before ∧
        DisclosureDateTracker.str_contains "单位净值" a = true) ∧
     (∀ l, l ≠ a → l ≠ "最新单位净值" →
           getitem (name_unit_nav s) l = getitem s l)).
Proof.
  unfold name_unit_nav, has_column. split_and!.
  - intros Hin. by rewrite bool_decide_eq_true_2.
  - intros Hno Hnone. rewrite bool_decide_eq_false_2 by done.
    destruct (alt s) as [|a rest] eqn:Ha; [done|].
    assert (a ∈ alt s) as [Hc Hin]%list_elem_of_filter by (rewrite Ha; by left).
    apply Is_true_true in Hc. rewrite (Hnone a Hin) in Hc. done.
  - intros Hno a Ha. rewrite bool_decide_eq_false_2 by done.
    destruct (alt s) as [|a' rest] eqn:Halt; [done|]. injection Ha as ->.
    assert (head (alt s) = Some a) as Hh by by rewrite Halt.
    unfold alt in Hh.
    apply head_filter_Some in Hh as (before & after & Hs & Hb & Hc).
    assert (a ∈ s.*1) as Hin.
    { rewrite Hs. apply elem_of_app. right. by left. }
    destruct (getitem_present s a Hin) as [c Hget].
    split_and!.
    + exists c. split; [done|]. by rewrite getitem_rename_column, Hget.
    + exists before, after. split_and!; [done| |by apply Is_true_true].
      eapply Forall_impl; [exact Hb|]. intros l Hl. by apply Is_true_false.
    + intros l Hl1 Hl2. by apply getitem_rename_column_ne.
Qed.

Lemma not_NoDup_fmap {A B : Type} (f : A → B) (l : list A) (x y : A) :
  x ∈ l → y ∈ l → x ≠ y → f x = f y → ¬ NoDup (f <$> l).
Proof.
  intros Hx Hy Hne Hf Hnd.
  apply list_elem_of_split in Hx as (l1 & l2 & ->).
  rewrite fmap_app, fmap_cons in Hnd.
  apply NoDup_app in Hnd as (_ & Hdisj & Hnd2).
  apply NoDup_cons in Hnd2 as [Hnot _].
  apply elem_of_app in Hy as [Hy|Hy].
  - apply (Hdisj (f y)); [by apply list_elem_of_fmap_2|]. rewrite <- Hf. by left.
  - apply elem_of_cons in Hy as [->|Hy]; [done|].
    apply Hnot. rewrite Hf. by apply list_elem_of_fmap_2.
Qed.

(** X16: the labels of a normalised sheet.  They are pairwise distinct
    when no trimmed label of the sheet is 规模计算日期; a sheet that has
    a 产品代码 column and both a 汇总日期 and a 规模计算日期 column leaves
    the normalisation with two columns named 规模计算日期. *)
Theorem normalize_sheet_labels (sheet s : @frame column) :
  normalize_sheet sheet = Done s →
  ("规模计算日期" ∉ (strip_columns sheet).*1 → NoDup s.*1) ∧
  ("产品代码" ∈ (strip_columns sheet).*1 →
   "汇总日期" ∈ (strip_columns sheet).*1 →
   "规模计算日期" ∈ (strip_columns sheet).*1 →
   ¬ NoDup s.*1).
Proof.
  intros (_ & named & Hn & ->)%normalize_sheet_Done.
  set (s1 := drop_duplicated [] (strip_columns sheet)) in *.
  destruct (drop_duplicated_labels [] (strip_columns sheet)) as [Hnd1 Hin1].
  fold s1 in Hnd1, Hin1.
  destruct (name_product_code_Done s1 named Hn) as (_ & _ & Hnd & Hsub).
  specialize (Hnd Hnd1).
  split.
  - intros Hno.
    assert ("规模计算日期" ∉ named.*1) as Hno2.
    { intros [?|[Hin _]%Hin1]%Hsub; done. }
    assert (NoDup (name_unit_nav named).*1 ∧
            "规模计算日期" ∉ (name_unit_nav named).*1) as [Hnd3 Hno3].
    { unfold name_unit_nav, has_column. case_bool_decide as Hu; [done|].
      destruct (alt named) as [|a rest]; [done|]. split.
      - by apply NoDup_rename_column.
      - intros [[? _]|[_ ?]]%elem_of_rename_column; done. }
    unfold name_scale_date. destruct (has_column _ "汇总日期"); [|done].
    by apply NoDup_rename_column.
  - intros Hp Hh Hg.
    assert (named = s1) as ->.
    { unfold name_product_code, has_column in Hn.
      rewrite bool_decide_eq_true_2 in Hn; [by injection Hn|].
      apply Hin1. split; [done|apply not_elem_of_nil]. }
    assert ("汇总日期" ∈ (name_unit_nav s1).*1) as Hh2.
    { apply name_unit_nav_labels; [apply Hin1; split; [done|apply not_elem_of_nil]|].
      intros Ha%alt_not_product_code. by destruct Ha as (_ & ? & _). }
    assert ("规模计算日期" ∈ (name_unit_nav s1).*1) as Hg2.
    { apply name_unit_nav_labels; [apply Hin1; split; [done|apply not_elem_of_nil]|].
      intros Ha%alt_not_product_code. by destruct Ha as (_ & _ & ?). }
    unfold name_scale_date, has_column. rewrite bool_decide_eq_true_2 by done.
    rewrite rename_column_labels.
    apply (not_NoDup_fmap _ _ "汇总日期" "规模计算日期"); [done..|].
    by rewrite decide_True, decide_False.
Qed.

End sheet_names.

Section sheet_names_witnesses.

Import ReportProjector SheetColumns.

(** A sheet whose unit value stands under 累计单位净值, before 单位净值. *)
Lemma unit_nav_first_match_witness :
  (∃ c : Z,
     getitem [("产品代码", 1); ("累计单位净值", 2); ("单位净值", 3)] "累计单位净值" = Ok c ∧
     getitem (name_unit_nav [("产品代码", 1); ("累计单位净值", 2); ("单位净值", 3)])
       "最新单位净值" = Ok c) ∧
  (∃ before after,
     [("产品代码", 1); ("累计单位净值", 2); ("单位净值", 3)].*1 =
       (before ++ "累计单位净值" :: after)%list ∧
     Forall (fun l => DisclosureDateTracker.str_contains "单位净值" l = false)
       before ∧
     DisclosureDateTracker.str_contains "单位净值" "累计单位净值" = true) ∧
  (∀ l, l ≠ "累计单位净值" → l ≠ "最新单位净值" →
        getitem (name_unit_nav [("产品代码", 1); ("累计单位净值", 2); ("单位净值", 3)]) l =
        getitem [("产品代码", 1); ("累计单位净值", 2); ("单位净值", 3)] l).
Proof.
  apply (proj2 (proj2 (@unit_nav_first_match Z
           [("产品代码", 1); ("累计单位净值", 2); ("单位净值", 3)]))).
  - apply (bool_decide_unpack _). vm_compute. exact I.
  - reflexivity.
Defined.

Lemma normalize_sheet_labels_witness :
  ("规模计算日期" ∉ (strip_columns
                      [("产品代码", 1); ("汇总日期", 2); ("规模计算日期", 3)]).*1 →
   NoDup [("产品代码", 1); ("规模计算日期", 2); ("规模计算日期", 3)].*1) ∧
  ("产品代码" ∈ (strip_columns
                   [("产品代码", 1); ("汇总日期", 2); ("规模计算日期", 3)]).*1 →
   "汇总日期" ∈ (strip_columns
                   [("产品代码", 1); ("汇总日期", 2); ("规模计算日期", 3)]).*1 →
   "规模计算日期" ∈ (strip_columns
                       [("产品代码", 1); ("汇总日期", 2); ("规模计算日期", 3)]).*1 →
   ¬ NoDup [("产品代码", 1); ("规模计算日期", 2); ("规模计算日期", 3)].*1).
Proof.
  apply (@normalize_sheet_labels Z
           [("产品代码", 1); ("汇总日期", 2); ("规模计算日期", 3)]
           [("产品代码", 1); ("规模计算日期", 2); ("规模计算日期", 3)]).
  reflexivity.
Defined.

End sheet_names_witnesses.

(** ** The sheets of the output workbook *)

Section year_sheets_facts.

Import YearSheets.

Context {A : Type}.
Variable 年份 : A -> option Z.

Implicit Types (rows : list A) (y : Z) (keys : list Z).

Lemma elem_of_year_keys rows y :
  y ∈ year_keys 年份 rows ↔ ∃ r, r ∈ rows ∧ 年份 r = Some y.
Proof.
  unfold year_keys.
  by rewrite merge_sort_Permutation, elem_of_remove_dups, list_elem_of_omap.
Qed.

Lemma NoDup_year_keys rows : NoDup (year_keys 年份 rows).
Proof.
  unfold year_keys. rewrite merge_sort_Permutation. apply NoDup_remove_dups.
Qed.

Lemma year_group_skip rows (r : A) keys :
  (∀ y, y ∈ keys → 年份 r ≠ Some y) →
  keys ≫= year_group 年份 (r :: rows) = keys ≫= year_group 年份 rows.
Proof.
  induction keys as [|y keys IH]; intros Hno; [done|].
  rewrite !bind_cons, IH by (intros y' Hy'; apply Hno; by right).
  f_equal. unfold year_group. rewrite filter_cons_False; [done|].
  apply Hno. by left.
Qed.

(** The groups of distinct keys together hold the rows with a known
    year, each once. *)
Lemma year_groups_partition rows keys :
  NoDup keys →
  (∀ r y, r ∈ rows → 年份 r = Some y → y ∈ keys) →
  keys ≫= year_group 年份 rows ≡ₚ filter (fun r => is_Some (年份 r)) rows.
Proof.
  intros Hnd. induction rows as [|r rows IH]; intros Hall.
  { clear. induction keys as [|y keys IH]; [done|]. by rewrite bind_cons, IH. }
  assert (keys ≫= year_group 年份 rows ≡ₚ
          filter (fun r => is_Some (年份 r)) rows) as IH'.
  { apply IH. intros r' y Hr'. apply Hall. by right. }
  destruct (年份 r) as [y0|] eqn:Hy.
  - rewrite filter_cons_True by by rewrite Hy.
    assert (y0 ∈ keys) as (k1 & k2 & ->)%list_elem_of_split
      by (apply (Hall r); [by left|done]).
    apply NoDup_app in Hnd as (_ & Hdisj & [Hk2 _]%NoDup_cons).
    rewrite bind_app, bind_cons in IH' |- *.
    rewrite !year_group_skip.
    + assert (year_group 年份 (r :: rows) y0 = r :: year_group 年份 rows y0)
        as -> by (unfold year_group; by rewrite filter_cons_True).
      rewrite <- IH'. rewrite <- app_comm_cons.
      symmetry. apply Permutation_middle.
    + intros y Hy2. rewrite Hy. intros [= <-]. done.
    + intros y Hy1. rewrite Hy. intros [= <-]. apply (Hdisj y0); [done|by left].
  - rewrite filter_cons_False by (rewrite Hy; by intros [? ?]).
    rewrite year_group_skip; [done|]. intros y _. by rewrite Hy.
Qed.

(** X17: the workbook when the known reporting years differ.  One sheet
    per year is written, years distinct; each sheet holds, in the order
    of the frame, the rows of its year; together the sheets hold each row
    with a known year exactly once, and a row whose reporting date is
    Unknown is written to no sheet. *)
Theorem year_sheets_partition (rows : list A) (r1 r2 : A) (y1 y2 : Z) :
  r1 ∈ rows → 年份 r1 = Some y1 →
  r2 ∈ rows → 年份 r2 = Some y2 →
  y1 ≠ y2 →
  sheets 年份 rows =
    (fun y => (YearSheet y, year_group 年份 rows y)) <$> year_keys 年份 rows ∧
  NoDup (sheets 年份 rows).*1 ∧
  (∀ name group, (name, group) ∈ sheets 年份 rows →
     ∃ y, name = YearSheet y ∧ group `sublist_of` rows ∧
          Forall (fun r => 年份 r = Some y) group) ∧
  mjoin (sheets 年份 rows).*2 ≡ₚ filter (fun r => is_Some (年份 r)) rows ∧
  (∀ r name group,
     年份 r = None → (name, group) ∈ sheets 年份 rows → r ∉ group).
Proof.
  intros Hr1 Hy1 Hr2 Hy2 Hne.
  assert (sheets 年份 rows =
    (fun y => (YearSheet y, year_group 年份 rows y)) <$> year_keys 年份 rows)
    as Hsheets.
  { unfold sheets.
    assert (y1 ∈ year_keys 年份 rows) as Hk1 by (apply elem_of_year_keys; eauto).
    assert (y2 ∈ year_keys 年份 rows) as Hk2 by (apply elem_of_year_keys; eauto).
    destruct (year_keys 年份 rows) as [|k [|k' ks]]; [done| |done].
    apply list_elem_of_singleton in Hk1, Hk2. congruence. }
  rewrite Hsheets. split_and!.
  - done.
  - rewrite <- list_fmap_compose. apply NoDup_fmap_2; [|apply NoDup_year_keys].
    by intros y y' [= ->].
  - intros name group (y & [= -> ->] & _)%list_elem_of_fmap.
    exists y. split_and!; [done|apply sublist_filter|].
    apply Forall_forall. by intros r [? _]%list_elem_of_filter.
  - rewrite <- list_fmap_compose.
    rewrite <- (year_groups_partition rows (year_keys 年份 rows)).
    + clear. induction (year_keys 年份 rows) as [|y keys IH]; [done|].
      rewrite fmap_cons, bind_cons. simpl. by rewrite IH.
    + apply NoDup_year_keys.
    + intros r y Hr Hy. apply elem_of_year_keys. eauto.
  - intros r name group Hnone (y & [= -> ->] & _)%list_elem_of_fmap.
    intros [Hy _]%list_elem_of_filter. congruence.
Qed.

(** X18: the workbook when all known reporting years are one year, and
    when there is none.  With one known year a single sheet holds the
    whole frame, the rows with an Unknown reporting date included, and
    the workbook is saved.  With no known year the body writes no sheet
    and the close of the writer raises [IndexError]; that is the only
    case in which it does. *)
Theorem year_sheets_single (rows : list A) :
  (∀ (r0 : A) (y : Z),
     r0 ∈ rows → 年份 r0 = Some y →
     (∀ r, r ∈ rows → 年份 r = Some y ∨ 年份 r = None) →
     sheets 年份 rows = [(SingleSheet, rows)] ∧
     write_workbook 年份 rows = Saved [(SingleSheet, rows)]) ∧
  ((∀ r, r ∈ rows → 年份 r = None) →
   sheets 年份 rows = [] ∧ write_workbook 年份 rows = IndexError) ∧
  (write_workbook 年份 rows = IndexError → ∀ r, r ∈ rows → 年份 r = None).
Proof.
  split_and!.
  - intros r0 y Hr0 Hy Hall.
    assert (sheets 年份 rows = [(SingleSheet, rows)]) as Hs;
      [|by unfold write_workbook; rewrite Hs].
    unfold sheets.
    assert (year_keys 年份 rows = [y]) as ->; [|done].
    assert (y ∈ year_keys 年份 rows) as Hin by (apply elem_of_year_keys; eauto).
    assert (∀ y', y' ∈ year_keys 年份 rows → y' = y) as Honly.
    { intros y' (r & Hr & Hy')%elem_of_year_keys.
      destruct (Hall r Hr); congruence. }
    pose proof (NoDup_year_keys rows) as Hnd.
    destruct (year_keys 年份 rows) as [|k [|k' ks]]; [by apply elem_of_nil in Hin| |].
    + f_equal. apply Honly. by left.
    + apply NoDup_cons in Hnd as [Hk _]. destruct Hk.
      rewrite (Honly k), (Honly k'); [by left|by right; left|by left].
  - intros Hnone.
    assert (sheets 年份 rows = []) as Hs;
      [|by unfold write_workbook; rewrite Hs].
    unfold sheets.
    assert (year_keys 年份 rows = []) as ->; [|done].
    destruct (year_keys 年份 rows) as [|k ks] eqn:Hk; [done|].
    assert (k ∈ year_keys 年份 rows) as (r & Hr & Hy)%elem_of_year_keys
      by (rewrite Hk; by left).
    rewrite (Hnone r Hr) in Hy. done.
  - unfold write_workbook, sheets. intros Hw r Hr.
    destruct (年份 r) as [y|] eqn:Hy; [exfalso|done].
    assert (y ∈ year_keys 年份 rows) as Hin by (apply elem_of_year_keys; eauto).
    destruct (year_keys 年份 rows) as [|k [|k' ks]];
      [by apply elem_of_nil in Hin|done..].
Qed.

End year_sheets_facts.

Section year_sheets_witnesses.

Import YearSheets.

Lemma year_sheets_partition_witness :
  sheets fst [(Some 2024, "a"); (None, "b"); (Some 2023, "c"); (Some 2024, "d")] =
    [(YearSheet 2023, [(Some 2023, "c")]);
     (YearSheet 2024, [(Some 2024, "a"); (Some 2024, "d")])] ∧
  mjoin (sheets fst [(Some 2024, "a"); (None, "b"); (Some 2023, "c");
                     (Some 2024, "d")]).*2 ≡ₚ
    filter (fun r => is_Some r.1)
      [(Some 2024, "a"); (None, "b"); (Some 2023, "c"); (Some 2024, "d")].
Proof.
  split; [reflexivity|].
  apply (year_sheets_partition fst
           [(Some 2024, "a"); (None, "b"); (Some 2023, "c"); (Some 2024, "d")]
           (Some 2024, "a") (Some 2023, "c") 2024 2023);
    first [reflexivity | lia | apply (bool_decide_unpack _); vm_compute; exact I].
Defined.

Lemma year_sheets_single_witness :
  sheets fst [(Some 2024, "a"); (None, "b"); (Some 2024, "d")] =
    [(SingleSheet, [(Some 2024, "a"); (None, "b"); (Some 2024, "d")])] ∧
  write_workbook fst [(Some 2024, "a"); (None, "b"); (Some 2024, "d")] =
    Saved [(SingleSheet, [(Some 2024, "a"); (None, "b"); (Some 2024, "d")])].
Proof.
  apply (proj1 (year_sheets_single fst
                  [(Some 2024, "a"); (None, "b"); (Some 2024, "d")])
           (Some 2024, "a") 2024); [by left|reflexivity|].
  intros r. rewrite !elem_of_cons, elem_of_nil.
  intros [->|[->|[->|[]]]]; auto.
Defined.

End year_sheets_witnesses.

(** ** ReportProjector: where the columns of the report come from *)

Section projector_extras.

Import ReportProjector.

Context {column : Type}.
Variable DataFrame : list column → column.
Variable parse_mixed_date scale strftime year : column → PyResult column.
Variable annualized_return : @frame column → PyResult column.
Variable disclosure_dates :
  column → column → column → column → PyResult column.
Variable has_group : column → bool.
Variable no_dates : column → column.

Implicit Types (df out : @frame column) (l lin lout : string) (c : column).

Local Abbreviation pipeline :=
  (pipeline DataFrame parse_mixed_date scale strftime year annualized_return
     disclosure_dates has_group no_dates).
Local Abbreviation pre := (pre parse_mixed_date).
Local Abbreviation post := (post scale strftime).

(** Shared by the properties below. *)
Lemma report_column_provenance_aux df out (i : nat) lin lout :
  pipeline df = Ok out →
  final_columns !! i = Some lin → report_columns !! i = Some lout →
  lin ∉ ["成立以来年化收益率（%）"; "最新累计净值"; "最新净值日期"] →
  ∃ c c1 c',
    columns_of df lin = [c] ∧ getitem df lin = Ok c ∧
    pre lin c = Ok c1 ∧ post lout c1 = Ok c' ∧
    columns_of out lout = [c'] ∧ getitem out lout = Ok c'.
Proof.
  intros Hrun Hin Hout Hder.
  destruct (pipeline_single _ _ _ _ _ _ _ _ _ _ _ Hrun)
    as (cleaned & nav & returns & result & Hc & _ & _ & _ & Hp & Hexp & _).
  apply project_lookup in Hp as (_ & _ & Hlookup & _).
  destruct (Hlookup i lin lout Hin Hout) as (c1 & c' & Hc1 & Hpost & Ho).
  rewrite !not_elem_of_cons in Hder. destruct Hder as (H1 & H2 & H3 & _).
  rewrite !columns_of_setitem_ne in Hc1 by done.
  destruct (Hexp lin) as [c Hcol].
  { unfold expected_columns. rewrite elem_of_remove_dups.
    apply list_elem_of_filter. split.
    - rewrite !not_elem_of_cons. split_and!; [done..|apply not_elem_of_nil].
    - by eapply list_elem_of_lookup_2. }
  assert (NoDup cleaned_columns) as Hndc by decide_labels.
  destruct (transform_present_columns DataFrame _ _ _ _ lin Hndc Hc)
    as (_ & _ & Hone).
  destruct (Hone c Hcol) as (c1' & Hpre & Hcl).
  assert (c1' = c1) as -> by congruence.
  exists c, c1, c'. split_and!; try done.
  - by eapply columns_of_getitem.
  - by eapply columns_of_getitem.
Qed.

(** X19: where a report column comes from.  When the run reaches its
    end, the i-th column of the report carries the i-th label of the
    rename list and the values of the one merged column under the i-th
    selected label (for a label the script does not compute itself),
    passed through [parse_mixed_date] if it is one of the five date
    columns, through the hundred-million scaling if its report label is
    one of the four scaled ones, and through [strftime] if its report
    label is a formatted one, none of which raised; nothing else touches
    it. *)
Theorem report_column_provenance df out (i : nat) lin lout :
  pipeline df = Ok out →
  final_columns !! i = Some lin → report_columns !! i = Some lout →
  lin ∉ ["成立以来年化收益率（%）"; "最新累计净值"; "最新净值日期"] →
  ∃ c c1 c',
    columns_of df lin = [c] ∧ getitem df lin = Ok c ∧
    pre lin c = Ok c1 ∧ post lout c1 = Ok c' ∧
    columns_of out lout = [c'] ∧ getitem out lout = Ok c'.
Proof. apply report_column_provenance_aux. Qed.

Lemma setitem_inj df l c c' : setitem df l c = setitem df l c' → c = c'.
Proof.
  intros Heq. apply (f_equal (fun fr => columns_of fr l)) in Heq.
  rewrite !columns_of_setitem_eq in Heq.
  destruct (length (columns_of df l) `max` 1)%nat as [|n] eqn:Hn; [lia|].
  by injection Heq.
Qed.

Lemma post_plain lout c :
  lout ∉ scaled_columns → lout ∉ formatted_columns → post lout c = Ok c.
Proof.
  intros Hs Hf. unfold ReportProjector.post.
  by rewrite (bool_decide_eq_false_2 _ Hs), (bool_decide_eq_false_2 _ Hf).
Qed.

Lemma post_formatted lout c :
  lout ∉ scaled_columns → lout ∈ formatted_columns →
  post lout c = strftime c.
Proof.
  intros Hs Hf. unfold ReportProjector.post.
  by rewrite (bool_decide_eq_false_2 _ Hs), (bool_decide_eq_true_2 _ Hf).
Qed.

Lemma post_scaled lout c :
  lout ∈ scaled_columns → lout ∉ formatted_columns → post lout c = scale c.
Proof.
  intros Hs Hf. unfold ReportProjector.post.
  rewrite (bool_decide_eq_true_2 _ Hs), (bool_decide_eq_false_2 _ Hf).
  by destruct (scale c).
Qed.

Lemma pre_plain lin c : lin ∉ cleaned_columns → pre lin c = Ok c.
Proof.
  intros Hc. unfold ReportProjector.pre.
  by rewrite (bool_decide_eq_false_2 _ Hc).
Qed.

Lemma pre_cleaned lin c :
  lin ∈ cleaned_columns → pre lin c = parse_mixed_date c.
Proof.
  intros Hc. unfold ReportProjector.pre.
  by rewrite (bool_decide_eq_true_2 _ Hc).
Qed.

(** X20: the columns the script computes.  When the run reaches its end,
    the report's 最新累计净值 is the merged unit value, equal to its
    最新单位净值; 年份 is the year of the normalised reporting date;
    最新净值日期 is the formatted result of the tracker, which walks the
    product code, the normalised reporting date, the operating mode and
    the unit value when there is a product group, and reads none of the
    last three when there is none; and the annualized return is computed
    on the frame as the date normalisation left it. *)
Theorem report_computed_columns df out :
  pipeline df = Ok out →
  ∃ (cleaned : @frame column)
    (code dates mode nav dates' returns result years sdates sresult : column),
    transform_present DataFrame parse_mixed_date cleaned_columns df =
      Ok cleaned ∧
    getitem df "产品代码" = Ok code ∧
    getitem df "规模计算日期" = Ok dates ∧
    getitem df "运作模式" = Ok mode ∧
    getitem df "最新单位净值" = Ok nav ∧
    parse_mixed_date dates = Ok dates' ∧
    annualized_return cleaned = Ok returns ∧
    (if has_group code then disclosure_dates code dates' mode nav
     else Ok (no_dates code)) = Ok result ∧
    year dates' = Ok years ∧
    strftime dates' = Ok sdates ∧
    strftime result = Ok sresult ∧
    getitem out "最新单位净值" = Ok nav ∧
    getitem out "最新累计净值" = Ok nav ∧
    getitem out "年份" = Ok years ∧
    getitem out "规模计算日期" = Ok sdates ∧
    getitem out "最新净值日期" = Ok sresult ∧
    getitem out "成立以来年化收益率（%）" = Ok returns.
Proof.
  intros Hrun.
  destruct (pipeline_single _ _ _ _ _ _ _ _ _ _ _ Hrun)
    as (cleaned & nav & returns & result & Hc & Hr & Hnav & Hd & Hp &
        Hexp & _).
  assert (NoDup cleaned_columns) as Hndc by decide_labels.
  destruct (Hexp "产品代码") as [code Hcode]; [decide_labels|].
  destruct (Hexp "规模计算日期") as [dates Hdates]; [decide_labels|].
  destruct (Hexp "运作模式") as [mode Hmode]; [decide_labels|].
  destruct (Hexp "最新单位净值") as [nav0 Hnav0]; [decide_labels|].
  destruct (transform_present_columns DataFrame _ _ _ _ "产品代码" Hndc Hc)
    as (_ & Hk1 & _).
  destruct (transform_present_columns DataFrame _ _ _ _ "运作模式" Hndc Hc)
    as (_ & Hk2 & _).
  destruct (transform_present_columns DataFrame _ _ _ _ "最新单位净值" Hndc Hc)
    as (_ & Hk3 & _).
  destruct (transform_present_columns DataFrame _ _ _ _ "规模计算日期" Hndc Hc)
    as (_ & _ & Hk4).
  rewrite <- Hk1 in Hcode by decide_labels.
  rewrite <- Hk2 in Hmode by decide_labels.
  rewrite Hk3, Hnav0 in Hnav by decide_labels. injection Hnav as <-.
  destruct (Hk4 dates Hdates) as (dates' & Hparse & Hdates').
  rewrite bool_decide_eq_true_2 in Hparse by decide_labels.
  set (with_nav :=
         setitem (setitem cleaned "成立以来年化收益率（%）" returns)
           "最新累计净值" nav0) in *.
  rewrite (add_disclosure_date_single DataFrame disclosure_dates has_group
             no_dates with_nav code dates' mode nav0) in Hd.
  2-5: subst with_nav; rewrite !columns_of_setitem_ne by done; try done.
  2:{ by rewrite Hk3 by decide_labels. }
  destruct (if has_group code then _ else _) as [result'|e] eqn:Hres;
    [|done].
  cbn [mbind PyResult_bind] in Hd. injection Hd as Hd.
  apply setitem_inj in Hd as ->.
  apply project_lookup in Hp as (_ & _ & Hlookup & (d & years & Hd & Hy & Hyo)).
  assert (d = dates') as ->.
  { subst with_nav. rewrite !columns_of_setitem_ne in Hd by done. congruence. }
  destruct (Hlookup 0%nat _ _ eq_refl eq_refl) as (c0 & s0 & Hc0 & Hp0 & Ho0).
  destruct (Hlookup 21%nat _ _ eq_refl eq_refl)
    as (c21 & s21 & Hc21 & Hp21 & Ho21).
  destruct (Hlookup 22%nat _ _ eq_refl eq_refl)
    as (c22 & s22 & Hc22 & Hp22 & Ho22).
  destruct (Hlookup 23%nat _ _ eq_refl eq_refl)
    as (c23 & s23 & Hc23 & Hp23 & Ho23).
  destruct (Hlookup 24%nat _ _ eq_refl eq_refl)
    as (c24 & s24 & Hc24 & Hp24 & Ho24).
  rewrite post_formatted in Hp0, Hp24 by decide_labels.
  rewrite post_plain in Hp21, Hp22, Hp23 by decide_labels.
  injection Hp21 as <-. injection Hp22 as <-. injection Hp23 as <-.
  subst with_nav.
  rewrite !columns_of_setitem_ne in Hc0, Hc22 by done.
  rewrite columns_of_setitem_ne in Hc21, Hc23 by done.
  assert (c0 = dates') as -> by congruence.
  assert (c22 = nav0) as ->.
  { rewrite Hk3, Hnav0 in Hc22 by decide_labels. congruence. }
  assert (c23 = nav0) as ->.
  { rewrite columns_of_setitem_eq in Hc23.
    destruct (_ `max` 1)%nat as [|n]; [done|]. by injection Hc23. }
  assert (c21 = returns) as ->.
  { rewrite columns_of_setitem_ne, columns_of_setitem_eq in Hc21 by done.
    destruct (_ `max` 1)%nat as [|n]; [done|]. by injection Hc21. }
  assert (c24 = result) as ->.
  { rewrite columns_of_setitem_eq in Hc24.
    destruct (_ `max` 1)%nat as [|n]; [done|]. by injection Hc24. }
  exists cleaned, code, dates, mode, nav0, dates', returns, result, years,
    s0, s24.
  rewrite Hk1 in Hcode by decide_labels. rewrite Hk2 in Hmode by decide_labels.
  split_and!; try done; by eapply columns_of_getitem.
Qed.

(** X21: 产品市值 is selected twice.  When the run reaches its end, the
    report's 计算日存续规模（亿元） and 折合人民币计算日存续规模（亿元）
    both hold the scaled values of the one merged column 产品市值. *)
Theorem market_value_reported_twice df out :
  pipeline df = Ok out →
  ∃ c c', getitem df "产品市值" = Ok c ∧ columns_of df "产品市值" = [c] ∧
          scale c = Ok c' ∧
          getitem out "计算日存续规模（亿元）" = Ok c' ∧
          getitem out "折合人民币计算日存续规模（亿元）" = Ok c'.
Proof.
  intros Hrun.
  destruct (report_column_provenance_aux df out 19 _ _ Hrun eq_refl eq_refl)
    as (c & c1 & c' & Hc & Hg & Hpre & Hpost & _ & H19); [decide_labels|].
  destruct (report_column_provenance_aux df out 20 _ _ Hrun eq_refl eq_refl)
    as (d & d1 & d' & Hd & _ & Hpre' & Hpost' & _ & H20); [decide_labels|].
  assert (d = c) as -> by congruence.
  rewrite pre_plain in Hpre, Hpre' by decide_labels.
  injection Hpre as <-. injection Hpre' as <-.
  rewrite post_scaled in Hpost, Hpost' by decide_labels.
  assert (d' = c') as -> by congruence.
  by exists c, c'.
Qed.

(** X22: when the run reaches its end.  A run that does had every
    expected field over exactly one column of the merged frame and no
    selected label over more than one (a missing one stops it with
    [KeyError], a repeated one at the latest when 30 labels are assigned
    to more than 30 columns), and leaves the 30 labels of the rename
    list followed by 年份, in that order, whatever other columns the
    merged frame has and in whatever order.  When the column operations
    raise nothing, these conditions are also enough. *)
Theorem pipeline_reaches_end df :
  (∀ out, pipeline df = Ok out →
     (∀ l, l ∈ expected_columns → ∃ c, columns_of df l = [c]) ∧
     (∀ l, l ∈ final_columns → (length (columns_of df l) ≤ 1)%nat) ∧
     out.*1 = (report_columns ++ ["年份"])%list) ∧
  ((∀ c, ∃ c', parse_mixed_date c = Ok c') →
   (∀ c, ∃ c', scale c = Ok c') → (∀ c, ∃ c', strftime c = Ok c') →
   (∀ c, ∃ c', year c = Ok c') →
   (∀ fr, ∃ c', annualized_return fr = Ok c') →
   (∀ code dates mode nav, ∃ c',
      disclosure_dates code dates mode nav = Ok c') →
   ((∃ out, pipeline df = Ok out) ↔
    (∀ l, l ∈ expected_columns → ∃ c, columns_of df l = [c]) ∧
    (∀ l, l ∈ ["成立以来年化收益率（%）"; "最新累计净值"; "最新净值日期"] →
          (length (columns_of df l) ≤ 1)%nat))).
Proof.
  split.
  - intros out Hrun.
    destruct (pipeline_single _ _ _ _ _ _ _ _ _ _ _ Hrun)
      as (cleaned & nav & returns & result & _ & _ & _ & _ & Hp & Hexp & Hle).
    apply project_lookup in Hp as (Hlabels & _). done.
  - intros Hparse Hscale Hstrftime Hyear Hreturn Hdates. split.
    + intros [out Hrun].
      destruct (pipeline_single _ _ _ _ _ _ _ _ _ _ _ Hrun)
        as (cleaned & nav & returns & result & _ & _ & _ & _ & _ & Hexp & Hle).
      split; [done|]. intros l Hl. apply Hle. revert Hl.
      rewrite !elem_of_cons, elem_of_nil.
      intros [->|[->|[->|[]]]]; decide_labels.
    + intros [Hexp Hder]. by apply pipeline_Ok.
Qed.

End projector_extras.

Section projector_extras_witnesses.

Import ReportProjector.

Local Abbreviation DataFrame := (fun _ : list string => "DataFrame").
Local Abbreviation parse := (fun c => Ok (String.append "parse " c)).
Local Abbreviation scale := (fun c => Ok (String.append "scale " c)).
Local Abbreviation strftime := (fun c => Ok (String.append "strftime " c)).
Local Abbreviation year := (fun c => Ok (String.append "year " c)).
Local Abbreviation annualized_return :=
  (fun _ : @frame string => Ok "return").
Local Abbreviation disclosure_dates :=
  (fun code dates mode nav : string =>
     Ok (String.append "disclosure " dates)).
Local Abbreviation has_group := (fun _ : string => true).
Local Abbreviation no_dates := (fun _ : string => "NaT").

(** 实际募集总规模（亿元）, selected as 实际募集总规模, on the sample run. *)
Lemma report_column_provenance_witness :
  ∃ c c1 c',
    columns_of sample_merged "实际募集总规模" = [c] ∧
    getitem sample_merged "实际募集总规模" = Ok c ∧
    pre parse "实际募集总规模" c = Ok c1 ∧
    post scale strftime "实际募集总规模（亿元）" c1 = Ok c' ∧
    columns_of sample_report "实际募集总规模（亿元）" = [c'] ∧
    getitem sample_report "实际募集总规模（亿元）" = Ok c'.
Proof.
  apply (report_column_provenance DataFrame parse scale strftime year
           annualized_return disclosure_dates has_group no_dates
           sample_merged sample_report 17).
  - vm_compute. reflexivity.
  - reflexivity.
  - reflexivity.
  - decide_labels.
Defined.

Lemma report_computed_columns_witness :
  ∃ (cleaned : @frame string)
    (code dates mode nav dates' returns result years sdates sresult : string),
    transform_present DataFrame parse cleaned_columns sample_merged =
      Ok cleaned ∧
    getitem sample_merged "产品代码" = Ok code ∧
    getitem sample_merged "规模计算日期" = Ok dates ∧
    getitem sample_merged "运作模式" = Ok mode ∧
    getitem sample_merged "最新单位净值" = Ok nav ∧
    parse dates = Ok dates' ∧
    annualized_return cleaned = Ok returns ∧
    (if has_group code then disclosure_dates code dates' mode nav
     else Ok (no_dates code)) = Ok result ∧
    year dates' = Ok years ∧
    strftime dates' = Ok sdates ∧
    strftime result = Ok sresult ∧
    getitem sample_report "最新单位净值" = Ok nav ∧
    getitem sample_report "最新累计净值" = Ok nav ∧
    getitem sample_report "年份" = Ok years ∧
    getitem sample_report "规模计算日期" = Ok sdates ∧
    getitem sample_report "最新净值日期" = Ok sresult ∧
    getitem sample_report "成立以来年化收益率（%）" = Ok returns.
Proof.
  apply (report_computed_columns DataFrame parse scale strftime year
           annualized_return disclosure_dates has_group no_dates
           sample_merged sample_report).
  vm_compute. reflexivity.
Defined.

Lemma market_value_reported_twice_witness :
  ∃ c c', getitem sample_merged "产品市值" = Ok c ∧
          columns_of sample_merged "产品市值" = [c] ∧
          scale c = Ok c' ∧
          getitem sample_report "计算日存续规模（亿元）" = Ok c' ∧
          getitem sample_report "折合人民币计算日存续规模（亿元）" = Ok c'.
Proof.
  apply (market_value_reported_twice DataFrame parse scale strftime year
           annualized_return disclosure_dates has_group no_dates
           sample_merged sample_report).
  vm_compute. reflexivity.
Defined.

(** The sample run ends, with the 31 labels. *)
Lemma pipeline_reaches_end_witness :
  (∀ l, l ∈ expected_columns → ∃ c, columns_of sample_merged l = [c]) ∧
  (∀ l, l ∈ final_columns → (length (columns_of sample_merged l) ≤ 1)%nat) ∧
  sample_report.*1 = (report_columns ++ ["年份"])%list.
Proof.
  apply (proj1 (pipeline_reaches_end DataFrame parse scale strftime year
                  annualized_return disclosure_dates has_group no_dates
                  sample_merged) sample_report).
  vm_compute. reflexivity.
Defined.

(** The sample frame with a second column 产品名称: the selection has 31
    columns and the 30 labels of line 160 do not fit. *)
Lemma repeated_label_stops_the_run :
  pipeline DataFrame parse scale strftime year annualized_return
    disclosure_dates has_group no_dates
    (("产品名称", "again") :: sample_merged) = Raise ValueError.
Proof. by vm_compute. Qed.

End projector_extras_witnesses.
